(** * Wisper: correction learning, classification fallback and retrieval

    A shallow embedding of the stateful core of [AI_integreted_whisper.py]
    (classes [ClaudeWhisperIntegration] and [IntegratedVoiceRAGSystem],
    with the storage of the API key, the validation of what is typed and
    the batch) and of [voice_rag_poc.py] ([VoiceRAGSystem]).

    Conventions of the embedding:
    - a Python [str] is the list of its Unicode code points ([pystr]);
    - a Python [float] is a binary64 value ([PrimFloat.float]), so that
      [(a + b) / 2] is computed exactly as the interpreter computes it;
    - a Python [int] is a [Z];
    - a Python [dict] is an association list in insertion order ([dict]);
    - [self] is threaded explicitly: every method takes the object state
      and returns the new one;
    - what the program obtains from outside (speech recognition, HTTP
      replies, the clock, the file system, the embedding model) is an
      argument of the function that asks for it. *)

From Stdlib Require Import List Bool Arith ZArith NArith Lia Permutation.
From Stdlib Require Import Strings.String Strings.Byte DecimalString.
From Stdlib Require Import Floats.
Import ListNotations.

Set Implicit Arguments.
Set Warnings "-inexact-float".
Open Scope list_scope.

(* ================================================================== *)
(** * Python strings *)
(* ================================================================== *)

Definition codepoint := N.
Definition pystr := list codepoint.

(** ** Literals

    String literals of this file are UTF-8; [py] decodes them into code
    points, so that [len (py "党主") = 2] as in Python. *)

Fixpoint utf8_decode (bs : list N) : pystr :=
  match bs with
  | [] => []
  | b0 :: r0 =>
    if (b0 <? 128)%N then b0 :: utf8_decode r0
    else if (b0 <? 224)%N then
      match r0 with
      | b1 :: r1 =>
        (N.land b0 31 * 64 + N.land b1 63)%N :: utf8_decode r1
      | _ => []
      end
    else if (b0 <? 240)%N then
      match r0 with
      | b1 :: b2 :: r2 =>
        (N.land b0 15 * 4096 + N.land b1 63 * 64 + N.land b2 63)%N
          :: utf8_decode r2
      | _ => []
      end
    else
      match r0 with
      | b1 :: b2 :: b3 :: r3 =>
        (N.land b0 7 * 262144 + N.land b1 63 * 4096
         + N.land b2 63 * 64 + N.land b3 63)%N :: utf8_decode r3
      | _ => []
      end
  end.

Definition py (s : string) : pystr :=
  utf8_decode (map Byte.to_N (list_byte_of_string s)).
Arguments py s%_string.

(** ** Equality, [len] *)

Fixpoint str_eqb (a b : pystr) : bool :=
  match a, b with
  | [], [] => true
  | x :: a', y :: b' => (x =? y)%N && str_eqb a' b'
  | _, _ => false
  end.

Definition str_len (s : pystr) : Z := Z.of_nat (List.length s).

(** ** [str.isspace] on one character

    The characters CPython's [Py_UNICODE_ISSPACE] accepts; [str.split()]
    with no argument and [str.strip()] use this set. *)

Definition isspace (c : codepoint) : bool :=
  ((9 <=? c) && (c <=? 13) || (28 <=? c) && (c <=? 32)
   || (c =? 133) || (c =? 160) || (c =? 5760)
   || (8192 <=? c) && (c <=? 8202)
   || (c =? 8232) || (c =? 8233) || (c =? 8239) || (c =? 8287)
   || (c =? 12288))%N.

(** ** [str.split()] : maximal runs of non-space characters *)

Fixpoint str_split_from (cur : pystr) (s : pystr) : list pystr :=
  match s with
  | [] => match cur with [] => [] | _ => [rev cur] end
  | c :: r =>
    if isspace c then
      match cur with
      | [] => str_split_from [] r
      | _ => rev cur :: str_split_from [] r
      end
    else str_split_from (c :: cur) r
  end.

Definition str_split (s : pystr) : list pystr := str_split_from [] s.

(** ** [str.strip()] *)

Fixpoint str_lstrip (s : pystr) : pystr :=
  match s with
  | c :: r => if isspace c then str_lstrip r else s
  | [] => []
  end.

Definition str_rstrip (s : pystr) : pystr := rev (str_lstrip (rev s)).
Definition str_strip (s : pystr) : pystr := str_rstrip (str_lstrip s).

(** ** Substrings: [in], [str.count], [str.replace] *)

Fixpoint str_startswith (p s : pystr) : bool :=
  match p, s with
  | [], _ => true
  | x :: p', y :: s' => (x =? y)%N && str_startswith p' s'
  | _ :: _, [] => false
  end.

(** [sub in s] *)
Fixpoint str_contains (sub s : pystr) : bool :=
  str_startswith sub s ||
  match s with
  | [] => false
  | _ :: r => str_contains sub r
  end.

(** [s.count(sub)]: occurrences found left to right without overlap;
    [skip] is the number of characters of the last occurrence still to
    pass.  Python counts [len(s) + 1] occurrences of the empty string. *)
Fixpoint str_count_from (sub : pystr) (skip : nat) (s : pystr) : Z :=
  match s with
  | [] => 0
  | _ :: r =>
    match skip with
    | S k => str_count_from sub k r
    | O =>
      if str_startswith sub s
      then 1 + str_count_from sub (List.length sub - 1) r
      else str_count_from sub 0 r
    end
  end.

Definition str_count (s sub : pystr) : Z :=
  match sub with
  | [] => str_len s + 1
  | _ => str_count_from sub 0 s
  end.

(** [s.replace(old, new)]: every occurrence, left to right, without
    overlap; an empty [old] matches before every character and at the
    end. *)
Fixpoint str_replace_from (old new : pystr) (skip : nat) (s : pystr) : pystr :=
  match s with
  | [] => []
  | c :: r =>
    match skip with
    | S k => str_replace_from old new k r
    | O =>
      if str_startswith old s
      then new ++ str_replace_from old new (List.length old - 1) r
      else c :: str_replace_from old new 0 r
    end
  end.

Definition str_replace (s old new : pystr) : pystr :=
  match old with
  | [] => new ++ flat_map (fun c => c :: new) s
  | _ => str_replace_from old new 0 s
  end.

(** ** [str.lower] restricted to ASCII letters (the keyword table of the
    classifier has no other cased character). *)
Definition ascii_lower (s : pystr) : pystr :=
  map (fun c => if ((65 <=? c) && (c <=? 90))%N then (c + 32)%N else c) s.

(** [str(n)] for an [int] *)
Definition str_of_int (n : Z) : pystr :=
  match n with
  | Zneg p => py "-" ++ py (NilZero.string_of_uint (Pos.to_uint p))
  | _ => py (NilZero.string_of_uint (N.to_uint (Z.to_N n)))
  end.

(** [f"{x:.3f}"]: the exact value of the float, rounded to three
    decimals, ties to even, as CPython's correctly rounded conversion
    does. *)
Definition three_digits (n : Z) : pystr :=
  [ Z.to_N (48 + n / 100); Z.to_N (48 + (n / 10) mod 10);
    Z.to_N (48 + n mod 10) ]%Z.

Definition format_3f (x : float) : pystr :=
  match Prim2SF x with
  | S754_nan => py "nan"
  | S754_infinity s => if s then py "-inf" else py "inf"
  | S754_zero s => if s then py "-0.000" else py "0.000"
  | S754_finite s m e =>
    let num := (Z.pos m * 1000 * 2 ^ Z.max e 0)%Z in
    let den := (2 ^ Z.max (- e) 0)%Z in
    let q := (num / den)%Z in
    let r := (num mod den)%Z in
    let thousandths :=
      if (2 * r <? den)%Z then q
      else if (den <? 2 * r)%Z then (q + 1)%Z
      else if Z.even q then q else (q + 1)%Z in
    (if s then py "-" else [])
    ++ str_of_int (thousandths / 1000) ++ py "."
    ++ three_digits (thousandths mod 1000)
  end.

(** [sep.join(l)] *)
Fixpoint str_join (sep : pystr) (l : list pystr) : pystr :=
  match l with
  | [] => []
  | [s] => s
  | s :: r => s ++ sep ++ str_join sep r
  end.

(** What the embedding takes from the Python runtime rather than
    re-implements: full-Unicode [str.lower], the [re] engine, the
    summation of floats by the builtin [sum] (whose rounding depends on
    the interpreter's version) and the path functions of [os.path] (which
    depend on the platform). *)
Class PyRuntime : Type := {
  str_lower : pystr -> pystr;
  re_sub : pystr -> pystr -> pystr -> pystr;  (* re.sub(pattern, repl, s) *)
  float_sum : list float -> float;            (* sum(xs) *)
  os_path_join : pystr -> pystr -> pystr;
  os_path_basename : pystr -> pystr
}.

(** The sentence-embedding model and scikit-learn's cosine similarity of
    two vectors. *)
Class Embedder : Type := {
  encode : pystr -> list float;
  cosine_similarity : list float -> list float -> float
}.

(* ================================================================== *)
(** * Python dictionaries with string keys *)
(* ================================================================== *)

Definition dict (V : Type) : Type := list (pystr * V).

Section Dict.
Variable V : Type.

(** [d.get(k)] *)
Fixpoint dict_get (d : dict V) (k : pystr) : option V :=
  match d with
  | [] => None
  | (k', v) :: r => if str_eqb k' k then Some v else dict_get r k
  end.

(** [k in d] *)
Definition dict_mem (d : dict V) (k : pystr) : bool :=
  match dict_get d k with Some _ => true | None => false end.

(** [d[k] = v]: a present key keeps its place, a new key goes last. *)
Fixpoint dict_set (d : dict V) (k : pystr) (v : V) : dict V :=
  match d with
  | [] => [(k, v)]
  | (k', v') :: r =>
    if str_eqb k' k then (k', v) :: r else (k', v') :: dict_set r k v
  end.

Definition dict_keys (d : dict V) : list pystr := map fst d.

End Dict.

(* ================================================================== *)
(** * Persisted JSON files *)
(* ================================================================== *)

(** [json.dump(obj, f, ensure_ascii=False, indent=2)] and [json.load(f)]
    belong to the standard library of Python.  What the program relies on
    is their contract on the objects it stores (string-keyed dictionaries
    of strings, numbers and such dictionaries): loading a dumped object
    gives an equal object, keys in the same order. *)
Class Json (A : Type) : Type := {
  file_text : Type;
  json_dump : A -> file_text;
  json_load : file_text -> option A;      (* [None]: the parse raised *)
  json_load_dump : forall a : A, json_load (json_dump a) = Some a
}.

(** A file of the disk: [None] when it does not exist. *)
Definition file (A : Type) {J : Json A} : Type := option (@file_text A J).
Arguments file A {J}.

(* ================================================================== *)
(** * ClaudeWhisperIntegration *)
(* ================================================================== *)

(** A value of [self.confidence_patterns]. *)
Record conf_pattern : Type := {
  avg_confidence : float;
  count : Z;
  first_seen : pystr
}.

(** An element of [word_level_data] (and of [low_confidence_words]). *)
Record word_info : Type := {
  word : pystr;
  confidence : float;
  start : float;
  end_ : float
}.

Module Stats.
(** [self.processing_stats] *)
Record t : Type := {
  total_files : Z;
  successful_transcriptions : Z;
  claude_corrections : Z;
  claude_classifications : Z;
  total_cost : float;
  classification_cost : float;
  processing_time : float;
  learned_patterns : Z
}.

Definition initial : t :=
  {| total_files := 0; successful_transcriptions := 0;
     claude_corrections := 0; claude_classifications := 0;
     total_cost := 0%float; classification_cost := 0%float;
     processing_time := 0%float; learned_patterns := 0 |}.

Definition add_learned_patterns (s : t) (n : Z) : t :=
  {| total_files := total_files s;
     successful_transcriptions := successful_transcriptions s;
     claude_corrections := claude_corrections s;
     claude_classifications := claude_classifications s;
     total_cost := total_cost s;
     classification_cost := classification_cost s;
     processing_time := processing_time s;
     learned_patterns := learned_patterns s + n |}.

(** [claude_corrections += 1; total_cost += cost] *)
Definition add_correction (s : t) (c : float) : t :=
  {| total_files := total_files s;
     successful_transcriptions := successful_transcriptions s;
     claude_corrections := claude_corrections s + 1;
     claude_classifications := claude_classifications s;
     total_cost := (total_cost s + c)%float;
     classification_cost := classification_cost s;
     processing_time := processing_time s;
     learned_patterns := learned_patterns s |}.

Definition add_successful_transcription (s : t) : t :=
  {| total_files := total_files s;
     successful_transcriptions := successful_transcriptions s + 1;
     claude_corrections := claude_corrections s;
     claude_classifications := claude_classifications s;
     total_cost := total_cost s;
     classification_cost := classification_cost s;
     processing_time := processing_time s;
     learned_patterns := learned_patterns s |}.

Definition add_processing_time (s : t) (dt : float) : t :=
  {| total_files := total_files s;
     successful_transcriptions := successful_transcriptions s;
     claude_corrections := claude_corrections s;
     claude_classifications := claude_classifications s;
     total_cost := total_cost s;
     classification_cost := classification_cost s;
     processing_time := (processing_time s + dt)%float;
     learned_patterns := learned_patterns s |}.

(** [classification_cost += c; claude_classifications += 1] *)
Definition add_classification (s : t) (c : float) : t :=
  {| total_files := total_files s;
     successful_transcriptions := successful_transcriptions s;
     claude_corrections := claude_corrections s;
     claude_classifications := claude_classifications s + 1;
     total_cost := total_cost s;
     classification_cost := (classification_cost s + c)%float;
     processing_time := processing_time s;
     learned_patterns := learned_patterns s |}.
End Stats.

(** ** Exceptions and what comes from outside *)

Inductive exception : Type := PyError (class_name : string).

Inductive outcome (A : Type) : Type :=
| Return (a : A)
| Raise (e : exception).
Arguments Return {A} a.
Arguments Raise {A} e.

(** The result of [requests.post]: a response with its status code and,
    when the body is the JSON of a message, [result['content'][0]['text']];
    or a [requests.exceptions.RequestException]. *)
Inductive http_reply : Type :=
| Response (status_code : Z) (content_text : option pystr)
| RequestException.

(** What [model.transcribe(..., word_timestamps=True)] returns. *)
Record whisper_word : Type := {
  w_word : pystr;
  w_probability : option float;      (* ['probability' in word_info] *)
  w_start : float;
  w_end : float
}.

Record whisper_segment : Type := {
  seg_start : float;
  seg_end : float;
  words : list whisper_word
}.

Record whisper_result : Type := {
  text : pystr;
  language : option pystr;
  segments : list whisper_segment
}.

Record whisper_info_t : Type := {
  info_language : pystr;
  info_segments : Z;
  info_duration : float
}.

(** The dictionary [transcribe_with_claude_correction] returns. *)
Record transcription : Type := {
  success : bool;
  original_transcript : pystr;
  corrected_transcript : pystr;
  whisper_info : option whisper_info_t;   (* [None] for the initial [{}] *)
  claude_applied : bool;
  cost : float;
  processing_time : float;
  confidence_info : pystr;
  word_level_data : list word_info;
  error : option exception
}.

(** [self.whisper_patterns], in the order of the literal. *)
Definition whisper_patterns : dict pystr :=
  [ (py "地民党", py "自民党"); (py "石橋ロシ", py "石破茂");
    (py "急安部派", py "旧安倍派"); (py "党生年局", py "党執行部");
    (py "党主", py "党首"); (py "階段", py "会談"); (py "手動", py "支持");
    (py "わわれな", py "哀れな"); (py "溜まるか", py "たまるか");
    (py "駄目に", py "だめに"); (py "異見", py "意見");
    (py "腐り切ってる", py "腐りきっている");
    (py "ガソリンを", py "ガソリン税を"); (py "販売担保", py "販売価格");
    (py "さっさに進化", py "先走り"); (py "ガソスタ", py "ガソリンスタンド") ].

Definition float_of_int (n : Z) : float :=
  match n with
  | Zneg _ => PrimFloat.opp (PrimFloat.of_uint63 (Uint63.of_Z (Z.opp n)))
  | _ => PrimFloat.of_uint63 (Uint63.of_Z n)
  end.

Section Integration.
Context {RT : PyRuntime}.
Context {JC : Json (dict pystr)} {JP : Json (dict conf_pattern)}.

(** The object, together with the two files it owns
    ([learned_corrections.json], [confidence_patterns.json]). *)
Record integration : Type := {
  learned_corrections : dict pystr;
  confidence_patterns : dict conf_pattern;
  processing_stats : Stats.t;
  learned_corrections_file : file (dict pystr);
  confidence_patterns_file : file (dict conf_pattern)
}.

Definition set_processing_stats (self : integration) (s : Stats.t) :=
  {| learned_corrections := learned_corrections self;
     confidence_patterns := confidence_patterns self;
     processing_stats := s;
     learned_corrections_file := learned_corrections_file self;
     confidence_patterns_file := confidence_patterns_file self |}.

Definition set_patterns (self : integration)
    (lc : dict pystr) (cp : dict conf_pattern) :=
  {| learned_corrections := lc;
     confidence_patterns := cp;
     processing_stats := processing_stats self;
     learned_corrections_file := learned_corrections_file self;
     confidence_patterns_file := confidence_patterns_file self |}.

(** ** Persistence

    [load_*] answers [{}] for a missing file and for a file that does not
    parse.  [save_*] overwrites the file with the whole mapping; the
    folder of the two files is created by [__init__], and a write to it
    is taken to succeed. *)

Definition load_learned_corrections (self : integration) : dict pystr :=
  match learned_corrections_file self with
  | Some t => match json_load t with Some d => d | None => [] end
  | None => []
  end.

Definition save_learned_corrections (self : integration) : integration :=
  {| learned_corrections := learned_corrections self;
     confidence_patterns := confidence_patterns self;
     processing_stats := processing_stats self;
     learned_corrections_file := Some (json_dump (learned_corrections self));
     confidence_patterns_file := confidence_patterns_file self |}.

Definition load_confidence_patterns (self : integration)
  : dict conf_pattern :=
  match confidence_patterns_file self with
  | Some t => match json_load t with Some d => d | None => [] end
  | None => []
  end.

Definition save_confidence_patterns (self : integration) : integration :=
  {| learned_corrections := learned_corrections self;
     confidence_patterns := confidence_patterns self;
     processing_stats := processing_stats self;
     learned_corrections_file := learned_corrections_file self;
     confidence_patterns_file := Some (json_dump (confidence_patterns self)) |}.

(** [__init__], given the two files as found on the disk. *)
Definition init (f_lc : file (dict pystr)) (f_cp : file (dict conf_pattern))
  : integration :=
  let disk :=
    {| learned_corrections := []; confidence_patterns := [];
       processing_stats := Stats.initial;
       learned_corrections_file := f_lc;
       confidence_patterns_file := f_cp |} in
  set_patterns disk (load_learned_corrections disk)
               (load_confidence_patterns disk).

(** ** [learn_from_correction] *)

(** The body of the first loop.  The accumulator is
    [self.learned_corrections], [learning_count] and the pairs printed
    so far. *)
Definition learn_pair
    (acc : dict pystr * Z * list (pystr * pystr)) (p : pystr * pystr)
  : dict pystr * Z * list (pystr * pystr) :=
  let '(lc, learning_count, printed) := acc in
  let '(orig_word, corr_word) := p in
  if negb (str_eqb orig_word corr_word)
     && (2 <? str_len orig_word)%Z && (2 <? str_len corr_word)%Z
  then
    if negb (dict_mem lc orig_word)
    then (dict_set lc orig_word corr_word, (learning_count + 1)%Z,
          printed ++ [(orig_word, corr_word)])
    else acc
  else acc.

(** The body of the second loop; [now i] is what
    [datetime.now().isoformat()] gives during iteration [i]. *)
Definition learn_word (now : nat -> pystr)
    (acc : dict conf_pattern * Z * nat) (word_info : word_info)
  : dict conf_pattern * Z * nat :=
  let '(cp, learning_count, i) := acc in
  let word := str_strip (word word_info) in
  let confidence := confidence word_info in
  match dict_get cp word with
  | Some p =>
    (dict_set cp word
       {| avg_confidence := (avg_confidence p + confidence) / 2;
          count := count p + 1;
          first_seen := first_seen p |},
     learning_count, S i)
  | None =>
    (dict_set cp word
       {| avg_confidence := confidence; count := 1; first_seen := now i |},
     (learning_count + 1)%Z, S i)
  end.

Definition learn_from_correction (self : integration) (now : nat -> pystr)
    (original_text corrected_text : pystr)
    (low_confidence_words : list word_info)
  : integration * list (pystr * pystr) :=
  let original_words := str_split original_text in
  let corrected_words := str_split corrected_text in
  let '(lc, n1, printed) :=
    fold_left learn_pair (combine original_words corrected_words)
              (learned_corrections self, 0%Z, []) in
  let '(cp, learning_count, _) :=
    fold_left (learn_word now) low_confidence_words
              (confidence_patterns self, n1, 0%nat) in
  let self := set_patterns self lc cp in
  if (0 <? learning_count)%Z then
    let self := save_learned_corrections self in
    let self := save_confidence_patterns self in
    (set_processing_stats self
       (Stats.add_learned_patterns (processing_stats self) learning_count),
     printed)
  else (self, printed).

(** ** Cleaning and pattern correction *)

Definition _clean_text_basic (text : pystr) : pystr :=
  let text := re_sub (py "https?://[^\s]+") [] text in
  let text :=
    re_sub (py "\d{4}-\d{2}-\d{2}\s+\d{2}:\d{2}:\d{2}") [] text in
  let text := re_sub (py "=+") [] text in
  let text := re_sub (py ":\s*!\s*:") [] text in
  let text := re_sub (py "。{2,}") (py "。") text in
  let text := re_sub (py "、{2,}") (py "、") text in
  let text := re_sub (py "\s+") (py " ") text in
  str_strip text.

Definition apply_learned_patterns (self : integration) (text : pystr)
  : pystr :=
  fold_left
    (fun corrected '(original, correction) =>
       if str_contains original corrected
       then str_replace corrected original correction
       else corrected)
    (learned_corrections self) text.

Definition _apply_whisper_patterns (self : integration) (text : pystr)
  : pystr :=
  let corrected :=
    fold_left
      (fun corrected '(error, correction) =>
         str_replace corrected error correction)
      whisper_patterns text in
  apply_learned_patterns self corrected.

(** ** The rewrite oracle *)

Definition prompt_rules : pystr := py "あなたは日本語の優秀な文字起こし修正エキスパートです。音声認識システム（Whisper）で生成されたテキストを、元の話者の口調や表現を保持しながら、読みやすく自然な日本語に修正してください。

【重要な修正方針】
1. 話者の口調・語尾・感情表現は絶対に変更しない
2. 敬語変換は行わない（「だ・である調」「です・ます調」など元の調子を維持）
3. 方言や独特な表現も保持する
4. 感情的な表現（「〜だろ」「〜だよ」「〜わ」など）も維持

【修正すべき点のみ】
- 明らかな誤字・脱字の修正
- 固有名詞の正確な表記（政治家名、組織名など）
- 適切な句読点の追加（読みやすさのため）
- 音韻的な誤認識の修正（似た音の漢字間違いなど）
- 自然な改行・段落分け

【特に注意する音声認識エラー】
- 政治用語: 「石橋ロシ→石破茂」「地民党→自民党」「急安部派→旧安倍派」
- 組織名: 「党生年局→党執行部」「階段→会談」
- よくある誤字: 「ガソリンを→ガソリン税を」「販売担保→販売価格」「さっさに進化→先走り」

【絶対にやってはいけないこと】
- 口調の変更（関西弁→標準語、カジュアル→丁寧語など）
- 感情表現の削除や変更
- 話者の個性的な表現の修正
- 過度な敬語化

".

Definition prompt_before_text : pystr := py "

【元テキスト】
".

Definition prompt_after_text : pystr := py "

【修正後テキスト】
元の口調と感情を保持しながら、誤字・脱字のみを修正したテキストを出力してください。".

Definition _create_claude_prompt (text whisper_confidence_info : pystr)
  : pystr :=
  prompt_rules ++ whisper_confidence_info ++ prompt_before_text
  ++ text ++ prompt_after_text.

(** The loop of [_call_claude_api]: [post attempt] is the reply to the
    request of that attempt; the second component lists the seconds
    slept. *)
Fixpoint call_attempts (post : nat -> http_reply)
    (max_retries attempt remaining : nat)
  : outcome (option pystr) * list Z :=
  match remaining with
  | O => (Return None, [])
  | S remaining' =>
    match post attempt with
    | Response status_code content =>
      if (status_code =? 200)%Z then
        match content with
        | Some t => (Return (Some (str_strip t)), [])
        | None => (Raise (PyError "KeyError"), [])
        end
      else if (status_code =? 429)%Z then
        let '(r, slept) :=
          call_attempts post max_retries (S attempt) remaining' in
        (r, (2 ^ Z.of_nat attempt)%Z :: slept)
      else call_attempts post max_retries (S attempt) remaining'
    | RequestException =>
      let '(r, slept) :=
        call_attempts post max_retries (S attempt) remaining' in
      if (attempt <? max_retries - 1)%nat
      then (r, (2 ^ Z.of_nat attempt)%Z :: slept)
      else (r, slept)
    end
  end.

Definition _call_claude_api (post : pystr -> nat -> http_reply)
    (prompt : pystr) (max_retries : nat) : outcome (option pystr) :=
  fst (call_attempts (post prompt) max_retries 0 max_retries).

Definition _calculate_classification_cost (text : pystr) : float :=
  let input_tokens :=
    (float_of_int (str_len (firstn 500 text) + 200)%Z / 1.5)%float in
  let output_tokens := (10 / 1.5)%float in
  let input_cost := ((input_tokens / 1000000) * 3.00)%float in
  let output_cost := ((output_tokens / 1000000) * 15.00)%float in
  (input_cost + output_cost)%float.

Definition _calculate_cost (original corrected : pystr) : float :=
  let input_tokens := (float_of_int (str_len original) / 1.5)%float in
  let output_tokens := (float_of_int (str_len corrected) / 1.5)%float in
  let input_cost := ((input_tokens / 1000000) * 3.00)%float in
  let output_cost := ((output_tokens / 1000000) * 15.00)%float in
  (input_cost + output_cost)%float.

(** ** [transcribe_with_claude_correction] *)

Definition initial_result : transcription :=
  {| success := false; original_transcript := [];
     corrected_transcript := []; whisper_info := None;
     claude_applied := false; cost := 0; processing_time := 0;
     confidence_info := []; word_level_data := []; error := None |}.

Definition with_error (r : transcription) (e : exception) : transcription :=
  {| success := success r; original_transcript := original_transcript r;
     corrected_transcript := corrected_transcript r;
     whisper_info := whisper_info r; claude_applied := claude_applied r;
     cost := cost r; processing_time := processing_time r;
     confidence_info := confidence_info r;
     word_level_data := word_level_data r; error := Some e |}.

Definition with_corrected (r : transcription) (corrected : pystr)
    (applied : bool) (c : float) : transcription :=
  {| success := success r; original_transcript := original_transcript r;
     corrected_transcript := corrected;
     whisper_info := whisper_info r; claude_applied := applied;
     cost := c; processing_time := processing_time r;
     confidence_info := confidence_info r;
     word_level_data := word_level_data r; error := error r |}.

Definition with_success (r : transcription) : transcription :=
  {| success := true; original_transcript := original_transcript r;
     corrected_transcript := corrected_transcript r;
     whisper_info := whisper_info r; claude_applied := claude_applied r;
     cost := cost r; processing_time := processing_time r;
     confidence_info := confidence_info r;
     word_level_data := word_level_data r; error := error r |}.

Definition with_processing_time (r : transcription) (dt : float)
  : transcription :=
  {| success := success r; original_transcript := original_transcript r;
     corrected_transcript := corrected_transcript r;
     whisper_info := whisper_info r; claude_applied := claude_applied r;
     cost := cost r; processing_time := dt;
     confidence_info := confidence_info r;
     word_level_data := word_level_data r; error := error r |}.

(** The words of all segments that carry a probability, in order. *)
Definition collect_word_data (segs : list whisper_segment) : list word_info :=
  flat_map
    (fun segment =>
       flat_map
         (fun w =>
            match w_probability w with
            | Some p =>
              [ {| word := w_word w; confidence := p;
                   start := w_start w; end_ := w_end w |} ]
            | None => []
            end)
         (words segment))
    segs.

(** [[w for w in word_data if w['confidence'] < 0.5]] *)
Definition low_confidence (word_data : list word_info) : list word_info :=
  filter (fun w => PrimFloat.ltb (confidence w) 0.5) word_data.

(** The two texts built from the confidence scores: the one stored in
    [result['confidence_info']] and the one put into the prompt. *)
Definition confidence_texts (word_data : list word_info) : pystr * pystr :=
  let confidence_scores := map confidence word_data in
  match confidence_scores with
  | [] => ([], [])
  | _ =>
    let avg_confidence :=
      (float_sum confidence_scores
       / float_of_int (Z.of_nat (List.length confidence_scores)))%float in
    let low_confidence_words := low_confidence word_data in
    let n := str_of_int (Z.of_nat (List.length low_confidence_words)) in
    (py "平均信頼度: " ++ format_3f avg_confidence
       ++ py ", 低信頼度語数: " ++ n,
     py "
【音声認識信頼度情報】
平均信頼度: " ++ format_3f avg_confidence ++ py "
低信頼度の語（0.5未満）: " ++ n ++ py "個
" ++ match low_confidence_words with
     | [] => []
     | _ => py "特に注意が必要な語: "
            ++ str_join (py ", ") (map word (firstn 10 low_confidence_words))
     end)
  end.

Definition transcribe_with_claude_correction (self : integration)
    (whisper : outcome whisper_result)
    (post : pystr -> nat -> http_reply)
    (now : nat -> pystr) (start_time end_time : float)
  : integration * transcription :=
  let '(self, result) :=
    match whisper with
    | Raise e => (self, with_error initial_result e)
    | Return whisper_result =>
      let original_text := text whisper_result in
      let word_data := collect_word_data (segments whisper_result) in
      let '(result_info, confidence_info) := confidence_texts word_data in
      let result :=
        {| success := false; original_transcript := original_text;
           corrected_transcript := [];
           whisper_info :=
             Some {| info_language :=
                       match language whisper_result with
                       | Some l => l
                       | None => py "ja"
                       end;
                     info_segments :=
                       Z.of_nat (List.length (segments whisper_result));
                     info_duration :=
                       float_sum
                         (map (fun seg => (seg_end seg - seg_start seg)%float)
                              (segments whisper_result)) |};
           claude_applied := false; cost := 0; processing_time := 0;
           confidence_info := result_info;
           word_level_data := word_data; error := None |} in
      let cleaned_text := _clean_text_basic original_text in
      let pattern_corrected := _apply_whisper_patterns self cleaned_text in
      let claude_prompt :=
        _create_claude_prompt pattern_corrected confidence_info in
      match _call_claude_api post claude_prompt 3 with
      | Raise e => (self, with_error result e)
      | Return claude_corrected =>
        let '(self, result) :=
          match claude_corrected with
          | Some (c :: s) =>
            let claude_corrected := c :: s in
            let cost := _calculate_cost original_text claude_corrected in
            let self :=
              fst (learn_from_correction self now original_text
                     claude_corrected (word_level_data result)) in
            (set_processing_stats self
               (Stats.add_correction (processing_stats self) cost),
             with_corrected result claude_corrected true cost)
          | _ =>
            (self, with_corrected result pattern_corrected false 0)
          end in
        (set_processing_stats self
           (Stats.add_successful_transcription (processing_stats self)),
         with_success result)
      end
    end in
  let dt := (end_time - start_time)%float in
  (set_processing_stats self
     (Stats.add_processing_time (processing_stats self) dt),
   with_processing_time result dt).

End Integration.

(* ================================================================== *)
(** * IntegratedVoiceRAGSystem *)
(* ================================================================== *)

(** [self.category_folders], in the order of the literal. *)
Definition category_folders : dict pystr :=
  [ (py "ビジネス・経営", py "business");
    (py "技術・プログラミング", py "technology");
    (py "教育・学習", py "education");
    (py "エンターテイメント", py "entertainment");
    (py "日常・ライフスタイル", py "lifestyle");
    (py "ニュース・時事", py "news");
    (py "健康・医療", py "health");
    (py "料理・グルメ", py "cooking");
    (py "旅行・観光", py "travel");
    (py "スポーツ・フィットネス", py "sports");
    (py "音楽・アート", py "music_art");
    (py "ゲーム", py "gaming");
    (py "科学・研究", py "science");
    (py "政治・社会", py "politics");
    (py "その他", py "others") ].

(** [self.category_keywords], in the order of the literal. *)
Definition category_keywords : dict (list pystr) :=
  [ (py "ビジネス・経営",
      [py "会議"; py "売上"; py "マーケティング"; py "戦略"; py "予算"; py "顧客"; py "営業";
       py "経営"; py "投資"; py "ビジネス"; py "企業"; py "会社"]);
    (py "技術・プログラミング",
      [py "プログラミング"; py "AI"; py "システム"; py "アプリ"; py "ソフトウェア";
       py "データベース"; py "API"; py "クラウド"; py "アルゴリズム"; py "コンピュータ"; py "IT";
       py "DX"]);
    (py "政治・社会",
      [py "政治"; py "選挙"; py "政策"; py "国会"; py "議員"; py "政府"; py "自民党";
       py "政党"; py "首相"; py "大臣"; py "法律"; py "制度"; py "改革"; py "社会問題"]);
    (py "ニュース・時事",
      [py "ニュース"; py "報道"; py "事件"; py "社会"; py "経済"; py "国際"; py "速報";
       py "記者会見"; py "発表"; py "調査"]);
    (py "エンターテイメント",
      [py "映画"; py "音楽"; py "アニメ"; py "ゲーム"; py "芸能"; py "ちいかわ"; py "ドラマ";
       py "バラエティ"; py "アイドル"; py "俳優"; py "歌手"]);
    (py "料理・グルメ",
      [py "料理"; py "レシピ"; py "食材"; py "グルメ"; py "あげ玉"; py "そうめん"; py "食事";
       py "調理"; py "レストラン"; py "美味しい"; py "食べ物"]);
    (py "スポーツ・フィットネス",
      [py "スポーツ"; py "フィットネス"; py "運動"; py "トレーニング"; py "競技"; py "筋トレ";
       py "野球"; py "サッカー"; py "MVP"; py "大谷翔平"; py "大谷"; py "ジャッジ";
       py "ドジャース"; py "ヤンキース"; py "メジャーリーグ"; py "MLB"; py "バスケ"; py "テニス";
       py "ゴルフ"]);
    (py "教育・学習",
      [py "学習"; py "授業"; py "講義"; py "試験"; py "研究"; py "論文"; py "学生";
       py "教育"; py "勉強"; py "資格"; py "大学"; py "学校"]);
    (py "健康・医療",
      [py "健康"; py "医療"; py "病気"; py "治療"; py "ダイエット"; py "フィットネス";
       py "栄養"; py "予防"; py "薬"; py "医師"]);
    (py "日常・ライフスタイル",
      [py "家族"; py "友人"; py "買い物"; py "生活"; py "趣味"; py "ファッション"; py "美容";
       py "インテリア"; py "日常"; py "ライフスタイル"]);
    (py "旅行・観光",
      [py "旅行"; py "観光"; py "ホテル"; py "観光地"; py "海外"; py "国内旅行"; py "温泉";
       py "リゾート"]);
    (py "音楽・アート",
      [py "音楽"; py "アート"; py "芸術"; py "楽器"; py "絵画"; py "デザイン";
       py "クリエイティブ"]);
    (py "ゲーム",
      [py "ビデオゲーム"; py "ゲーム実況"; py "eスポーツ"; py "ゲーム開発"; py "プレイ"]);
    (py "科学・研究",
      [py "科学"; py "研究"; py "実験"; py "理論"; py "発見"; py "学術論文"; py "技術革新"]) ].

Definition classify_prompt_head : pystr := py "以下のテキストを最適なカテゴリに分類してください。

【利用可能カテゴリ】
".

Definition classify_prompt_rules : pystr := py "

【分類ルール】
- テキストの主な内容に基づいて分類
- スポーツ関連（野球、サッカー、MVPなど）は「スポーツ・フィットネス」
- 政治家、政党、選挙関連は「政治・社会」
- 技術、プログラミング、AI関連は「技術・プログラミング」
- 料理、食材、レシピ関連は「料理・グルメ」
- エンタメ、芸能、キャラクター関連は「エンターテイメント」
- どのカテゴリにも当てはまらない場合は「その他」

【テキスト】
".

Definition classify_prompt_tail : pystr := py "...

【出力形式】
カテゴリ名のみを出力してください（説明不要）。上記のカテゴリリストから正確に選択してください。".

Module Entry.
(** An element of [self.database]. *)
Record t : Type := {
  id : Z;
  source_type : pystr;
  source_path : pystr;
  title : pystr;
  original_transcript : pystr;
  corrected_transcript : pystr;
  category : pystr;
  embedding : list float;
  created_at : pystr;
  processing_info : transcription;
  word_count : Z;
  char_count : Z;
  saved_file_path : option pystr       (* the key may be absent *)
}.

(** [entry['saved_file_path'] = p] *)
Definition set_saved_file_path (e : t) (p : pystr) : t :=
  {| id := id e; source_type := source_type e;
     source_path := source_path e; title := title e;
     original_transcript := original_transcript e;
     corrected_transcript := corrected_transcript e;
     category := category e; embedding := embedding e;
     created_at := created_at e; processing_info := processing_info e;
     word_count := word_count e; char_count := char_count e;
     saved_file_path := Some p |}.
End Entry.

(** ** Python sequences: [max], [l[:k]], stable [sort(reverse=True)] *)

(** [max(d, key=d.get)]: the first key whose value no later value
    exceeds ([None] for the [ValueError] on an empty dictionary). *)
Fixpoint max_key_from (best : pystr * Z) (rest : dict Z) : pystr :=
  match rest with
  | [] => fst best
  | kv :: r =>
    if (snd best <? snd kv)%Z then max_key_from kv r else max_key_from best r
  end.

Definition dict_max_key (d : dict Z) : option pystr :=
  match d with
  | [] => None
  | kv :: r => Some (max_key_from kv r)
  end.

(** [max(d.values())] *)
Definition dict_max_value (d : dict Z) : option Z :=
  match d with
  | [] => None
  | kv :: r => Some (fold_left Z.max (map snd r) (snd kv))
  end.

(** [l[:k]] for any integer [k]: a negative [k] counts from the end. *)
Definition slice_to (A : Type) (l : list A) (k : Z) : list A :=
  if (k <? 0)%Z
  then firstn (Z.to_nat (Z.max 0 (Z.of_nat (List.length l) + k))) l
  else firstn (Z.to_nat k) l.

(** [l.sort(key=lambda x: x[1], reverse=True)] on pairs whose second
    component is a float.  The sort of Python is stable and compares keys
    with [<] only; on keys that [<] orders totally (no NaN) its result is
    the one of this insertion sort, in which an element passes the
    elements it is strictly smaller than and stops before the others. *)
Fixpoint insert_desc (A : Type) (x : A * float) (l : list (A * float))
  : list (A * float) :=
  match l with
  | [] => [x]
  | y :: r =>
    if PrimFloat.ltb (snd x) (snd y) then y :: insert_desc x r else x :: l
  end.

Definition sort_desc (A : Type) (l : list (A * float)) : list (A * float) :=
  fold_right (@insert_desc A) [] l.

(** ** [search_similar], for the entries of either program *)

Section Search.
Context {EM : Embedder}.
Variable entry : Type.
Variable entry_embedding : entry -> list float.    (* entry['embedding'] *)

Definition search_similar (database : list entry) (query : pystr)
    (top_k : Z) : list (entry * float) :=
  match database with
  | [] => []
  | _ =>
    let query_embedding := encode query in
    let similarities :=
      map (fun entry =>
             (entry,
              cosine_similarity query_embedding (entry_embedding entry)))
          database in
    slice_to (sort_desc similarities) top_k
  end.

(** The similarity [search_similar] computes for an entry. *)
Definition similarity_to (query : pystr) (e : entry) : float :=
  cosine_similarity (encode query) (entry_embedding e).

End Search.

(** How the file system answers [save_transcript_to_file]. *)
Inductive fs_behaviour : Type :=
| MakedirsRaises      (* [os.makedirs(category_folder, exist_ok=True)] raises *)
| FolderAbsent        (* it returns, but the folder does not exist *)
| WriteRaises         (* [open(file_path, 'w')] or a [write] raises *)
| FileAbsent          (* written, but [os.path.exists(file_path)] is false *)
| FileWritten.

Section Rag.
Context {RT : PyRuntime} {EM : Embedder}.
Context {JC : Json (dict pystr)} {JP : Json (dict conf_pattern)}.
Context {JD : Json (list Entry.t)}.

(** The object, with the database file it owns. *)
Record rag : Type := {
  output_folder : pystr;
  claude_integration : integration;
  database : list Entry.t;
  database_file : file (list Entry.t)
}.

Definition set_claude_integration (self : rag) (ci : integration) : rag :=
  {| output_folder := output_folder self; claude_integration := ci;
     database := database self; database_file := database_file self |}.

Definition set_database (self : rag) (db : list Entry.t) : rag :=
  {| output_folder := output_folder self;
     claude_integration := claude_integration self;
     database := db; database_file := database_file self |}.

Definition load_database (self : rag) : list Entry.t :=
  match database_file self with
  | Some t => match json_load t with Some d => d | None => [] end
  | None => []
  end.

Definition save_database (self : rag) : rag :=
  {| output_folder := output_folder self;
     claude_integration := claude_integration self;
     database := database self;
     database_file := Some (json_dump (database self)) |}.

(** ** Classification *)

Definition keyword_score (text_lower : pystr) (keywords : list pystr) : Z :=
  fold_left
    (fun score keyword => (score + str_count text_lower (str_lower keyword))%Z)
    keywords 0%Z.

Definition category_scores (text : pystr) : dict Z :=
  let text_lower := str_lower text in
  map (fun '(category, keywords) =>
         (category, keyword_score text_lower keywords))
      category_keywords.

Definition fallback_category (text : pystr) : pystr :=
  let scores := category_scores text in
  match dict_max_value scores, dict_max_key scores with
  | Some m, Some k => if (0 <? m)%Z then k else py "その他"
  | _, _ => py "その他"
  end.

Definition classify_prompt (text : pystr) : pystr :=
  let categories_list :=
    str_join (py "
") (map (fun cat => py "- " ++ cat) (dict_keys category_folders)) in
  classify_prompt_head ++ categories_list ++ classify_prompt_rules
  ++ firstn 500 text ++ classify_prompt_tail.

(** [post prompt] is the reply to the single request. *)
Definition _classify_with_claude_api (self : rag)
    (post : pystr -> http_reply) (text : pystr) : rag * option pystr :=
  match post (classify_prompt text) with
  | Response status_code content =>
    if (status_code =? 200)%Z then
      match content with
      | Some t =>
        let category := str_strip t in
        if dict_mem category_folders category then
          let classification_cost := _calculate_classification_cost text in
          let ci := claude_integration self in
          (set_claude_integration self
             (set_processing_stats ci
                (Stats.add_classification (processing_stats ci)
                                          classification_cost)),
           Some category)
        else (self, None)
      | None => (self, None)           (* caught by [except Exception] *)
      end
    else (self, None)
  | RequestException => (self, None)
  end.

Definition classify_text (self : rag) (post : pystr -> http_reply)
    (text : pystr) : rag * pystr :=
  let fallback_category := fallback_category text in
  let '(self, claude_category) := _classify_with_claude_api self post text in
  match claude_category with
  | Some (c :: s) => (self, c :: s)
  | _ => (self, fallback_category)
  end.

(** ** Adding a record *)

Definition create_embedding (text : pystr) : list float := encode text.

(** The text of the file is not modelled: only whether and where it was
    written.  The [try] block ends either with the path or with an
    exception, and leaves [filename] bound or not. *)
Definition save_transcript_to_file (self : rag) (fs : fs_behaviour)
    (timestamp : pystr)
    (title original_transcript corrected_transcript category
       source_path : pystr)
    (processing_info : transcription) : outcome (option pystr) :=
  let folder_name :=
    match dict_get category_folders category with
    | Some f => f
    | None => py "others"
    end in
  let category_folder := os_path_join (output_folder self) folder_name in
  let '(filename, body) :=
    match fs with
    | MakedirsRaises => (None, Raise (PyError "OSError"))
    | FolderAbsent => (None, Raise (PyError "Exception"))
    | _ =>
      let safe_title :=
        firstn 30 (re_sub (py "[^\w\s-]") (py "_") title) in
      let filename := timestamp ++ py "_" ++ safe_title ++ py ".txt" in
      let file_path := os_path_join category_folder filename in
      (Some filename,
       match fs with
       | WriteRaises => Raise (PyError "OSError")
       | FileAbsent => Raise (PyError "Exception")
       | _ => Return file_path
       end)
    end in
  match body with
  | Return file_path => Return (Some file_path)
  | Raise _ =>
    (* the handler prints [e], [category_folder] and [filename] *)
    match filename with
    | Some _ => Return None
    | None => Raise (PyError "UnboundLocalError")
    end
  end.

Definition add_to_database (self : rag) (fs : fs_behaviour)
    (created_at timestamp : pystr)
    (source_type source_path title original_transcript
       corrected_transcript category : pystr)
    (processing_info : transcription) : rag * outcome unit :=
  let embedding := create_embedding corrected_transcript in
  let stored := database self in
  let entry :=
    {| Entry.id := Z.of_nat (List.length stored) + 1;
       Entry.source_type := source_type;
       Entry.source_path := source_path;
       Entry.title := title;
       Entry.original_transcript := original_transcript;
       Entry.corrected_transcript := corrected_transcript;
       Entry.category := category;
       Entry.embedding := embedding;
       Entry.created_at := created_at;
       Entry.processing_info := processing_info;
       Entry.word_count :=
         Z.of_nat (List.length (str_split corrected_transcript));
       Entry.char_count := str_len corrected_transcript;
       Entry.saved_file_path := None |} in
  let self := set_database self (stored ++ [entry]) in
  let self := save_database self in
  match save_transcript_to_file self fs timestamp title original_transcript
          corrected_transcript category source_path processing_info with
  | Raise e => (self, Raise e)
  | Return (Some (c :: p)) =>
    (* [entry] is the object appended above: the list sees the new key *)
    let self :=
      set_database self
        (stored ++ [Entry.set_saved_file_path entry (c :: p)]) in
    (save_database self, Return tt)
  | Return _ => (self, Return tt)
  end.

(** ** Processing one audio item *)

(** What the outside world answers while one item is processed. *)
Record world : Type := {
  env_whisper : outcome whisper_result;
  env_post : pystr -> nat -> http_reply;       (* rewrite requests *)
  env_classify_post : pystr -> http_reply;     (* the classification request *)
  env_now : nat -> pystr;
  env_start_time : float;
  env_end_time : float;
  env_fs : fs_behaviour;
  env_created_at : pystr;
  env_timestamp : pystr
}.

(** The part shared by [process_audio_file] and [process_youtube_url]. *)
Definition process_item (self : rag) (env : world)
    (source_type source_path title : pystr) : rag * outcome bool :=
  let '(ci, result) :=
    transcribe_with_claude_correction (claude_integration self)
      (env_whisper env) (env_post env) (env_now env)
      (env_start_time env) (env_end_time env) in
  let self := set_claude_integration self ci in
  if negb (success result) then (self, Return false)
  else
    let '(self, category) :=
      classify_text self (env_classify_post env)
                    (corrected_transcript result) in
    match add_to_database self (env_fs env) (env_created_at env)
            (env_timestamp env) source_type source_path title
            (original_transcript result) (corrected_transcript result)
            category result with
    | (self, Raise e) => (self, Raise e)
    | (self, Return _) => (self, Return true)
    end.

Definition process_audio_file (self : rag) (env : world)
    (file_exists : bool) (file_path : pystr) : rag * outcome bool :=
  if negb file_exists then (self, Return false)
  else process_item self env (py "file") file_path
                    (os_path_basename file_path).

(** [download] is what [download_youtube_audio] returned: the path of the
    audio and the title, or [None] for [(None, None)]. *)
Definition process_youtube_url (self : rag) (env : world)
    (download : option (pystr * pystr)) (url : pystr) : rag * outcome bool :=
  match download with
  | Some (c :: audio_path, title) =>
    process_item self env (py "youtube") url title
  | _ => (self, Return false)
  end.

Definition clear_learned_patterns (self : rag) (typed : pystr) : rag :=
  let confirm := str_lower (str_strip typed) in
  if str_eqb confirm (py "y") then
    let ci := set_patterns (claude_integration self) [] [] in
    let ci := save_learned_corrections ci in
    let ci := save_confidence_patterns ci in
    set_claude_integration self ci
  else self.

(** What [show_processing_stats] prints as the number of processed files. *)
Definition shown_total_files (self : rag) : Z :=
  Stats.total_files (processing_stats (claude_integration self)).

(** ** The system as a transition system *)

(** [IntegratedVoiceRAGSystem.__init__], given the files on the disk. *)
Definition rag_init (folder : pystr) (f_lc : file (dict pystr))
    (f_cp : file (dict conf_pattern)) (f_db : file (list Entry.t)) : rag :=
  let disk :=
    {| output_folder := folder; claude_integration := init f_lc f_cp;
       database := []; database_file := f_db |} in
  set_database disk (load_database disk).

(** The entries of the menu that run code of the two classes; a batch is
    a sequence of [ProcessAudioFile]. *)
Inductive request : Type :=
| ProcessAudioFile (env : world) (file_exists : bool) (file_path : pystr)
| ProcessYoutubeUrl (env : world) (download : option (pystr * pystr))
                    (url : pystr)
| SearchAndDisplay (query : pystr)
| ShowProcessingStats
| ClearLearnedPatterns (typed : pystr).

Definition handle (self : rag) (r : request) : rag :=
  match r with
  | ProcessAudioFile env file_exists file_path =>
    fst (process_audio_file self env file_exists file_path)
  | ProcessYoutubeUrl env download url =>
    fst (process_youtube_url self env download url)
  | SearchAndDisplay _ => self
  | ShowProcessingStats => self
  | ClearLearnedPatterns typed => clear_learned_patterns self typed
  end.

Inductive reachable : rag -> Prop :=
| reachable_init folder f_lc f_cp f_db :
    reachable (rag_init folder f_lc f_cp f_db)
| reachable_step self r :
    reachable self -> reachable (handle self r).

End Rag.

(* ================================================================== *)
(** * The API key of ClaudeWhisperIntegration *)
(* ================================================================== *)

(** [base64.b64encode(s.encode('utf-8')).decode('utf-8')] and
    [base64.b64decode(t).decode('utf-8')] belong to the standard library
    of Python.  [None] stands for a raised exception: [str.encode]
    refuses a lone surrogate, [b64decode] a text that is not Base64 and
    [bytes.decode] bytes that are not UTF-8.  What the program relies on
    is that decoding what was encoded gives the string back. *)
Class Base64 : Type := {
  b64encode_utf8 : pystr -> option pystr;
  b64decode_utf8 : pystr -> option pystr;
  b64decode_encode : forall s t,
    b64encode_utf8 s = Some t -> b64decode_utf8 t = Some s
}.

(** [chr(n)] for [n >= 0]: a [ValueError] beyond the last code point. *)
Definition chr (n : N) : option codepoint :=
  if (n <=? 1114111)%N then Some n else None.

(** The loop shared by [_save_encrypted_api_key] and
    [_load_encrypted_api_key]:
    [for i, char in enumerate(text):
       out += chr(ord(char) ^ ord(key_phrase[i % len(key_phrase)]))].
    [None] when an iteration raises. *)
Fixpoint xor_chars (key_phrase : pystr) (i : nat) (text out : pystr)
  : option pystr :=
  match text with
  | [] => Some out
  | char :: rest =>
    match nth_error key_phrase (i mod List.length key_phrase) with
    | None => None
    | Some k =>
      match chr (N.lxor char k) with
      | None => None
      | Some c => xor_chars key_phrase (S i) rest (out ++ [c])
      end
    end
  end.

(** [key_phrase = input(...).strip()], replaced by ["default_phrase"] when
    empty. *)
Definition read_key_phrase (typed : pystr) : pystr :=
  match str_strip typed with
  | [] => py "default_phrase"
  | key_phrase => key_phrase
  end.

(** [masked_key] of [_show_api_key_status]:
    [key[:8] + "*" * (len(key) - 12) + key[-4:]]. *)
Definition masked_key (claude_api_key : pystr) : pystr :=
  firstn 8 claude_api_key
  ++ repeat 42%N (Z.to_nat (str_len claude_api_key - 12))
  ++ skipn (List.length claude_api_key - 4) claude_api_key.

Section KeyStore.
Context {JC : Json (dict pystr)} {B64 : Base64}.

(** The three files of the dictionary folder that may hold the key;
    [config.json] and [api_key.enc] hold JSON objects of strings. *)
Record key_files : Type := {
  api_key_enc : file (dict pystr);
  config_json : file (dict pystr);
  api_key_txt : option pystr
}.

(** [can_write name]: whether [open(os.path.join(self.dictionary_folder,
    name), 'w')] succeeds; it raises for every name as long as the folder
    does not exist, which [__init__] creates only after [_load_api_key]
    has returned. *)
Definition _save_plain_api_key (disk : key_files) (can_write : pystr -> bool)
    (api_key : pystr) : outcome key_files :=
  if can_write (py "api_key.txt") then
    Return {| api_key_enc := api_key_enc disk;
              config_json := config_json disk;
              api_key_txt := Some api_key |}
  else Raise (PyError "OSError").

Definition _save_encrypted_api_key (disk : key_files)
    (can_write : pystr -> bool) (typed_phrase now : pystr)
    (api_key : pystr) : outcome key_files :=
  let key_phrase := read_key_phrase typed_phrase in
  let written : option key_files :=
    match xor_chars key_phrase 0 api_key [] with
    | None => None
    | Some encrypted_data =>
      match b64encode_utf8 encrypted_data with
      | None => None
      | Some encoded_data =>
        if can_write (py "api_key.enc") then
          Some {| api_key_enc :=
                    Some (json_dump [ (py "encrypted_key", encoded_data);
                                      (py "created_at", now);
                                      (py "method", py "xor_base64") ]);
                  config_json := config_json disk;
                  api_key_txt := api_key_txt disk |}
        else None
      end
    end in
  match written with
  | Some disk => Return disk
  | None => _save_plain_api_key disk can_write api_key    (* the fallback *)
  end.

(** [None] is the [None] the function returns, from the handler or by
    falling off its end. *)
Definition _load_encrypted_api_key (disk : key_files) (typed_phrase : pystr)
  : option pystr :=
  match api_key_enc disk with
  | None => None
  | Some t =>
    match json_load t with
    | None => None
    | Some data =>
      match dict_get data (py "method") with
      | Some method =>
        if str_eqb method (py "xor_base64") then
          let key_phrase := read_key_phrase typed_phrase in
          match dict_get data (py "encrypted_key") with
          | None => None
          | Some encoded =>
            match b64decode_utf8 encoded with
            | None => None
            | Some encrypted_data => xor_chars key_phrase 0 encrypted_data []
            end
          end
        else None
      | None => None
      end
    end
  end.

Definition _save_config_file (disk : key_files) (can_write : pystr -> bool)
    (now : pystr) (api_key : pystr) : outcome key_files :=
  let config : dict pystr :=
    match config_json disk with
    | Some t => match json_load t with Some c => c | None => [] end
    | None => []
    end in
  let config :=
    dict_set (dict_set config (py "claude_api_key") api_key)
             (py "updated_at") now in
  if can_write (py "config.json") then
    Return {| api_key_enc := api_key_enc disk;
              config_json := Some (json_dump config);
              api_key_txt := api_key_txt disk |}
  else Raise (PyError "OSError").

(** What is typed, and what the clock and the file system answer, while
    [_setup_api_key_interactive] runs. *)
Record setup_session : Type := {
  typed_choice : pystr;
  typed_api_key : pystr;
  typed_save_phrase : pystr;
  setup_now : pystr;
  setup_can_write : pystr -> bool
}.

(** [None]: the handler of the function called [exit(1)]. *)
Definition _setup_api_key_interactive (disk : key_files) (s : setup_session)
  : option (pystr * key_files) :=
  let choice := str_strip (typed_choice s) in
  let api_key := str_strip (typed_api_key s) in
  match api_key with
  | [] => None                                   (* [ValueError] *)
  | _ =>
    let saved :=
      if str_eqb choice (py "1") then
        _save_encrypted_api_key disk (setup_can_write s)
                                (typed_save_phrase s) (setup_now s) api_key
      else if str_eqb choice (py "2") then
        _save_config_file disk (setup_can_write s) (setup_now s) api_key
      else if str_eqb choice (py "3") then
        _save_plain_api_key disk (setup_can_write s) api_key
      else Return disk in
    match saved with
    | Return disk => Some (api_key, disk)
    | Raise _ => None
    end
  end.

(** [provided_key] is the argument, [env_key] the value of
    [CLAUDE_API_KEY] in the environment, [typed_phrase] what is typed when
    the encrypted file asks for the passphrase. *)
Definition _load_api_key (disk : key_files)
    (provided_key env_key : option pystr) (typed_phrase : pystr)
    (s : setup_session) : option (pystr * key_files) :=
  match provided_key with
  | Some (c :: k) => Some (c :: k, disk)
  | _ =>
    match env_key with
    | Some (c :: k) => Some (c :: k, disk)
    | _ =>
      let from_config :=
        match config_json disk with
        | Some t =>
          match json_load t with
          | Some config => dict_get config (py "claude_api_key")
          | None => None
          end
        | None => None
        end in
      match from_config with
      | Some (c :: k) => Some (c :: k, disk)
      | _ =>
        let from_encrypted :=
          match api_key_enc disk with
          | Some _ => _load_encrypted_api_key disk typed_phrase
          | None => None
          end in
        match from_encrypted with
        | Some (c :: k) => Some (c :: k, disk)
        | _ =>
          let from_plain :=
            match api_key_txt disk with
            | Some content => str_strip content
            | None => []
            end in
          match from_plain with
          | c :: k => Some (c :: k, disk)
          | [] => _setup_api_key_interactive disk s
          end
        end
      end
    end
  end.

End KeyStore.

(* ================================================================== *)
(** * The validation of what is typed *)
(* ================================================================== *)

(** [s.endswith(suffix)] *)
Definition str_endswith (suffix s : pystr) : bool :=
  str_startswith (rev suffix) (rev s).

(** [s.strip(chars)] *)
Fixpoint str_lstrip_chars (chars : pystr) (s : pystr) : pystr :=
  match s with
  | [] => []
  | c :: r =>
    if existsb (N.eqb c) chars then str_lstrip_chars chars r else s
  end.

Definition str_strip_chars (chars : pystr) (s : pystr) : pystr :=
  rev (str_lstrip_chars chars (rev (str_lstrip_chars chars s))).

(** [re.search(pattern, s, re.IGNORECASE)] finds a match. *)
Class Regex : Type := {
  re_search_ignorecase : pystr -> pystr -> bool
}.

(** [s.startswith(('sk-', 'api-', 'key-')) or len(s) > limit] *)
Definition looks_like_api_key (limit : Z) (s : pystr) : bool :=
  (str_startswith (py "sk-") s || str_startswith (py "api-") s
   || str_startswith (py "key-") s)
  || (limit <? str_len s)%Z.

Definition youtube_patterns : list pystr :=
  [ py "https?://(?:www\.)?youtube\.com/watch\?v=[\w-]+";
    py "https?://youtu\.be/[\w-]+";
    py "https?://(?:www\.)?youtube\.com/embed/[\w-]+";
    py "https?://(?:www\.)?youtube\.com/v/[\w-]+";
    py "youtube\.com/watch\?v=[\w-]+";
    py "youtu\.be/[\w-]+" ].

Definition audio_extensions : list pystr :=
  [ py ".mp3"; py ".wav"; py ".m4a"; py ".flac"; py ".ogg"; py ".mp4";
    py ".avi"; py ".mkv"; py ".mov" ].

(** The argument of [strip] at the prompts of a path: both quotes. *)
Definition quotes : pystr := [34%N; 39%N].

Section Validation.
Context {RT : PyRuntime} {RX : Regex}.

Definition validate_youtube_url (url : pystr) : bool :=
  match url with
  | [] => false
  | _ =>
    if looks_like_api_key 100 url then false
    else if existsb (fun pattern => re_search_ignorecase pattern url)
                    youtube_patterns then true
    else if str_contains (py "youtube.com") (str_lower url)
            || str_contains (py "youtu.be") (str_lower url) then true
    else false
  end.

Definition validate_file_path (file_path : pystr) : bool :=
  match file_path with
  | [] => false
  | _ =>
    if looks_like_api_key 300 file_path then false
    else
      let file_lower := str_lower file_path in
      if existsb (fun ext => str_endswith ext file_lower) audio_extensions
      then true
      else if (str_contains [92%N] file_path || str_contains [47%N] file_path)
              && (3 <? str_len file_path)%Z then true
      else false
  end.

(** The loops [for attempt in range(max_attempts)]: [typed attempt] is the
    line typed at the prompt of [attempt]; [None] is the [None] returned
    after the last attempt. *)
Fixpoint youtube_url_attempts (typed : nat -> pystr)
    (attempt remaining : nat) : option pystr :=
  match remaining with
  | O => None
  | S remaining' =>
    let url := str_strip (typed attempt) in
    match url with
    | [] => youtube_url_attempts typed (S attempt) remaining'
    | _ =>
      if validate_youtube_url url then Some url
      else youtube_url_attempts typed (S attempt) remaining'
    end
  end.

Definition get_youtube_url_with_validation (typed : nat -> pystr)
  : option pystr :=
  youtube_url_attempts typed 0 3.

Fixpoint file_path_attempts (typed : nat -> pystr)
    (os_path_exists : pystr -> bool) (attempt remaining : nat)
  : option pystr :=
  match remaining with
  | O => None
  | S remaining' =>
    let file_path := str_strip (typed attempt) in
    match file_path with
    | [] => file_path_attempts typed os_path_exists (S attempt) remaining'
    | _ =>
      let file_path := str_strip_chars quotes file_path in
      if validate_file_path file_path then
        if os_path_exists file_path then Some file_path
        else file_path_attempts typed os_path_exists (S attempt) remaining'
      else file_path_attempts typed os_path_exists (S attempt) remaining'
    end
  end.

Definition get_file_path_with_validation (typed : nat -> pystr)
    (os_path_exists : pystr -> bool) : option pystr :=
  file_path_attempts typed os_path_exists 0 3.

(** [is_folder p]: [os.path.exists(p) and os.path.isdir(p)]. *)
Fixpoint folder_path_attempts (typed : nat -> pystr)
    (is_folder : pystr -> bool) (attempt remaining : nat) : option pystr :=
  match remaining with
  | O => None
  | S remaining' =>
    let folder_path := str_strip (typed attempt) in
    match folder_path with
    | [] => folder_path_attempts typed is_folder (S attempt) remaining'
    | _ =>
      let folder_path := str_strip_chars quotes folder_path in
      if looks_like_api_key 300 folder_path then
        folder_path_attempts typed is_folder (S attempt) remaining'
      else if is_folder folder_path then Some folder_path
      else folder_path_attempts typed is_folder (S attempt) remaining'
    end
  end.

Definition get_folder_path_with_validation (typed : nat -> pystr)
    (is_folder : pystr -> bool) : option pystr :=
  folder_path_attempts typed is_folder 0 3.

End Validation.

(* ================================================================== *)
(** * IntegratedVoiceRAGSystem.batch_process_folder *)
(* ================================================================== *)

(** The extensions the batch looks for, and [ext.upper()] on them (they
    are ASCII). *)
Definition batch_extensions : list pystr :=
  [ py ".mp3"; py ".wav"; py ".m4a"; py ".flac"; py ".ogg"; py ".mp4";
    py ".avi" ].

Definition ascii_upper (s : pystr) : pystr :=
  map (fun c => if ((97 <=? c) && (c <=? 122))%N then (c - 32)%N else c) s.

(** [glob pattern] is [Path(folder_path).glob(pattern)], as a list of
    paths. *)
Definition found_audio_files (glob : pystr -> list pystr) : list pystr :=
  fold_left
    (fun audio_files ext =>
       (audio_files ++ glob (py "*" ++ ext))
       ++ glob (py "*" ++ ascii_upper ext))
    batch_extensions [].

Section Batch.
Context {RT : PyRuntime} {EM : Embedder}.
Context {JC : Json (dict pystr)} {JP : Json (dict conf_pattern)}.
Context {JD : Json (list Entry.t)}.

(** [calls i] is what the world answers while the [i]-th file is
    processed, and whether the file still exists. *)
Fixpoint batch_loop (self : rag) (calls : nat -> world * bool) (i : nat)
    (audio_files : list pystr) (success_count : Z) (total_cost : float)
  : rag * outcome (Z * float) :=
  match audio_files with
  | [] => (self, Return (success_count, total_cost))
  | audio_file :: rest =>
    let '(env, file_exists) := calls i in
    match process_audio_file self env file_exists audio_file with
    | (self, Raise e) => (self, Raise e)
    | (self, Return true) =>
      let total_cost :=
        match rev (database self) with
        | last_entry :: _ =>
          (total_cost + cost (Entry.processing_info last_entry))%float
        | [] => total_cost
        end in
      batch_loop self calls (S i) rest (success_count + 1)%Z total_cost
    | (self, Return false) =>
      batch_loop self calls (S i) rest success_count total_cost
    end
  end.

(** The result is what the summary prints, [success_count] and
    [total_cost]; [None] when the function returns before the loop. *)
Definition batch_process_folder (self : rag) (folder_exists : bool)
    (glob : pystr -> list pystr) (typed : pystr)
    (calls : nat -> world * bool) : rag * outcome (option (Z * float)) :=
  if negb folder_exists then (self, Return None)
  else
    let audio_files := found_audio_files glob in
    match audio_files with
    | [] => (self, Return None)
    | _ =>
      let confirm := str_lower (str_strip typed) in
      if negb (str_eqb confirm (py "y")) then (self, Return None)
      else
        match batch_loop self calls 1 audio_files 0%Z 0%float with
        | (self, Return summary) => (self, Return (Some summary))
        | (self, Raise e) => (self, Raise e)
        end
    end.

End Batch.

(* ================================================================== *)
(** * VoiceRAGSystem of voice_rag_poc.py *)
(* ================================================================== *)

Module Poc.

(** A record of the database. *)
Record entry : Type := {
  id : Z;
  source_type : pystr;
  source_path : pystr;
  title : pystr;
  transcript : pystr;
  category : pystr;
  embedding : list float;
  created_at : pystr;
  word_count : Z;
  char_count : Z
}.

(** [self.category_keywords], in the order of the literal. *)
Definition category_keywords : dict (list pystr) :=
  [ (py "ビジネス",
     [py "会議"; py "売上"; py "マーケティング"; py "戦略"; py "予算";
      py "プロジェクト"; py "顧客"; py "営業"]);
    (py "技術",
     [py "プログラミング"; py "AI"; py "システム"; py "データベース";
      py "アルゴリズム"; py "API"; py "クラウド"]);
    (py "教育",
     [py "学習"; py "授業"; py "講義"; py "試験"; py "研究"; py "論文";
      py "学生"; py "教育"]);
    (py "エンターテイメント",
     [py "映画"; py "音楽"; py "ゲーム"; py "アニメ"; py "スポーツ";
      py "芸能"; py "娯楽"]);
    (py "日常",
     [py "家族"; py "友人"; py "買い物"; py "料理"; py "旅行"; py "健康";
      py "趣味"]);
    (py "ニュース",
     [py "政治"; py "経済"; py "社会"; py "国際"; py "事件"; py "災害";
      py "政府"]) ].

(** What [download_youtube_audio] returns: the path of the audio and the
    title; [(None, None)]; or nothing at all, when the download left no
    [.mp3] file in the folder and the function falls off its end. *)
Inductive download : Type :=
| Downloaded (audio_path title : pystr)
| DownloadFailed
| NoMp3Found.

Section System.
Context {RT : PyRuntime} {EM : Embedder} {JD : Json (list entry)}.

Record system : Type := {
  database : list entry;
  db_file : file (list entry)
}.

Definition load_database (db_file : file (list entry)) : list entry :=
  match db_file with
  | Some t => match json_load t with Some d => d | None => [] end
  | None => []
  end.

Definition save_database (self : system) : system :=
  {| database := database self;
     db_file := Some (json_dump (database self)) |}.

(** [VoiceRAGSystem.__init__], given the file on the disk. *)
Definition init (db_file : file (list entry)) : system :=
  {| database := load_database db_file; db_file := db_file |}.

(** [heard] is what [whisper_model.transcribe] does: it returns a text or
    raises.  [None] is the [None] of the handler. *)
Definition transcribe_audio (heard : outcome pystr) : option pystr :=
  match heard with
  | Return result_text => Some result_text
  | Raise _ => None
  end.

Definition category_scores (text : pystr) : dict Z :=
  let text_lower := str_lower text in
  map (fun '(category, keywords) =>
         (category,
          fold_left
            (fun score keyword =>
               (score + str_count text_lower (str_lower keyword))%Z)
            keywords 0%Z))
      category_keywords.

Definition classify_text (text : pystr) : pystr :=
  let category_scores := category_scores text in
  match dict_max_value category_scores, dict_max_key category_scores with
  | Some m, Some k => if (0 <? m)%Z then k else py "その他"
  | _, _ => py "その他"
  end.

Definition add_to_database (self : system) (now : pystr)
    (source_type source_path title transcript category : pystr) : system :=
  let embedding := encode transcript in
  let entry :=
    {| id := Z.of_nat (List.length (database self)) + 1;
       source_type := source_type;
       source_path := source_path;
       title := title;
       transcript := transcript;
       category := category;
       embedding := embedding;
       created_at := now;
       word_count := Z.of_nat (List.length (str_split transcript));
       char_count := str_len transcript |} in
  save_database
    {| database := database self ++ [entry]; db_file := db_file self |}.

Definition process_audio_file (self : system) (file_exists : bool)
    (heard : outcome pystr) (now : pystr) (file_path : pystr)
  : system * bool :=
  if negb file_exists then (self, false)
  else
    match transcribe_audio heard with
    | Some (c :: t) =>
      let transcript := c :: t in
      let category := classify_text transcript in
      let title := os_path_basename file_path in
      (add_to_database self now (py "file") file_path title transcript
                       category,
       true)
    | _ => (self, false)
    end.

Definition process_youtube_url (self : system) (downloaded : download)
    (heard : outcome pystr) (now : pystr) (url : pystr)
  : system * outcome bool :=
  match downloaded with
  | NoMp3Found => (self, Raise (PyError "TypeError"))
  | DownloadFailed => (self, Return false)
  | Downloaded [] _ => (self, Return false)
  | Downloaded (_ :: _) title =>
    match transcribe_audio heard with
    | Some (c :: t) =>
      let transcript := c :: t in
      let category := classify_text transcript in
      (add_to_database self now (py "youtube") url title transcript category,
       Return true)
    | _ => (self, Return false)
    end
  end.

End System.

End Poc.

(* ================================================================== *)
(** * Instances for closed examples *)
(* ================================================================== *)

(** A file identified with the JSON document it holds; [None] is a text
    that does not parse. *)
#[global] Instance json_document (A : Type) : Json A :=
  {| file_text := option A;
     json_dump := fun a => Some a;
     json_load := fun t => t;
     json_load_dump := fun a => eq_refl |}.

Definition path_sep : codepoint := 92%N.

Fixpoint basename_from (cur : pystr) (s : pystr) : pystr :=
  match s with
  | [] => rev cur
  | c :: r =>
    if ((c =? 92) || (c =? 47))%N then basename_from [] r
    else basename_from (c :: cur) r
  end.

(** A runtime for the texts of the examples, in which the regular
    expressions of the program find nothing to change (no URL, no time
    stamp, single spaces only) and no cased character is outside ASCII;
    floats are summed from left to right as CPython does up to version
    3.11, and paths are joined as on Windows. *)
#[global] Instance plain_runtime : PyRuntime :=
  {| str_lower := ascii_lower;
     re_sub := fun _ _ s => s;
     float_sum := fun xs => fold_left PrimFloat.add xs 0%float;
     os_path_join := fun a b => a ++ path_sep :: b;
     os_path_basename := basename_from [] |}.

Definition dot (u v : list float) : float :=
  fold_left PrimFloat.add (map (fun '(x, y) => (x * y)%float) (combine u v))
            0%float.

Definition norm_or_one (u : list float) : float :=
  let n := PrimFloat.sqrt (dot u u) in
  if PrimFloat.eqb n 0 then 1%float else n.

(** An embedder for examples: a text is mapped to the numbers of its
    letters [a] and [b]. *)
#[global] Instance letter_embedder : Embedder :=
  {| encode := fun s =>
       [ float_of_int (str_count s (py "a"));
         float_of_int (str_count s (py "b")) ];
     cosine_similarity := fun u v =>
       (dot u v / (norm_or_one u * norm_or_one v))%float |}.

(** Base64 text identified with the string it encodes, for strings
    without surrogates. *)
#[global] Instance base64_document : Base64 :=
  {| b64encode_utf8 := fun s => Some s;
     b64decode_utf8 := fun t => Some t;
     b64decode_encode := fun s t H => eq_sym H |}.

(* ================================================================== *)
(** * Vocabulary of the properties *)
(* ================================================================== *)

(** The confidences with which [token] occurs in a list of observed
    words, in order. *)
Definition observations (token : pystr) (ws : list word_info) : list float :=
  map confidence
      (filter (fun w => str_eqb (str_strip (word w)) token) ws).

(** A sequence of calls of [learn_from_correction]: each with its clock,
    the two texts and the observed words. *)
Definition learn_call : Type :=
  (nat -> pystr) * pystr * pystr * list word_info.

Definition observed_words (calls : list learn_call) : list word_info :=
  flat_map (fun '(_, _, _, ws) => ws) calls.

(** What a pattern becomes when its token is observed with [c]. *)
Definition observe (p : option conf_pattern) (stamp : pystr) (c : float)
  : conf_pattern :=
  match p with
  | Some p =>
    {| avg_confidence := (avg_confidence p + c) / 2;
       count := count p + 1; first_seen := first_seen p |}
  | None => {| avg_confidence := c; count := 1; first_seen := stamp |}
  end.

Section Vocabulary.
Context {JC : Json (dict pystr)} {JP : Json (dict conf_pattern)}.

Definition learn_all (self : integration) (calls : list learn_call)
  : integration :=
  fold_left
    (fun self '(now, original_text, corrected_text, ws) =>
       fst (learn_from_correction self now original_text corrected_text ws))
    calls self.

(** The three results of the two loops of a call. *)
Definition loops (self : integration) (now : nat -> pystr)
    (original_text corrected_text : pystr) (ws : list word_info)
  : (dict pystr * Z * list (pystr * pystr)) * (dict conf_pattern * Z * nat) :=
  let first :=
    fold_left learn_pair
      (combine (str_split original_text) (str_split corrected_text))
      (learned_corrections self, 0%Z, []) in
  (first,
   fold_left (learn_word now) ws
             (confidence_patterns self, snd (fst first), 0%nat)).

(** The number of entries a call added to the two mappings. *)
Definition new_entries (self self' : integration) : Z :=
  (Z.of_nat (List.length (learned_corrections self'))
   - Z.of_nat (List.length (learned_corrections self)))
  + (Z.of_nat (List.length (confidence_patterns self'))
     - Z.of_nat (List.length (confidence_patterns self))).

(** Both files hold the mappings of the object. *)
Definition persisted (self : integration) : Prop :=
  learned_corrections_file self = Some (json_dump (learned_corrections self))
  /\ confidence_patterns_file self
     = Some (json_dump (confidence_patterns self)).

End Vocabulary.

(** The average and the count the program keeps for a token after the
    confidences [cs], starting from [s] ([None]: the token is unknown). *)
Definition decayed (s : option (float * Z)) (cs : list float)
  : option (float * Z) :=
  fold_left
    (fun s c =>
       match s with
       | Some (a, n) => Some (((a + c) / 2)%float, (n + 1)%Z)
       | None => Some (c, 1%Z)
       end)
    cs s.

Definition avg_and_count (p : option conf_pattern) : option (float * Z) :=
  option_map (fun p => (avg_confidence p, count p)) p.

(** ** Data of the closed examples *)

Definition stamp : nat -> pystr := fun _ => py "2025-01-01T09:00:00".

Definition heard (w : string) (c : float) : word_info :=
  {| word := py w; confidence := c; start := 0; end_ := 0 |}.
Arguments heard w%_string c%_float.

(** A fresh object: no file on the disk. *)
Definition fresh_store : integration := init None None.

(** Scenario 2 of the specification: one token heard in two items. *)
Definition party_calls : list learn_call :=
  [ (stamp, py "党主 です", py "党主 です", [heard "党主" 0.3]);
    (stamp, py "党主 です", py "党主 です", [heard "党主" 0.5]) ].

(** A store that has learnt (and saved) the token [abc], and the same
    store after a call that hears [abc] again and nothing new. *)
Definition store_abc : integration :=
  fst (learn_from_correction fresh_store stamp (py "abc") (py "abc")
         [heard "abc" 0.3]).

Definition store_abc_again : integration :=
  fst (learn_from_correction store_abc stamp (py "abc") (py "abc")
         [heard "abc" 0.5]).

(** A recognition in which the only word is heard with confidence 0.9,
    and a rewrite oracle that answers at once. *)
Definition confident_speech : whisper_result :=
  {| text := py "hello world"; language := None;
     segments :=
       [ {| seg_start := 0; seg_end := 1;
            words := [ {| w_word := py "hello"; w_probability := Some 0.9%float;
                          w_start := 0; w_end := 0.5 |} ] |} ] |}.

Definition oracle_answers : pystr -> nat -> http_reply :=
  fun _ _ => Response 200 (Some (py "hello world")).

(** [x == x] in Python: false for NaN only. *)
Definition is_number (x : float) : bool := PrimFloat.eqb x x.

(** Each value is at most the one before it. *)
Fixpoint non_increasing (xs : list float) : Prop :=
  match xs with
  | a :: (b :: _) as r => PrimFloat.leb b a = true /\ non_increasing r
  | _ => True
  end.

(** A small database for [search_similar]: an entry is a text and its
    embedding is the one of the text. *)
Definition letters_db : list pystr := [py "aab"; py "b"; py "a"].

(** The sentence of the specification on learned corrections, pair by
    pair: a pair is recorded when the two tokens differ, both are longer
    than 2 characters and the raw token is not one of the [known] keys of
    the corrections mapping; a recorded raw token is known from then on. *)
Definition records_pair (known : list pystr) (raw_token corr_token : pystr)
  : bool :=
  negb (str_eqb raw_token corr_token)
  && (2 <? str_len raw_token)%Z && (2 <? str_len corr_token)%Z
  && negb (existsb (str_eqb raw_token) known).

Fixpoint positional_diff (known : list pystr) (raw corr : list pystr)
  : list (pystr * pystr) :=
  match raw, corr with
  | o :: raw', c :: corr' =>
    if records_pair known o c
    then (o, c) :: positional_diff (known ++ [o]) raw' corr'
    else positional_diff known raw' corr'
  | _, _ => []
  end.

(** A reply from which [_call_claude_api] takes no text: any status but
    200, or a failed request. *)
Definition no_result (r : http_reply) : bool :=
  match r with
  | Response status_code _ => negb (status_code =? 200)%Z
  | RequestException => true
  end.

(** A rewrite oracle that is rate-limited at every attempt. *)
Definition oracle_rate_limited : pystr -> nat -> http_reply :=
  fun _ _ => Response 429 None.

(** The specification's words for the keyword result: [winner] has the
    highest score, and every category declared before it has a strictly
    lower one. *)
Definition first_maximum (scores : dict Z) (winner : pystr) : Prop :=
  exists before v after,
    scores = before ++ (winner, v) :: after
    /\ Forall (fun p => (snd p < v)%Z) before
    /\ Forall (fun p => (snd p <= v)%Z) after.

(** A classification oracle that cannot be reached, and one that answers
    with a label outside the enumerated set. *)
Definition classifier_down : pystr -> http_reply := fun _ => RequestException.

Definition classifier_invents : pystr -> http_reply :=
  fun _ => Response 200 (Some (py "経済")).

Definition classifier_says_news : pystr -> http_reply :=
  fun _ => Response 200 (Some (py "ニュース・時事")).

(** A system started on an empty disk. *)
Definition fresh_rag : rag := rag_init (py "D:\Python\out") None None None.

(** Scenario 4 of the specification: "会議" once, "プログラミング" twice. *)
Definition meeting_about_programming : pystr :=
  py "会議でプログラミングとプログラミングの話".

(** One item processed while the folder of its category cannot be
    created. *)
Definition world_without_folder : world :=
  {| env_whisper := Return confident_speech;
     env_post := oracle_rate_limited;
     env_classify_post := classifier_down;
     env_now := stamp;
     env_start_time := 0; env_end_time := 1;
     env_fs := MakedirsRaises;
     env_created_at := py "2025-01-01T09:00:01";
     env_timestamp := py "20250101_090001" |}.

Section DatabaseVocabulary.
Context {JC : Json (dict pystr)} {JP : Json (dict conf_pattern)}.
Context {JD : Json (list Entry.t)}.

(** The record is in the index, without a file path, and the index file
    holds the database. *)
Definition appended_without_path (self self' : rag) : Prop :=
  (exists e, database self' = database self ++ [e]
             /\ Entry.id e = (Z.of_nat (List.length (database self)) + 1)%Z
             /\ Entry.saved_file_path e = None)
  /\ database_file self' = Some (json_dump (database self')).

End DatabaseVocabulary.

(** A rewrite oracle that is out of order twice, then answers. *)
Definition oracle_recovers : pystr -> nat -> http_reply :=
  fun _ attempt =>
    match attempt with
    | 2%nat => Response 200 (Some (py " hello world "))
    | _ => Response 503 None
    end.

(** A rewrite oracle whose answer is blank. *)
Definition oracle_blank : pystr -> nat -> http_reply :=
  fun _ _ => Response 200 (Some (py "  ")).

(** What a step may add to the index: nothing, or one record numbered
    after the records present. *)
Definition grows_by_at_most_one (db db' : list Entry.t) : Prop :=
  db' = db
  \/ exists e, db' = db ++ [e]
               /\ Entry.id e = (Z.of_nat (List.length db) + 1)%Z.

(** The identifiers of the records are 1, 2, ..., in the order of the
    index. *)
Definition well_numbered (db : list Entry.t) : Prop :=
  map Entry.id db
  = map (fun i => (Z.of_nat i + 1)%Z) (seq 0 (List.length db)).

(** One more item, processed while everything works. *)
Definition world_at_its_best : world :=
  {| env_whisper := Return confident_speech;
     env_post := oracle_answers;
     env_classify_post := classifier_says_news;
     env_now := stamp;
     env_start_time := 0; env_end_time := 1;
     env_fs := FileWritten;
     env_created_at := py "2025-01-01T09:00:02";
     env_timestamp := py "20250101_090002" |}.

(** The state of a run of the system on a list of requests. *)
Definition run {RT : PyRuntime} {EM : Embedder}
    {JC : Json (dict pystr)} {JP : Json (dict conf_pattern)}
    {JD : Json (list Entry.t)} (self : rag) (rs : list request) : rag :=
  fold_left handle rs self.

(** A learned correction as [learn_from_correction] records them: both
    tokens longer than 2 characters, and different. *)
Definition tidy_correction (kv : pystr * pystr) : Prop :=
  (2 < str_len (fst kv))%Z /\ (2 < str_len (snd kv))%Z /\ fst kv <> snd kv.

(** A mapping of such corrections, each key once. *)
Definition tidy_corrections (lc : dict pystr) : Prop :=
  Forall tidy_correction lc /\ NoDup (dict_keys lc).

(** A recognition with a misheard word, which the oracle corrects. *)
Definition misheard_speech : whisper_result :=
  {| text := py "teh cat sat"; language := None;
     segments :=
       [ {| seg_start := 0; seg_end := 1;
            words := [ {| w_word := py " teh"; w_probability := Some 0.2%float;
                          w_start := 0; w_end := 0.3 |};
                       {| w_word := py " cat"; w_probability := Some 0.9%float;
                          w_start := 0.3; w_end := 0.6 |} ] |} ] |}.

Definition world_with_typo : world :=
  {| env_whisper := Return misheard_speech;
     env_post := fun _ _ => Response 200 (Some (py "the cat sat"));
     env_classify_post := classifier_down;
     env_now := stamp;
     env_start_time := 0; env_end_time := 1;
     env_fs := FileWritten;
     env_created_at := py "2025-01-01T09:00:03";
     env_timestamp := py "20250101_090003" |}.

(** A rank of the floats that are numbers, ordered as the floats are:
    sign class first, then exponent and mantissa. *)
Definition sf_rank (f : spec_float) : Z * Z * Z :=
  match f with
  | S754_nan => (0, 0, 0)%Z
  | S754_infinity true => (-2, 0, 0)%Z
  | S754_infinity false => (2, 0, 0)%Z
  | S754_zero _ => (0, 0, 0)%Z
  | S754_finite true m e => (-1, - e, - Z.pos m)%Z
  | S754_finite false m e => (1, e, Z.pos m)%Z
  end.

Definition lex_le (a b : Z * Z * Z) : Prop :=
  let '(a1, a2, a3) := a in
  let '(b1, b2, b3) := b in
  (a1 < b1 \/ (a1 = b1 /\ (a2 < b2 \/ (a2 = b2 /\ a3 <= b3))))%Z.

(** ** The API key *)

(** The strings of Python: every code point is at most U+10FFFF. *)
Definition python_str (s : pystr) : Prop :=
  Forall (fun c => (c <= 1114111)%N) s.

Definition no_key_files : key_files :=
  {| api_key_enc := None; config_json := None; api_key_txt := None |}.

(** A session in which the user picks [choice], types a key between
    spaces and the passphrase [phrase]. *)
Definition session (choice phrase : string) (folder_exists : bool)
  : setup_session :=
  {| typed_choice := py choice;
     typed_api_key := py " sk-ant-api03-XYZ ";
     typed_save_phrase := py phrase;
     setup_now := py "2025-01-01T09:00:00";
     setup_can_write := fun _ => folder_exists |}.

Definition disk_after (r : outcome key_files) : key_files :=
  match r with
  | Return disk => disk
  | Raise _ => no_key_files
  end.

Definition key_of (r : option (pystr * key_files)) : pystr :=
  match r with
  | Some (k, _) => k
  | None => []
  end.

Definition disk_of (r : option (pystr * key_files)) : key_files :=
  match r with
  | Some (_, disk) => disk
  | None => no_key_files
  end.

(** ** What is typed at the prompts *)

Section ValidationVocabulary.
Context {RT : PyRuntime} {RX : Regex}.

(** What the prompt of a path makes of the line typed at [attempt]. *)
Definition path_candidate (typed : nat -> pystr) (attempt : nat) : pystr :=
  str_strip_chars quotes (str_strip (typed attempt)).

Definition file_path_rejected (typed : nat -> pystr)
    (os_path_exists : pystr -> bool) (attempt : nat) : Prop :=
  str_strip (typed attempt) = []
  \/ validate_file_path (path_candidate typed attempt) = false
  \/ os_path_exists (path_candidate typed attempt) = false.

Definition youtube_url_rejected (typed : nat -> pystr) (attempt : nat)
  : Prop :=
  validate_youtube_url (str_strip (typed attempt)) = false.

Definition folder_path_rejected (typed : nat -> pystr)
    (is_folder : pystr -> bool) (attempt : nat) : Prop :=
  str_strip (typed attempt) = []
  \/ looks_like_api_key 300 (path_candidate typed attempt) = true
  \/ is_folder (path_candidate typed attempt) = false.

End ValidationVocabulary.

(** Not an API key by the test of the prompts. *)
Definition unlike_api_key (limit : Z) (s : pystr) : Prop :=
  str_startswith (py "sk-") s = false
  /\ str_startswith (py "api-") s = false
  /\ str_startswith (py "key-") s = false
  /\ (str_len s <= limit)%Z.

(** A regular-expression engine that finds nothing, for examples whose
    result does not depend on the patterns. *)
Definition no_match : Regex := {| re_search_ignorecase := fun _ _ => false |}.

(** The user first pastes a key, then presses return, then drops a file
    between quotes. *)
Definition typed_paths (attempt : nat) : pystr :=
  match attempt with
  | 0%nat => py "sk-ant-api03-XYZ"
  | 1%nat => py "   "
  | _ => [34%N] ++ py "D:\rec\a.MP3" ++ [34%N; 32%N]
  end.

Definition typed_urls (attempt : nat) : pystr :=
  match attempt with
  | 0%nat => py "key-123"
  | _ => py " https://youtu.be/abc "
  end.

(** ** The batch *)

(** What the summary of a batch prints ([(0, 0)] when it prints none). *)
Definition batch_summary (A : Type) (r : A * outcome (option (Z * float)))
  : Z * float :=
  match snd r with
  | Return (Some summary) => summary
  | _ => (0%Z, 0%float)
  end.

(** The sum of the costs of records, as the batch accumulates it. *)
Definition added_cost (added : list Entry.t) (start : float) : float :=
  fold_left
    (fun total e => (total + cost (Entry.processing_info e))%float)
    added start.

(** A folder with one file, on a file system that ignores the case of
    names. *)
Definition glob_ignoring_case (pattern : pystr) : list pystr :=
  if str_eqb (ascii_lower pattern) (py "*.mp3") then [py "D:\rec\a.mp3"]
  else [].

(* ================================================================== *)
(** * Properties *)
(* ================================================================== *)

(** ** Strings and dictionaries *)

Lemma str_eqb_refl (a : pystr) : str_eqb a a = true.
Proof.
  induction a as [|x a IH]; simpl; [reflexivity|].
  now rewrite N.eqb_refl.
Qed.

Lemma str_eqb_eq (a b : pystr) : str_eqb a b = true <-> a = b.
Proof.
  split; [|intros ->; apply str_eqb_refl].
  revert b; induction a as [|x a IH]; intros [|y b]; simpl;
    try discriminate; [reflexivity|].
  intros H. apply andb_true_iff in H as [Hx Hr].
  apply N.eqb_eq in Hx. f_equal; [assumption | now apply IH].
Qed.

Lemma str_eqb_neq (a b : pystr) : str_eqb a b = false <-> a <> b.
Proof.
  split.
  - intros H E. apply str_eqb_eq in E. congruence.
  - intros H. destruct (str_eqb a b) eqn:E; [|reflexivity].
    apply str_eqb_eq in E. contradiction.
Qed.

Section DictFacts.
Variable V : Type.
Implicit Types (d : dict V) (k : pystr) (v : V).

Lemma dict_get_set_same d k v : dict_get (dict_set d k v) k = Some v.
Proof.
  induction d as [|[k' v'] r IH]; simpl.
  - now rewrite str_eqb_refl.
  - destruct (str_eqb k' k) eqn:E; simpl; rewrite E; [reflexivity | exact IH].
Qed.

Lemma dict_get_set_other d k k' v :
  k <> k' -> dict_get (dict_set d k v) k' = dict_get d k'.
Proof.
  intros Hne. induction d as [|[k0 v0] r IH]; simpl.
  - apply str_eqb_neq in Hne. now rewrite Hne.
  - destruct (str_eqb k0 k) eqn:E; simpl.
    + apply str_eqb_eq in E. subst k0.
      apply str_eqb_neq in Hne. now rewrite Hne.
    + destruct (str_eqb k0 k'); [reflexivity | exact IH].
Qed.

Lemma dict_set_absent d k v :
  dict_get d k = None -> dict_set d k v = d ++ [(k, v)].
Proof.
  induction d as [|[k' v'] r IH]; simpl; [reflexivity|].
  destruct (str_eqb k' k); [discriminate|].
  intros H. now rewrite IH.
Qed.

Lemma dict_set_present_length d k v v0 :
  dict_get d k = Some v0 -> List.length (dict_set d k v) = List.length d.
Proof.
  induction d as [|[k' v'] r IH]; simpl; [discriminate|].
  destruct (str_eqb k' k); simpl; [reflexivity|].
  intros H. now rewrite IH.
Qed.

Lemma dict_mem_keys d k :
  dict_mem d k = existsb (str_eqb k) (dict_keys d).
Proof.
  unfold dict_mem. induction d as [|[k' v'] r IH]; simpl; [reflexivity|].
  destruct (str_eqb k' k) eqn:E.
  - apply str_eqb_eq in E. subst. now rewrite str_eqb_refl.
  - apply str_eqb_neq in E.
    assert (str_eqb k k' = false) as -> by (apply str_eqb_neq; congruence).
    exact IH.
Qed.

Lemma dict_get_app_l d d' k v :
  dict_get d k = Some v -> dict_get (d ++ d') k = Some v.
Proof.
  induction d as [|[k' v'] r IH]; simpl; [discriminate|].
  destruct (str_eqb k' k); [trivial | exact IH].
Qed.

End DictFacts.

(** ** The second loop of [learn_from_correction] *)

Lemma learn_word_same now cp n i w :
  dict_get (fst (fst (learn_word now (cp, n, i) w))) (str_strip (word w))
  = Some (observe (dict_get cp (str_strip (word w))) (now i) (confidence w)).
Proof.
  unfold learn_word.
  destruct (dict_get cp (str_strip (word w))) as [p|]; simpl;
    apply dict_get_set_same.
Qed.

Lemma learn_word_other now cp n i w token :
  str_strip (word w) <> token ->
  dict_get (fst (fst (learn_word now (cp, n, i) w))) token = dict_get cp token.
Proof.
  intros Hne. unfold learn_word.
  destruct (dict_get cp (str_strip (word w))) as [p|]; simpl;
    now apply dict_get_set_other.
Qed.

Lemma observations_app token ws ws' :
  observations token (ws ++ ws')
  = observations token ws ++ observations token ws'.
Proof. unfold observations. now rewrite filter_app, map_app. Qed.

Lemma fold_learn_word_token now token ws : forall cp n i,
  avg_and_count
    (dict_get (fst (fst (fold_left (learn_word now) ws (cp, n, i)))) token)
  = decayed (avg_and_count (dict_get cp token)) (observations token ws).
Proof.
  induction ws as [|w ws IH]; intros cp n i; [reflexivity|].
  cbn [fold_left].
  destruct (learn_word now (cp, n, i) w) as [[cp' n'] i'] eqn:E.
  rewrite IH. unfold observations; simpl.
  destruct (str_eqb (str_strip (word w)) token) eqn:Ew.
  - apply str_eqb_eq in Ew. subst token. simpl. f_equal.
    pose proof (learn_word_same now cp n i w) as H. rewrite E in H.
    simpl in H. rewrite H.
    destruct (dict_get cp (str_strip (word w))); reflexivity.
  - apply str_eqb_neq in Ew.
    pose proof (learn_word_other now cp n i w Ew) as H. rewrite E in H.
    simpl in H. now rewrite H.
Qed.

Section LearnFacts.
Context {JC : Json (dict pystr)} {JP : Json (dict conf_pattern)}.

Lemma learn_from_correction_maps self now o c ws :
  let r := learn_from_correction self now o c ws in
  let l := loops self now o c ws in
  learned_corrections (fst r) = fst (fst (fst l))
  /\ confidence_patterns (fst r) = fst (fst (snd l))
  /\ snd r = snd (fst l).
Proof.
  unfold learn_from_correction, loops; simpl.
  destruct (fold_left learn_pair _ _) as [[lc n1] printed]; simpl.
  destruct (fold_left (learn_word now) _ _) as [[cp n2] i]; simpl.
  destruct (0 <? n2)%Z; simpl; auto.
Qed.

Lemma learn_from_correction_token self now o c ws token :
  avg_and_count
    (dict_get
       (confidence_patterns (fst (learn_from_correction self now o c ws)))
       token)
  = decayed (avg_and_count (dict_get (confidence_patterns self) token))
            (observations token ws).
Proof.
  destruct (learn_from_correction_maps self now o c ws) as (_ & -> & _).
  apply fold_learn_word_token.
Qed.

Lemma learn_all_token calls token : forall self,
  avg_and_count (dict_get (confidence_patterns (learn_all self calls)) token)
  = decayed (avg_and_count (dict_get (confidence_patterns self) token))
            (observations token (observed_words calls)).
Proof.
  induction calls as [|[[[now o] c] ws] calls IH]; intros self;
    [reflexivity|].
  unfold learn_all in *; simpl.
  rewrite IH, learn_from_correction_token, observations_app.
  unfold decayed. now rewrite fold_left_app.
Qed.

(** C1 — Confidence decay.  A token the store does not know yet, observed
    with confidence [c1] and then with [c2] (in one call or over several
    calls of [learn_from_correction], among any other words), is stored
    with average [(c1 + c2) / 2] and count 2; observed a third time with
    [c3], with average [((c1 + c2) / 2 + c3) / 2] and count 3.  This is
    not the arithmetic mean: for 0, 0 and 0.3 the two differ. *)
Theorem confidence_decay (self : integration) (calls : list learn_call)
    (token : pystr) (c1 c2 c3 : float) :
  dict_get (confidence_patterns self) token = None ->
  let stored :=
    avg_and_count
      (dict_get (confidence_patterns (learn_all self calls)) token) in
  (observations token (observed_words calls) = [c1; c2] ->
   stored = Some (((c1 + c2) / 2)%float, 2%Z))
  /\ (observations token (observed_words calls) = [c1; c2; c3] ->
      stored = Some ((((c1 + c2) / 2 + c3) / 2)%float, 3%Z))
  /\ PrimFloat.eqb (((0 + 0) / 2 + 0.3) / 2) ((0 + 0 + 0.3) / 3) = false.
Proof.
  intros Hnew stored. subst stored.
  rewrite learn_all_token, Hnew. simpl avg_and_count.
  split; [|split].
  - intros ->. reflexivity.
  - intros ->. reflexivity.
  - reflexivity.
Qed.

End LearnFacts.

Lemma confidence_decay_witness :
  avg_and_count
    (dict_get (confidence_patterns (learn_all fresh_store party_calls))
              (py "党主"))
  = Some (0.4%float, 2%Z).
Proof.
  exact (proj1 (confidence_decay fresh_store party_calls (py "党主")
                  0.3 0.5 0 eq_refl) eq_refl).
Defined.

(** ** The learning counter and the sizes of the two mappings *)

Lemma fold_learn_pair_count pairs : forall lc n printed,
  let r := fold_left learn_pair pairs (lc, n, printed) in
  (Z.of_nat (List.length (fst (fst r))) - snd (fst r)
   = Z.of_nat (List.length lc) - n)%Z
  /\ (n <= snd (fst r))%Z.
Proof.
  induction pairs as [|[o c] pairs IH]; intros lc n printed; simpl.
  - lia.
  - destruct (negb (str_eqb o c) && (2 <? str_len o)%Z && (2 <? str_len c)%Z);
      [|apply IH].
    destruct (dict_mem lc o) eqn:E; simpl; [apply IH|].
    unfold dict_mem in E.
    destruct (dict_get lc o) eqn:G; [discriminate|].
    rewrite dict_set_absent by exact G.
    specialize (IH (lc ++ [(o, c)]) (n + 1)%Z (printed ++ [(o, c)])).
    rewrite length_app in IH. simpl in IH. lia.
Qed.

Lemma learn_word_count now cp n i w :
  let r := learn_word now (cp, n, i) w in
  (Z.of_nat (List.length (fst (fst r))) - snd (fst r)
   = Z.of_nat (List.length cp) - n)%Z
  /\ (n <= snd (fst r))%Z.
Proof.
  unfold learn_word.
  destruct (dict_get cp (str_strip (word w))) as [p|] eqn:G; simpl.
  - rewrite (@dict_set_present_length _ _ _ _ _ G). lia.
  - rewrite dict_set_absent, length_app by exact G. simpl. lia.
Qed.

Lemma fold_learn_word_count now ws : forall cp n i,
  let r := fold_left (learn_word now) ws (cp, n, i) in
  (Z.of_nat (List.length (fst (fst r))) - snd (fst r)
   = Z.of_nat (List.length cp) - n)%Z
  /\ (n <= snd (fst r))%Z.
Proof.
  induction ws as [|w ws IH]; intros cp n i; cbn [fold_left].
  - simpl. lia.
  - pose proof (learn_word_count now cp n i w) as H.
    destruct (learn_word now (cp, n, i) w) as [[cp' n'] i'].
    specialize (IH cp' n' i'). simpl in *. lia.
Qed.

Section PersistFacts.
Context {JC : Json (dict pystr)} {JP : Json (dict conf_pattern)}.

Lemma learning_count_new_entries self now o c ws :
  let l := loops self now o c ws in
  snd (fst (snd l))
  = ((Z.of_nat (List.length (fst (fst (fst l))))
      - Z.of_nat (List.length (learned_corrections self)))
     + (Z.of_nat (List.length (fst (fst (snd l))))
        - Z.of_nat (List.length (confidence_patterns self))))%Z.
Proof.
  unfold loops; cbv zeta; cbn [fst snd].
  pose proof (fold_learn_pair_count
                (combine (str_split o) (str_split c))
                (learned_corrections self) 0 []) as [H1 _].
  cbv zeta in H1.
  destruct (fold_left learn_pair _ _) as [[lc n1] printed]. cbn [fst snd] in *.
  pose proof (fold_learn_word_count now ws (confidence_patterns self) n1 0)
    as [H2 _].
  cbv zeta in H2.
  destruct (fold_left (learn_word now) _ _) as [[cp n2] i].
  cbn [fst snd] in *. lia.
Qed.

(** C2, as the code has it — The files are written, and the counter of
    learnt patterns grows, exactly when a call adds an entry to one of the
    two mappings (a new learned correction or a new confidence pattern):
    then both files hold the mappings of the object and the counter has
    grown by the number of new entries.  A call that adds no entry (it may
    have updated known confidence patterns) leaves both files and the
    statistics as they were. *)
Theorem persist_on_new_entry (self : integration) (now : nat -> pystr)
    (original_text corrected_text : pystr) (ws : list word_info) :
  let self' :=
    fst (learn_from_correction self now original_text corrected_text ws) in
  let n := new_entries self self' in
  (0 <= n)%Z
  /\ ((0 < n)%Z ->
      persisted self'
      /\ Stats.learned_patterns (processing_stats self')
         = (Stats.learned_patterns (processing_stats self) + n)%Z)
  /\ (n = 0%Z ->
      learned_corrections_file self' = learned_corrections_file self
      /\ confidence_patterns_file self' = confidence_patterns_file self
      /\ processing_stats self' = processing_stats self).
Proof.
  cbv zeta. unfold new_entries.
  destruct (learn_from_correction_maps self now original_text corrected_text
              ws) as (Hlc & Hcp & _).
  cbv zeta in Hlc, Hcp. rewrite Hlc, Hcp.
  rewrite <- learning_count_new_entries.
  pose proof (fold_learn_pair_count
                (combine (str_split original_text) (str_split corrected_text))
                (learned_corrections self) 0 []) as [_ G1].
  unfold learn_from_correction, loops in *. cbv zeta in *.
  destruct (fold_left learn_pair _ _) as [[lc n1] printed]. cbn [fst snd] in *.
  pose proof (fold_learn_word_count now ws (confidence_patterns self) n1 0)
    as [_ G2].
  cbv zeta in G2.
  destruct (fold_left (learn_word now) _ _) as [[cp n2] i].
  cbn [fst snd] in *.
  split; [lia|].
  destruct (0 <? n2)%Z eqn:E; simpl.
  - split; [intros _; unfold persisted; simpl; auto | intros ->; discriminate].
  - apply Z.ltb_ge in E. split; [lia | auto].
Qed.

End PersistFacts.

Lemma persist_on_new_entry_witness :
  persisted store_abc
  /\ Stats.learned_patterns (processing_stats store_abc) = 1%Z.
Proof.
  exact (proj1 (proj2 (persist_on_new_entry fresh_store stamp (py "abc")
                         (py "abc") [heard "abc" 0.3])) eq_refl).
Defined.

(** C2, as the specification has it, fails: the second call updates the
    pattern of the known token [abc] (average 0.4, count 2 in memory), yet
    the file still holds the pattern of the first call and the counter has
    not moved. *)
Lemma update_only_call_not_persisted :
  avg_and_count (dict_get (confidence_patterns store_abc) (py "abc"))
  = Some (0.3%float, 1%Z)
  /\ avg_and_count
       (dict_get (confidence_patterns store_abc_again) (py "abc"))
     = Some (0.4%float, 2%Z)
  /\ avg_and_count
       (dict_get (load_confidence_patterns store_abc_again) (py "abc"))
     = Some (0.3%float, 1%Z)
  /\ confidence_patterns_file store_abc_again
     = confidence_patterns_file store_abc
  /\ Stats.learned_patterns (processing_stats store_abc_again)
     = Stats.learned_patterns (processing_stats store_abc).
Proof. repeat split; reflexivity. Qed.

(** C3 — The code does not do what the claim says: the learning step
    receives [result['word_level_data']], every word that carries a
    probability.  In this run the only word is heard with confidence 0.9,
    no word is below 0.5, and the run still inserts a confidence pattern
    for it. *)
Theorem learn_step_receives_all_words :
  let self' :=
    fst (transcribe_with_claude_correction fresh_store
           (Return confident_speech) oracle_answers stamp 0 1) in
  low_confidence (collect_word_data (segments confident_speech)) = []
  /\ dict_get (confidence_patterns fresh_store) (py "hello") = None
  /\ avg_and_count (dict_get (confidence_patterns self') (py "hello"))
     = Some (0.9%float, 1%Z)
  /\ PrimFloat.ltb 0.9 0.5 = false.
Proof. vm_compute. repeat split; reflexivity. Qed.

(** ** Order of floats *)

Lemma SFcompare_antisym x y c :
  SFcompare x y = Some c -> SFcompare y x = Some (CompOpp c).
Proof.
  destruct x as [s1| s1| |s1 m1 e1], y as [s2| s2| |s2 m2 e2]; simpl;
    try discriminate; intros H; injection H as <-; f_equal;
    try (destruct s1; reflexivity); try (destruct s2; reflexivity);
    try (destruct s1, s2; reflexivity).
  destruct s1, s2; try reflexivity;
    rewrite (Z.compare_antisym e1 e2); destruct (e1 ?= e2)%Z; simpl;
    try reflexivity;
    rewrite (Pos.compare_cont_antisym m1 m2 Eq); simpl;
    rewrite ?CompOpp_involutive; reflexivity.
Qed.

Lemma float_not_ltb_leb a b :
  is_number a = true -> is_number b = true ->
  PrimFloat.ltb a b = false -> PrimFloat.leb b a = true.
Proof.
  unfold is_number.
  rewrite ltb_spec, leb_spec, !eqb_spec. unfold SFltb, SFleb, SFeqb.
  intros Ha Hb.
  destruct (SFcompare (Prim2SF a) (Prim2SF b)) as [c|] eqn:E.
  - apply SFcompare_antisym in E. rewrite E. destruct c; simpl; congruence.
  - exfalso.
    destruct (Prim2SF a), (Prim2SF b); simpl in *; discriminate.
Qed.

Lemma float_ltb_leb a b :
  PrimFloat.ltb a b = true -> PrimFloat.leb a b = true.
Proof.
  rewrite ltb_spec, leb_spec. unfold SFltb, SFleb.
  destruct (SFcompare (Prim2SF a) (Prim2SF b)) as [[]|]; congruence.
Qed.

(** ** Sorting and slicing *)

Section SortFacts.
Variable A : Type.
Implicit Types (x : A * float) (l : list (A * float)).

Lemma insert_desc_length x l :
  List.length (insert_desc x l) = S (List.length l).
Proof.
  induction l as [|y r IH]; simpl; [reflexivity|].
  destruct (PrimFloat.ltb (snd x) (snd y)); simpl; now rewrite ?IH.
Qed.

Lemma sort_desc_length l : List.length (sort_desc l) = List.length l.
Proof.
  induction l as [|x r IH]; simpl; [reflexivity|].
  now rewrite insert_desc_length, IH.
Qed.

Lemma insert_desc_numbers x l :
  is_number (snd x) = true ->
  Forall (fun y => is_number (snd y) = true) l ->
  Forall (fun y => is_number (snd y) = true) (insert_desc x l).
Proof.
  intros Hx Hl. induction Hl as [|y r Hy Hr IH]; simpl.
  - constructor; [assumption | constructor].
  - destruct (PrimFloat.ltb (snd x) (snd y)); repeat constructor; assumption.
Qed.

Lemma insert_desc_sorted x l :
  is_number (snd x) = true ->
  Forall (fun y => is_number (snd y) = true) l ->
  non_increasing (map snd l) ->
  non_increasing (map snd (insert_desc x l)).
Proof.
  intros Hx Hl. induction Hl as [|y r Hy Hr IH]; intros Hs.
  - exact I.
  - cbn [insert_desc].
    destruct (PrimFloat.ltb (snd x) (snd y)) eqn:E.
    + assert (non_increasing (map snd (insert_desc x r))) as IH'.
      { apply IH. destruct r; [exact I | apply Hs]. }
      destruct r as [|z r'].
      * simpl. split; [now apply float_ltb_leb | exact I].
      * cbn [insert_desc] in *.
        destruct (PrimFloat.ltb (snd x) (snd z)).
        -- cbn [map] in *. split; [apply Hs | exact IH'].
        -- cbn [map] in *. split; [now apply float_ltb_leb | exact IH'].
    + cbn [map] in *. split; [|exact Hs].
      now apply float_not_ltb_leb.
Qed.

Lemma sort_desc_sorted l :
  Forall (fun y => is_number (snd y) = true) l ->
  Forall (fun y => is_number (snd y) = true) (sort_desc l)
  /\ non_increasing (map snd (sort_desc l)).
Proof.
  induction 1 as [|x r Hx Hr [IHn IHs]]; simpl.
  - split; [constructor | exact I].
  - split; [now apply insert_desc_numbers | now apply insert_desc_sorted].
Qed.

End SortFacts.


Lemma slice_to_nonneg (A : Type) (l : list A) (k : Z) :
  (0 <= k)%Z -> slice_to l k = firstn (Z.to_nat k) l.
Proof.
  intros Hk. unfold slice_to.
  destruct (k <? 0)%Z eqn:E; [apply Z.ltb_lt in E; lia | reflexivity].
Qed.

Section SearchFacts.
Context {EM : Embedder}.
Variable entry : Type.
Variable entry_embedding : entry -> list float.

Lemma search_similar_unfold database query top_k :
  search_similar entry_embedding database query top_k
  = slice_to
      (sort_desc
         (map (fun e => (e, similarity_to entry_embedding query e)) database))
      top_k.
Proof.
  destruct database; [|reflexivity].
  unfold slice_to; simpl. destruct (top_k <? 0)%Z; now rewrite firstn_nil.
Qed.


End SearchFacts.



(** ** The first loop of [learn_from_correction] *)

Lemma fold_learn_pair_diff raw : forall corr lc n printed,
  let d := positional_diff (dict_keys lc) raw corr in
  fold_left learn_pair (combine raw corr) (lc, n, printed)
  = (lc ++ d, (n + Z.of_nat (List.length d))%Z, printed ++ d).
Proof.
  induction raw as [|o raw IH]; intros [|c corr] lc n printed; cbv zeta;
    try (simpl; now rewrite !app_nil_r, Z.add_0_r).
  cbn [combine fold_left positional_diff].
  unfold learn_pair at 2, records_pair. rewrite dict_mem_keys.
  destruct (negb (str_eqb o c) && (2 <? str_len o)%Z && (2 <? str_len c)%Z);
    cbn [andb]; [|apply IH].
  destruct (existsb (str_eqb o) (dict_keys lc)) eqn:E; cbn [negb];
    [apply IH|].
  rewrite dict_set_absent.
  - rewrite IH. cbv zeta. unfold dict_keys. rewrite map_app. simpl.
    rewrite <- !app_assoc. simpl. do 2 f_equal. lia.
  - rewrite <- dict_mem_keys in E. unfold dict_mem in E.
    now destruct (dict_get lc o).
Qed.

Section DiffFacts.
Context {JC : Json (dict pystr)} {JP : Json (dict conf_pattern)}.

(** C5 — Positional diff learning.  [learn_from_correction] pairs the
    whitespace-separated tokens of the raw and of the corrected text by
    position, up to the length of the shorter sequence, and records (and
    prints) a learned correction exactly for the pairs the specification
    names: the tokens differ, both are longer than 2, and the raw token is
    not yet a key.  The new corrections are appended to the mapping in
    that order, and no key present before the call changes its value. *)
Theorem positional_diff_learning (self : integration) (now : nat -> pystr)
    (raw_text corrected_text : pystr) (ws : list word_info) :
  let r := learn_from_correction self now raw_text corrected_text ws in
  let raw := str_split raw_text in
  let corr := str_split corrected_text in
  snd r = positional_diff (dict_keys (learned_corrections self)) raw corr
  /\ learned_corrections (fst r) = learned_corrections self ++ snd r
  /\ List.length (combine raw corr)
     = Nat.min (List.length raw) (List.length corr)
  /\ forall k v,
       dict_get (learned_corrections self) k = Some v ->
       dict_get (learned_corrections (fst r)) k = Some v.
Proof.
  cbv zeta.
  destruct (learn_from_correction_maps self now raw_text corrected_text ws)
    as (Hlc & _ & Hp).
  cbv zeta in Hlc, Hp. unfold loops in Hlc, Hp. cbn [fst snd] in Hlc, Hp.
  rewrite fold_learn_pair_diff in Hlc, Hp. cbn [fst snd] in Hlc, Hp.
  rewrite Hlc, Hp. simpl app.
  repeat split.
  - apply length_combine.
  - intros k v H. now apply dict_get_app_l.
Qed.

End DiffFacts.

(** One call that sees the raw token [teh] twice: the first pair is
    recorded, the second finds the key and changes nothing; [is] is too
    short and [cat] is unchanged. *)
Example positional_diff_example :
  learn_from_correction fresh_store stamp
    (py "teh cat is teh best") (py "the cat was that best extra") []
  = (set_processing_stats
       (save_confidence_patterns
          (save_learned_corrections
             (set_patterns fresh_store [(py "teh", py "the")] [])))
       (Stats.add_learned_patterns Stats.initial 1),
     [(py "teh", py "the")]).
Proof. reflexivity. Qed.

(** ** The rewrite oracle and the pipeline *)

Lemma call_attempts_exhausted post max_retries : forall remaining attempt,
  (forall a, (attempt <= a < attempt + remaining)%nat ->
             no_result (post a) = true) ->
  fst (call_attempts post max_retries attempt remaining) = Return None.
Proof.
  induction remaining as [|rem IH]; intros attempt H; [reflexivity|].
  assert (fst (call_attempts post max_retries (S attempt) rem) = Return None)
    as Hrec by (apply IH; intros a Ha; apply H; lia).
  cbn [call_attempts].
  pose proof (H attempt ltac:(lia)) as H0.
  destruct (post attempt) as [status_code content|]; simpl in H0.
  - apply negb_true_iff in H0. rewrite H0.
    destruct (status_code =? 429)%Z; [|exact Hrec].
    destruct (call_attempts post max_retries (S attempt) rem); exact Hrec.
  - destruct (call_attempts post max_retries (S attempt) rem).
    destruct (attempt <? max_retries - 1)%nat; exact Hrec.
Qed.

Section PipelineFacts.
Context {RT : PyRuntime}.
Context {JC : Json (dict pystr)} {JP : Json (dict conf_pattern)}.

Lemma _call_claude_api_exhausted post prompt :
  (forall attempt, (attempt < 3)%nat ->
                   no_result (post prompt attempt) = true) ->
  _call_claude_api post prompt 3 = Return None.
Proof.
  intros H. apply call_attempts_exhausted. intros a Ha. apply H. lia.
Qed.

(** C6 — Graceful rewrite degradation.  When none of the three attempts of
    the rewrite oracle gives a text, the run succeeds without an error,
    its corrected text is the pattern-corrected text (cleaning, static
    dictionary, learned patterns), and the two mappings and their files
    are as before the run. *)
Theorem graceful_rewrite_degradation (self : integration)
    (whisper_result : whisper_result) (post : pystr -> nat -> http_reply)
    (now : nat -> pystr) (start_time end_time : float) :
  (forall prompt attempt,
      (attempt < 3)%nat -> no_result (post prompt attempt) = true) ->
  let r :=
    transcribe_with_claude_correction self (Return whisper_result) post now
                                      start_time end_time in
  success (snd r) = true
  /\ error (snd r) = None
  /\ claude_applied (snd r) = false
  /\ corrected_transcript (snd r)
     = _apply_whisper_patterns self (_clean_text_basic (text whisper_result))
  /\ learned_corrections (fst r) = learned_corrections self
  /\ confidence_patterns (fst r) = confidence_patterns self
  /\ learned_corrections_file (fst r) = learned_corrections_file self
  /\ confidence_patterns_file (fst r) = confidence_patterns_file self.
Proof.
  intros H. cbv zeta. unfold transcribe_with_claude_correction.
  destruct (confidence_texts _) as [result_info confidence_info].
  rewrite _call_claude_api_exhausted by (intros; now apply H).
  simpl. repeat split.
Qed.

End PipelineFacts.

Lemma graceful_rewrite_degradation_witness :
  success
    (snd (transcribe_with_claude_correction fresh_store
            (Return confident_speech) oracle_rate_limited stamp 0 1)) = true
  /\ corrected_transcript
       (snd (transcribe_with_claude_correction fresh_store
               (Return confident_speech) oracle_rate_limited stamp 0 1))
     = py "hello world"
  /\ confidence_patterns
       (fst (transcribe_with_claude_correction fresh_store
               (Return confident_speech) oracle_rate_limited stamp 0 1)) = [].
Proof.
  pose proof (graceful_rewrite_degradation fresh_store confident_speech
                oracle_rate_limited stamp 0 1 (fun _ _ _ => eq_refl))
    as (Hs & _ & _ & Hc & _ & Hp & _).
  split; [exact Hs | split; [rewrite Hc; reflexivity | exact Hp]].
Defined.

(** Scenario 1 of the specification: the static dictionary. *)
Example static_dictionary_example :
  _apply_whisper_patterns fresh_store (py "地民党の石橋ロシと党主")
  = py "自民党の石破茂と党首".
Proof. reflexivity. Qed.

(** ** [max] over a dictionary of scores *)

Lemma max_key_from_first_maximum rest : forall best,
  exists before v after,
    best :: rest = before ++ (max_key_from best rest, v) :: after
    /\ Forall (fun p => (snd p < v)%Z) before
    /\ Forall (fun p => (snd p <= v)%Z) after
    /\ (snd best <= v)%Z.
Proof.
  induction rest as [|kv r IH]; intros [k0 v0]; simpl.
  - exists [], v0, []. split; [reflexivity|]. repeat split; auto; lia.
  - destruct (v0 <? snd kv)%Z eqn:E.
    + apply Z.ltb_lt in E.
      destruct (IH kv) as (before & v & after & Heq & Hb & Ha & Hle).
      exists ((k0, v0) :: before), v, after. rewrite Heq.
      split; [reflexivity|]. split; [|split; [exact Ha | lia]].
      constructor; [simpl; lia | exact Hb].
    + apply Z.ltb_ge in E.
      destruct (IH (k0, v0)) as (before & v & after & Heq & Hb & Ha & Hle).
      simpl in Hle.
      destruct before as [|b0 before'].
      * simpl in Heq. injection Heq as Hk Hv Hr. subst after v.
        exists [], v0, (kv :: r). simpl. rewrite <- Hk.
        split; [reflexivity|]. split; [constructor|split; [|lia]].
        constructor; [lia | exact Ha].
      * simpl in Heq. injection Heq as Hk Hr. subst b0.
        exists ((k0, v0) :: kv :: before'), v, after.
        split; [simpl; do 2 f_equal; exact Hr|].
        inversion Hb as [|? ? Hb0 Hb']; subst. simpl in Hb0.
        split; [|split; [exact Ha | lia]].
        constructor; [simpl; lia|].
        constructor; [lia | exact Hb'].
Qed.

Lemma fold_max_bounds l : forall a,
  let m := fold_left Z.max l a in
  (a <= m)%Z /\ Forall (fun x => (x <= m)%Z) l /\ (m = a \/ In m l).
Proof.
  induction l as [|x l IH]; intros a; simpl.
  - split; [lia | split; [constructor | now left]].
  - destruct (IH (Z.max a x)) as (H1 & H2 & H3).
    split; [lia | split].
    + constructor; [lia | exact H2].
    + destruct H3 as [H3|H3]; [|right; right; exact H3].
      destruct (Z.max_spec a x) as [[_ E]|[_ E]]; rewrite E in *.
      * right; left. now symmetry.
      * now left.
Qed.

Lemma dict_mem_in_keys (V : Type) (d : dict V) (k : pystr) :
  dict_mem d k = true -> In k (dict_keys d).
Proof.
  rewrite dict_mem_keys. intros H. apply existsb_exists in H as (x & Hin & E).
  apply str_eqb_eq in E. now subst.
Qed.

Lemma category_label_plain (label : pystr) :
  dict_mem category_folders label = true ->
  str_strip label = label /\ label <> [].
Proof.
  intros H. apply dict_mem_in_keys in H.
  unfold dict_keys, category_folders in H. cbn [map fst In] in H.
  repeat (destruct H as [<-|H];
          [split; [vm_compute; reflexivity | discriminate]|]).
  contradiction.
Qed.

Lemma fold_left_add_sum (A : Type) (f : A -> Z) (l : list A) : forall a,
  fold_left (fun s x => (s + f x)%Z) l a
  = (a + fold_right Z.add 0 (map f l))%Z.
Proof.
  induction l as [|x l IH]; intros a; simpl; [lia|]. rewrite IH. lia.
Qed.

Lemma first_maximum_or_other (scores : dict Z) (other : pystr) :
  scores <> [] ->
  let chosen :=
    match dict_max_value scores, dict_max_key scores with
    | Some m, Some k => if (0 <? m)%Z then k else other
    | _, _ => other
    end in
  ((exists c s, In (c, s) scores /\ (0 < s)%Z) -> first_maximum scores chosen)
  /\ (Forall (fun p => snd p = 0%Z) scores -> chosen = other).
Proof.
  destruct scores as [|kv r]; [congruence|]. intros _. simpl.
  destruct (fold_max_bounds (map snd r) (snd kv)) as (H1 & H2 & H3).
  cbv zeta in *. set (m := fold_left Z.max (map snd r) (snd kv)) in *.
  split.
  - intros (c & s & Hin & Hs).
    assert (s <= m)%Z as Hsm.
    { destruct Hin as [->|Hin]; [exact H1|].
      rewrite Forall_forall in H2. apply H2.
      change s with (snd (c, s)). now apply in_map. }
    assert ((0 <? m)%Z = true) as -> by (apply Z.ltb_lt; lia).
    destruct (max_key_from_first_maximum r kv)
      as (before & v & after & Heq & Hb & Ha & _).
    now exists before, v, after.
  - intros Hz.
    assert (m = 0)%Z as ->.
    { inversion Hz as [|? ? Hkv Hr]; subst.
      destruct H3 as [H3|H3]; [congruence|].
      apply in_map_iff in H3 as (p & Hp & Hin).
      rewrite Forall_forall in Hr. rewrite <- Hp. now apply Hr. }
    reflexivity.
Qed.

Section ClassifierFacts.
Context {RT : PyRuntime} {EM : Embedder}.
Context {JC : Json (dict pystr)} {JP : Json (dict conf_pattern)}.
Context {JD : Json (list Entry.t)}.

Lemma category_scores_sum (text : pystr) :
  category_scores text
  = map (fun '(category, keywords) =>
           (category,
            fold_right Z.add 0%Z
              (map (fun keyword =>
                      str_count (str_lower text) (str_lower keyword))
                   keywords)))
        category_keywords.
Proof.
  unfold category_scores. apply map_ext. intros [category keywords].
  unfold keyword_score. now rewrite fold_left_add_sum.
Qed.

(** C7 — Classifier fallback chain.  The label of the oracle is returned
    whenever it is a member of the enumerated categories, whatever the
    keywords say.  When the oracle gives no valid label (another status,
    a failed request, a body without text, a label outside the set), the
    keyword result is returned: the score of a category is the total
    number of occurrences of its keywords in the lower-cased text, the
    category with the highest score wins, the first declared one among
    equals; and when every score is 0 the result is "その他". *)
Theorem classifier_fallback_chain (self : rag) (post : pystr -> http_reply)
    (text : pystr) :
  (forall label,
      post (classify_prompt text) = Response 200 (Some label) ->
      dict_mem category_folders label = true ->
      snd (classify_text self post text) = label)
  /\ ((forall label,
          post (classify_prompt text) = Response 200 (Some label) ->
          dict_mem category_folders (str_strip label) = false) ->
      snd (classify_text self post text) = fallback_category text)
  /\ ((exists c s, In (c, s) (category_scores text) /\ (0 < s)%Z) ->
      first_maximum (category_scores text) (fallback_category text))
  /\ (Forall (fun p => snd p = 0%Z) (category_scores text) ->
      fallback_category text = py "その他")
  /\ category_scores text
     = map (fun '(category, keywords) =>
              (category,
               fold_right Z.add 0%Z
                 (map (fun keyword =>
                         str_count (str_lower text) (str_lower keyword))
                      keywords)))
           category_keywords.
Proof.
  split; [|split; [|split; [|split]]].
  - intros label Hpost Hmem.
    destruct (category_label_plain label Hmem) as [Hstrip Hne].
    unfold classify_text, _classify_with_claude_api.
    rewrite Hpost. cbn [Z.eqb Pos.eqb]. rewrite Hstrip, Hmem.
    destruct label; [congruence | reflexivity].
  - intros Hinvalid.
    unfold classify_text, _classify_with_claude_api.
    destruct (post (classify_prompt text)) as [status_code [t|]|] eqn:E;
      try reflexivity; [|now destruct (status_code =? 200)%Z].
    destruct (status_code =? 200)%Z eqn:Es; [|reflexivity].
    apply Z.eqb_eq in Es. subst status_code.
    now rewrite (Hinvalid t eq_refl).
  - apply first_maximum_or_other.
    unfold category_scores, category_keywords. discriminate.
  - apply first_maximum_or_other.
    unfold category_scores, category_keywords. discriminate.
  - apply category_scores_sum.
Qed.

End ClassifierFacts.

Lemma classifier_fallback_chain_witness :
  snd (classify_text fresh_rag classifier_says_news meeting_about_programming)
  = py "ニュース・時事"
  /\ snd (classify_text fresh_rag classifier_down meeting_about_programming)
     = py "技術・プログラミング"
  /\ snd (classify_text fresh_rag classifier_invents (py "こんにちは"))
     = py "その他".
Proof.
  split; [|split].
  - exact (proj1 (classifier_fallback_chain fresh_rag classifier_says_news
                    meeting_about_programming) _ eq_refl eq_refl).
  - rewrite (proj1 (proj2 (classifier_fallback_chain fresh_rag classifier_down
                             meeting_about_programming))).
    + reflexivity.
    + intros label H. discriminate H.
  - rewrite (proj1 (proj2 (classifier_fallback_chain fresh_rag
                             classifier_invents (py "こんにちは")))).
    + reflexivity.
    + intros label H. injection H as <-. reflexivity.
Defined.

(** ** Persistence *)

Section PersistenceFacts.
Context {JC : Json (dict pystr)} {JP : Json (dict conf_pattern)}.


End PersistenceFacts.


(** ** The database *)

Section DatabaseFacts.
Context {RT : PyRuntime} {EM : Embedder}.
Context {JC : Json (dict pystr)} {JP : Json (dict conf_pattern)}.
Context {JD : Json (list Entry.t)}.

(** C9 — The code does not do what the claim says when the folder of the
    category cannot be created ([os.makedirs] raises, or the folder is
    still absent afterwards): the handler of [save_transcript_to_file]
    prints [filename], which is not bound yet, so [add_to_database] ends
    with an [UnboundLocalError] instead of completing.  The record has
    been appended and saved before, without a file path. *)
Theorem add_to_database_raises_without_folder (self : rag)
    (created_at timestamp source_type source_path title original_transcript
       corrected_transcript category : pystr)
    (processing_info : transcription) :
  let add fs :=
    add_to_database self fs created_at timestamp source_type source_path
      title original_transcript corrected_transcript category
      processing_info in
  snd (add MakedirsRaises) = Raise (PyError "UnboundLocalError")
  /\ snd (add FolderAbsent) = Raise (PyError "UnboundLocalError")
  /\ appended_without_path self (fst (add MakedirsRaises))
  /\ appended_without_path self (fst (add FolderAbsent)).
Proof.
  cbv zeta. unfold add_to_database, appended_without_path; simpl.
  repeat split; eexists; repeat split.
Qed.

(** The part of C9 the code does keep: a failure of the write itself is
    absorbed, and the record stays in the index without a file path. *)
Lemma add_to_database_absorbs_write_failure (self : rag)
    (created_at timestamp source_type source_path title original_transcript
       corrected_transcript category : pystr)
    (processing_info : transcription) :
  let add fs :=
    add_to_database self fs created_at timestamp source_type source_path
      title original_transcript corrected_transcript category
      processing_info in
  snd (add WriteRaises) = Return tt
  /\ snd (add FileAbsent) = Return tt
  /\ appended_without_path self (fst (add WriteRaises))
  /\ appended_without_path self (fst (add FileAbsent)).
Proof.
  cbv zeta. unfold add_to_database, appended_without_path; simpl.
  repeat split; eexists; repeat split.
Qed.

Lemma add_to_database_integration (self : rag) fs created_at timestamp
    source_type source_path title original_transcript corrected_transcript
    category processing_info :
  claude_integration
    (fst (add_to_database self fs created_at timestamp source_type
            source_path title original_transcript corrected_transcript
            category processing_info))
  = claude_integration self.
Proof.
  unfold add_to_database.
  destruct (save_transcript_to_file _ _ _ _ _ _ _ _ _) as [[[|c p]|]|e];
    reflexivity.
Qed.

End DatabaseFacts.

(** The failing run of C9 from the entry point: an audio file is
    processed while the category folder cannot be created. *)
Example process_audio_file_raises :
  snd (process_audio_file fresh_rag world_without_folder true
         (py "D:\rec\a.mp3"))
  = Raise (PyError "UnboundLocalError")
  /\ map Entry.title
         (database (fst (process_audio_file fresh_rag world_without_folder
                           true (py "D:\rec\a.mp3"))))
     = [py "a.mp3"].
Proof. vm_compute. split; reflexivity. Qed.

(** ** The counter of processed files *)

Section StatsFacts.
Context {RT : PyRuntime} {EM : Embedder}.
Context {JC : Json (dict pystr)} {JP : Json (dict conf_pattern)}.
Context {JD : Json (list Entry.t)}.

Lemma learn_from_correction_total_files self now o c ws :
  Stats.total_files
    (processing_stats (fst (learn_from_correction self now o c ws)))
  = Stats.total_files (processing_stats self).
Proof.
  unfold learn_from_correction.
  destruct (fold_left learn_pair _ _) as [[lc n1] printed].
  destruct (fold_left (learn_word now) _ _) as [[cp n2] i].
  destruct (0 <? n2)%Z; reflexivity.
Qed.

Lemma transcribe_total_files self whisper post now start_time end_time :
  Stats.total_files
    (processing_stats
       (fst (transcribe_with_claude_correction self whisper post now
               start_time end_time)))
  = Stats.total_files (processing_stats self).
Proof.
  unfold transcribe_with_claude_correction.
  destruct whisper as [whisper_result|e]; [|reflexivity].
  destruct (confidence_texts _) as [result_info confidence_info].
  destruct (_call_claude_api _ _ _) as [[[|c s]|]|e]; try reflexivity.
  simpl. apply learn_from_correction_total_files.
Qed.

Lemma classify_text_total_files (self : rag) post text :
  Stats.total_files
    (processing_stats
       (claude_integration (fst (classify_text self post text))))
  = Stats.total_files (processing_stats (claude_integration self)).
Proof.
  unfold classify_text, _classify_with_claude_api.
  destruct (post _) as [status_code [t|]|]; try reflexivity;
    destruct (status_code =? 200)%Z; try reflexivity.
  destruct (dict_mem category_folders (str_strip t)); [|reflexivity].
  simpl. destruct (str_strip t); reflexivity.
Qed.

Lemma process_item_total_files (self : rag) env source_type source_path
    title :
  shown_total_files (fst (process_item self env source_type source_path title))
  = shown_total_files self.
Proof.
  unfold process_item, shown_total_files.
  pose proof (transcribe_total_files (claude_integration self)
                (env_whisper env) (env_post env) (env_now env)
                (env_start_time env) (env_end_time env)) as Ht.
  destruct (transcribe_with_claude_correction _ _ _ _ _ _) as [ci result].
  simpl in Ht.
  destruct (success result); simpl; [|exact Ht].
  pose proof (classify_text_total_files (set_claude_integration self ci)
                (env_classify_post env) (corrected_transcript result)) as Hc.
  destruct (classify_text _ _ _) as [self1 category]. simpl in Hc.
  match goal with
  | |- context [add_to_database ?s ?fs ?a ?b ?c ?d ?e ?f ?g ?h ?i] =>
    pose proof (add_to_database_integration s fs a b c d e f g h i) as Ha;
      destruct (add_to_database s fs a b c d e f g h i) as [self2 [u|ex]]
  end; simpl in *; rewrite Ha; congruence.
Qed.

Lemma handle_total_files (self : rag) (r : request) :
  shown_total_files (handle self r) = shown_total_files self.
Proof.
  destruct r as [env file_exists file_path|env download url|query| |typed];
    simpl; try reflexivity.
  - unfold process_audio_file. destruct file_exists; simpl; [|reflexivity].
    apply process_item_total_files.
  - unfold process_youtube_url.
    destruct download as [[[|c audio_path] title]|]; try reflexivity.
    apply process_item_total_files.
  - unfold clear_learned_patterns.
    destruct (str_eqb _ _); reflexivity.
Qed.

(** C10 — The counter of processed files is set to 0 when the object is
    constructed and no operation writes it: in every state the system can
    reach, the number [show_processing_stats] prints as the total of
    processed files is 0. *)
Theorem total_files_stays_zero (self : rag) :
  reachable self -> shown_total_files self = 0%Z.
Proof.
  induction 1 as [folder f_lc f_cp f_db|self r _ IH].
  - reflexivity.
  - now rewrite handle_total_files.
Qed.

End StatsFacts.

Lemma total_files_stays_zero_witness :
  shown_total_files
    (handle (handle fresh_rag
               (ProcessAudioFile world_without_folder true (py "D:\rec\a.mp3")))
            (ClearLearnedPatterns (py "y")))
  = 0%Z.
Proof.
  apply total_files_stays_zero.
  apply reachable_step, reachable_step. unfold fresh_rag.
  apply reachable_init.
Defined.

Example format_3f_examples :
  map format_3f
      [0.9; 0.0625; 0.0005; 123.4565; -0.0001; 1e22; 0.4375; 0.31549999]%float
  = [py "0.900"; py "0.062"; py "0.001"; py "123.457"; py "-0.000";
     py "10000000000000000000000.000"; py "0.438"; py "0.315"].
Proof. vm_compute. reflexivity. Qed.

(** ** The string functions on small inputs *)

Example str_len_counts_code_points : str_len (py "党主") = 2%Z.
Proof. reflexivity. Qed.

Example str_split_on_any_whitespace :
  str_split (py " ab  cd　ef ") = [py "ab"; py "cd"; py "ef"].
Proof. reflexivity. Qed.

Example str_strip_both_ends : str_strip (py "  a b ") = py "a b".
Proof. reflexivity. Qed.

Example str_count_without_overlap : str_count (py "aaaa") (py "aa") = 2%Z.
Proof. reflexivity. Qed.

Example str_replace_left_to_right :
  str_replace (py "aaab") (py "aa") (py "x") = py "xab"
  /\ str_replace (py "abc") [] (py "-") = py "-a-b-c-".
Proof. split; reflexivity. Qed.

(** Scenario 3 of the specification: an empty index answers nothing. *)
Example search_empty_index :
  search_similar encode ([] : list pystr) (py "ab") 3 = [].
Proof. reflexivity. Qed.

(** ** Further facts on the pipeline and the search *)

Section MoreFacts.
Context {RT : PyRuntime} {EM : Embedder}.
Context {JC : Json (dict pystr)} {JP : Json (dict conf_pattern)}.

(** Whenever the oracle gives a text, the learning step runs on the raw
    text, that text and all the words that carry a probability. *)
Lemma transcribe_learns_from_word_level_data (self : integration)
    (whisper_result : whisper_result) (post : pystr -> nat -> http_reply)
    (now : nat -> pystr) (start_time end_time : float) (c : codepoint)
    (s : pystr) :
  (forall prompt, _call_claude_api post prompt 3 = Return (Some (c :: s))) ->
  let learnt :=
    fst (learn_from_correction self now (text whisper_result) (c :: s)
           (collect_word_data (segments whisper_result))) in
  let r :=
    transcribe_with_claude_correction self (Return whisper_result) post now
                                      start_time end_time in
  learned_corrections (fst r) = learned_corrections learnt
  /\ confidence_patterns (fst r) = confidence_patterns learnt
  /\ corrected_transcript (snd r) = c :: s
  /\ claude_applied (snd r) = true.
Proof.
  intros H. cbv zeta. unfold transcribe_with_claude_correction.
  destruct (confidence_texts _) as [result_info confidence_info].
  rewrite H. simpl. repeat split.
Qed.

End MoreFacts.

Lemma insert_desc_In (A : Type) (x y : A * float) (l : list (A * float)) :
  In y (insert_desc x l) <-> y = x \/ In y l.
Proof.
  induction l as [|z r IH]; simpl; [intuition auto|].
  destruct (PrimFloat.ltb (snd x) (snd z)); simpl; rewrite ?IH;
    intuition auto.
Qed.

Lemma sort_desc_In (A : Type) (y : A * float) (l : list (A * float)) :
  In y (sort_desc l) <-> In y l.
Proof.
  induction l as [|x r IH]; simpl; [reflexivity|].
  rewrite insert_desc_In, IH. intuition auto.
Qed.

Lemma firstn_In (A : Type) (x : A) (n : nat) : forall l,
  In x (firstn n l) -> In x l.
Proof.
  induction n as [|n IH]; intros [|y l]; simpl; try contradiction.
  intros [->|H]; [now left | right; now apply IH].
Qed.

(** Every result of a search is a record of the database with its
    similarity to the query. *)
Lemma search_similar_from_database {EM : Embedder} (entry : Type)
    (entry_embedding : entry -> list float) (database : list entry)
    (query : pystr) (top_k : Z) (e : entry) (sim : float) :
  In (e, sim) (search_similar entry_embedding database query top_k) ->
  In e database /\ sim = similarity_to entry_embedding query e.
Proof.
  rewrite search_similar_unfold. unfold slice_to. intros H.
  assert (In (e, sim)
             (sort_desc
                (map (fun e => (e, similarity_to entry_embedding query e))
                     database))) as H'
    by (destruct (top_k <? 0)%Z; eapply firstn_In; exact H).
  apply sort_desc_In, in_map_iff in H' as (e' & Heq & Hin).
  injection Heq as -> <-. auto.
Qed.

(** Records of equal similarity keep the order of the store. *)
Example search_ties_keep_store_order :
  map fst (search_similar encode [py "a"; py "aa"; py "b"; py "aaa"]
             (py "a") 4)
  = [py "a"; py "aa"; py "aaa"; py "b"].
Proof. reflexivity. Qed.

(* ================================================================== *)
(** * Further properties of the code *)
(* ================================================================== *)

(** ** Pattern correction leaves a text without patterns alone *)


Section IdentityFacts.
Context {JC : Json (dict pystr)} {JP : Json (dict conf_pattern)}.


End IdentityFacts.


(** ** Retries and back-off of the rewrite oracle *)

Lemma call_attempts_rate_limited post max_retries : forall remaining attempt,
  (forall a, exists c, post a = Response 429 c) ->
  call_attempts post max_retries attempt remaining
  = (Return None,
     map (fun i => (2 ^ Z.of_nat i)%Z) (seq attempt remaining)).
Proof.
  induction remaining as [|rem IH]; intros attempt H; [reflexivity|].
  cbn [call_attempts seq map]. destruct (H attempt) as [c ->].
  cbn [Z.eqb Pos.eqb]. now rewrite IH.
Qed.

Lemma call_attempts_unreachable post : forall remaining attempt,
  (forall a, post a = RequestException) ->
  call_attempts post (attempt + remaining) attempt remaining
  = (Return None,
     map (fun i => (2 ^ Z.of_nat i)%Z) (seq attempt (remaining - 1))).
Proof.
  induction remaining as [|rem IH]; intros attempt H; [reflexivity|].
  cbn [call_attempts]. rewrite H.
  replace (attempt + S rem)%nat with (S attempt + rem)%nat by lia.
  rewrite IH by exact H.
  destruct rem as [|rem'].
  - assert ((attempt <? S attempt + 0 - 1)%nat = false) as ->
        by (apply Nat.ltb_ge; lia).
    reflexivity.
  - assert ((attempt <? S attempt + S rem' - 1)%nat = true) as ->
        by (apply Nat.ltb_lt; lia).
    cbn [Nat.sub]. rewrite Nat.sub_0_r. reflexivity.
Qed.

Lemma call_attempts_refused post max_retries : forall remaining attempt,
  (forall a, exists status c,
        post a = Response status c /\ status <> 200%Z /\ status <> 429%Z) ->
  call_attempts post max_retries attempt remaining = (Return None, []).
Proof.
  induction remaining as [|rem IH]; intros attempt H; [reflexivity|].
  cbn [call_attempts]. destruct (H attempt) as (status & c & -> & H2 & H4).
  apply Z.eqb_neq in H2, H4. rewrite H2, H4. now apply IH.
Qed.

(** X2 — Back-off of [_call_claude_api] over [n] attempts that all fail.
    Rate-limited (429) at every attempt: it sleeps 1, 2, 4, ... seconds,
    [n] times, the last time after the final attempt.  A request error at
    every attempt: the same waits but the last, [n - 1] times.  Any other
    status at every attempt: no wait at all between the attempts.  In
    each case the result is [None]. *)
Theorem rewrite_backoff (post : nat -> http_reply) (n : nat) :
  ((forall a, exists c, post a = Response 429 c) ->
   call_attempts post n 0 n
   = (Return None, map (fun i => (2 ^ Z.of_nat i)%Z) (seq 0 n)))
  /\ ((forall a, post a = RequestException) ->
      call_attempts post n 0 n
      = (Return None, map (fun i => (2 ^ Z.of_nat i)%Z) (seq 0 (n - 1))))
  /\ ((forall a, exists status c,
          post a = Response status c /\ status <> 200%Z /\ status <> 429%Z) ->
      call_attempts post n 0 n = (Return None, [])).
Proof.
  split; [|split]; intros H.
  - now apply call_attempts_rate_limited.
  - now apply (call_attempts_unreachable post n 0).
  - now apply call_attempts_refused.
Qed.

Lemma rewrite_backoff_witness :
  call_attempts (oracle_rate_limited []) 3 0 3 = (Return None, [1; 2; 4]%Z)
  /\ call_attempts (fun _ => RequestException) 3 0 3
     = (Return None, [1; 2]%Z).
Proof.
  split.
  - exact (proj1 (rewrite_backoff (oracle_rate_limited []) 3)
             (fun a => ex_intro _ None eq_refl)).
  - exact (proj1 (proj2 (rewrite_backoff (fun _ => RequestException) 3))
             (fun a => eq_refl)).
Defined.

Lemma call_attempts_first_text post max_retries t : forall j attempt remaining,
  (j < remaining)%nat ->
  (forall i, (i < j)%nat -> no_result (post (attempt + i)%nat) = true) ->
  post (attempt + j)%nat = Response 200 (Some t) ->
  fst (call_attempts post max_retries attempt remaining)
  = Return (Some (str_strip t)).
Proof.
  induction j as [|j IH]; intros attempt remaining Hj Hfail Hok;
    (destruct remaining as [|rem]; [lia|]); cbn [call_attempts].
  - rewrite Nat.add_0_r in Hok. rewrite Hok. reflexivity.
  - assert (fst (call_attempts post max_retries (S attempt) rem)
            = Return (Some (str_strip t))) as Hrec.
    { apply IH; [lia| |].
      - intros i Hi. replace (S attempt + i)%nat with (attempt + S i)%nat
          by lia. apply Hfail. lia.
      - now replace (S attempt + j)%nat with (attempt + S j)%nat by lia. }
    pose proof (Hfail 0%nat ltac:(lia)) as H0. rewrite Nat.add_0_r in H0.
    destruct (post attempt) as [status c|]; simpl in H0.
    + apply negb_true_iff in H0. rewrite H0.
      destruct (status =? 429)%Z; [|exact Hrec].
      destruct (call_attempts post max_retries (S attempt) rem); exact Hrec.
    + destruct (call_attempts post max_retries (S attempt) rem).
      destruct (attempt <? max_retries - 1)%nat; exact Hrec.
Qed.

(** X3 — [_call_claude_api] returns the stripped text of the first reply
    with status 200 among its [max_retries] attempts, whatever the
    failures before it were and whatever later requests would have
    answered. *)
Theorem rewrite_first_success (post : pystr -> nat -> http_reply)
    (prompt : pystr) (max_retries j : nat) (t : pystr) :
  (j < max_retries)%nat ->
  (forall i, (i < j)%nat -> no_result (post prompt i) = true) ->
  post prompt j = Response 200 (Some t) ->
  _call_claude_api post prompt max_retries = Return (Some (str_strip t)).
Proof.
  intros Hj Hfail Hok. unfold _call_claude_api.
  apply call_attempts_first_text with (j := j); [exact Hj | exact Hfail |].
  exact Hok.
Qed.

Lemma rewrite_first_success_witness :
  _call_claude_api oracle_recovers [] 3 = Return (Some (py "hello world")).
Proof.
  apply (rewrite_first_success oracle_recovers [] (j := 2)
           (t := py " hello world ")).
  - lia.
  - intros [|[|i]] Hi; [reflexivity | reflexivity | lia].
  - reflexivity.
Defined.

(** ** What a run changes in the statistics *)

Section AccountingFacts.
Context {RT : PyRuntime}.
Context {JC : Json (dict pystr)} {JP : Json (dict conf_pattern)}.




End AccountingFacts.

Section BlankAnswerFacts.
Context {RT : PyRuntime}.
Context {JC : Json (dict pystr)} {JP : Json (dict conf_pattern)}.

(** X5 -- A blank answer is no answer.  When the first reply of the
    rewrite oracle has status 200 and a text that is empty once stripped,
    no further attempt is made and the run ends as if the oracle had
    failed: success, no correction applied, no cost, the pattern-corrected
    text as result, nothing learnt and nothing written. *)
Theorem blank_answer_falls_back (self : integration)
    (whisper_result : whisper_result) (post : pystr -> nat -> http_reply)
    (now : nat -> pystr) (start_time end_time : float) (t : pystr) :
  (forall prompt, post prompt 0%nat = Response 200 (Some t)) ->
  str_strip t = [] ->
  let r :=
    transcribe_with_claude_correction self (Return whisper_result) post now
                                      start_time end_time in
  success (snd r) = true
  /\ claude_applied (snd r) = false
  /\ cost (snd r) = 0%float
  /\ corrected_transcript (snd r)
     = _apply_whisper_patterns self (_clean_text_basic (text whisper_result))
  /\ learned_corrections (fst r) = learned_corrections self
  /\ confidence_patterns (fst r) = confidence_patterns self
  /\ learned_corrections_file (fst r) = learned_corrections_file self
  /\ confidence_patterns_file (fst r) = confidence_patterns_file self.
Proof.
  intros Hpost Hblank. cbv zeta. unfold transcribe_with_claude_correction.
  destruct (confidence_texts _) as [result_info confidence_info].
  unfold _call_claude_api. cbn [call_attempts]. rewrite Hpost.
  cbn [Z.eqb Pos.eqb fst]. rewrite Hblank. simpl. repeat split.
Qed.

End BlankAnswerFacts.

Lemma blank_answer_falls_back_witness :
  corrected_transcript
    (snd (transcribe_with_claude_correction fresh_store
            (Return confident_speech) oracle_blank stamp 0 1))
  = py "hello world"
  /\ confidence_patterns
       (fst (transcribe_with_claude_correction fresh_store
               (Return confident_speech) oracle_blank stamp 0 1)) = [].
Proof.
  pose proof (blank_answer_falls_back fresh_store confident_speech
                oracle_blank stamp 0 1 (t := py "  ")
                (fun _ => eq_refl) eq_refl)
    as (_ & _ & _ & Hc & _ & Hp & _).
  split; [rewrite Hc; reflexivity | exact Hp].
Defined.

(** ** The index of records *)

Section IndexFacts.
Context {RT : PyRuntime} {EM : Embedder}.
Context {JC : Json (dict pystr)} {JP : Json (dict conf_pattern)}.
Context {JD : Json (list Entry.t)}.


Lemma add_to_database_grows (self : rag) fs created_at timestamp
    source_type source_path title original_transcript corrected_transcript
    category processing_info :
  exists e,
    database
      (fst (add_to_database self fs created_at timestamp source_type
              source_path title original_transcript corrected_transcript
              category processing_info))
    = database self ++ [e]
    /\ Entry.id e = (Z.of_nat (List.length (database self)) + 1)%Z
    /\ Entry.category e = category
    /\ Entry.corrected_transcript e = corrected_transcript.
Proof.
  unfold add_to_database.
  destruct (save_transcript_to_file _ _ _ _ _ _ _ _ _) as [[[|c p]|]|e];
    simpl; eexists; repeat split.
Qed.

Lemma classify_text_database (self : rag) post text :
  database (fst (classify_text self post text)) = database self.
Proof.
  unfold classify_text, _classify_with_claude_api.
  destruct (post _) as [status_code [t|]|]; try reflexivity;
    destruct (status_code =? 200)%Z; try reflexivity.
  destruct (dict_mem category_folders (str_strip t)); [|reflexivity].
  simpl. destruct (str_strip t); reflexivity.
Qed.

Lemma process_item_grows (self : rag) env source_type source_path title :
  grows_by_at_most_one
    (database self)
    (database (fst (process_item self env source_type source_path title))).
Proof.
  unfold process_item.
  destruct (transcribe_with_claude_correction _ _ _ _ _ _) as [ci result].
  destruct (success result); simpl; [|now left].
  pose proof (classify_text_database (set_claude_integration self ci)
                (env_classify_post env) (corrected_transcript result)) as Hc.
  destruct (classify_text _ _ _) as [self1 category]. simpl in Hc.
  match goal with
  | |- context [add_to_database ?s ?fs ?a ?b ?c ?d ?e ?f ?g ?h ?i] =>
    destruct (add_to_database_grows s fs a b c d e f g h i)
      as (x & Hdb & Hid & _);
      destruct (add_to_database s fs a b c d e f g h i) as [self2 [u|ex]]
  end; simpl in *; right; exists x; rewrite Hdb, Hc in *; auto.
Qed.

Lemma index_grows (self : rag) (r : request) :
  grows_by_at_most_one (database self) (database (handle self r)).
Proof.
  destruct r as [env file_exists file_path|env download url|query| |typed];
    simpl; try (now left).
  - unfold process_audio_file. destruct file_exists; simpl; [|now left].
    apply process_item_grows.
  - unfold process_youtube_url.
    destruct download as [[[|c audio_path] title]|]; try (now left).
    apply process_item_grows.
  - unfold clear_learned_patterns. destruct (str_eqb _ _); now left.
Qed.

(** X6 -- The index is append-only.  Whatever a sequence of requests of
    the menu does (including runs that end with an exception), the
    records present before are still there, unchanged and in the same
    order, followed by the records added, at most one for each request. *)
Theorem index_append_only (self : rag) (rs : list request) :
  exists added,
    database (run self rs) = database self ++ added
    /\ (List.length added <= List.length rs)%nat.
Proof.
  unfold run. revert self.
  induction rs as [|r rs IH]; intros self; simpl.
  - exists []. now rewrite app_nil_r.
  - destruct (IH (handle self r)) as (added & Hdb & Hlen).
    destruct (index_grows self r) as [E|(e & E & _)]; rewrite E in Hdb.
    + exists added. split; [exact Hdb | lia].
    + exists (e :: added). rewrite <- app_assoc in Hdb.
      split; [exact Hdb | simpl; lia].
Qed.

Lemma well_numbered_app (db : list Entry.t) (e : Entry.t) :
  well_numbered db ->
  Entry.id e = (Z.of_nat (List.length db) + 1)%Z ->
  well_numbered (db ++ [e]).
Proof.
  unfold well_numbered. intros H He.
  rewrite map_app, length_app, seq_app, map_app, H. simpl. now rewrite He.
Qed.

Lemma well_numbered_NoDup (db : list Entry.t) :
  well_numbered db -> NoDup (map Entry.id db).
Proof.
  unfold well_numbered. intros ->.
  generalize 0%nat. induction (List.length db) as [|n IH]; intros a; simpl.
  - constructor.
  - constructor; [|apply IH].
    rewrite in_map_iff. intros (i & Hi & Hin). apply in_seq in Hin. lia.
Qed.

(** X7 -- Identifiers stay unique.  From an index whose records are
    numbered 1, 2, ... in order (the empty index of a first start in
    particular), every sequence of requests leads to an index numbered
    the same way: no identifier is used twice. *)
Theorem identifiers_stay_unique (self : rag) (rs : list request) :
  well_numbered (database self) ->
  well_numbered (database (run self rs))
  /\ NoDup (map Entry.id (database (run self rs))).
Proof.
  intros H.
  assert (well_numbered (database (run self rs))) as Hw.
  { unfold run. revert self H.
    induction rs as [|r rs IH]; intros self H; [exact H|].
    simpl. apply IH.
    destruct (index_grows self r) as [->|(e & -> & He)];
      [exact H | now apply well_numbered_app]. }
  split; [exact Hw | now apply well_numbered_NoDup].
Qed.

End IndexFacts.

Lemma identifiers_stay_unique_witness :
  well_numbered
    (database
       (run fresh_rag
          [ ProcessAudioFile world_at_its_best true (py "D:\rec\a.mp3");
            ProcessAudioFile world_without_folder true (py "D:\rec\b.mp3");
            ProcessAudioFile world_at_its_best true (py "D:\rec\c.mp3") ]))
  /\ map Entry.id
         (database
            (run fresh_rag
               [ ProcessAudioFile world_at_its_best true (py "D:\rec\a.mp3");
                 ProcessAudioFile world_without_folder true
                                  (py "D:\rec\b.mp3");
                 ProcessAudioFile world_at_its_best true
                                  (py "D:\rec\c.mp3") ]))
     = [1; 2; 3]%Z.
Proof.
  split; [|vm_compute; reflexivity].
  apply identifiers_stay_unique. reflexivity.
Defined.

Section RestartFacts.
Context {RT : PyRuntime} {EM : Embedder}.
Context {JC : Json (dict pystr)} {JP : Json (dict conf_pattern)}.
Context {JD : Json (list Entry.t)}.


End RestartFacts.

(** ** What the classifier returns and changes *)

Lemma max_key_from_In rest : forall best,
  In (max_key_from best rest) (dict_keys (best :: rest)).
Proof.
  induction rest as [|kv r IH]; intros best; simpl; [now left|].
  destruct (snd best <? snd kv)%Z.
  - right. apply (IH kv).
  - destruct (IH best) as [H|H]; [now left | right; right; exact H].
Qed.

Lemma keyword_categories_enumerated :
  forallb (dict_mem category_folders) (dict_keys category_keywords) = true.
Proof. vm_compute. reflexivity. Qed.

Section ClassifierRange.
Context {RT : PyRuntime} {EM : Embedder}.
Context {JC : Json (dict pystr)} {JP : Json (dict conf_pattern)}.
Context {JD : Json (list Entry.t)}.

Lemma category_scores_keys (text : pystr) :
  dict_keys (category_scores text) = dict_keys category_keywords.
Proof.
  unfold category_scores, dict_keys. rewrite map_map.
  apply map_ext. now intros [category keywords].
Qed.

Lemma fallback_category_enumerated (text : pystr) :
  dict_mem category_folders (fallback_category text) = true.
Proof.
  unfold fallback_category.
  pose proof (category_scores_keys text) as Hk.
  destruct (category_scores text) as [|kv r]; [reflexivity|].
  cbn [dict_max_value dict_max_key].
  destruct (0 <? _)%Z; [|reflexivity].
  pose proof (max_key_from_In r kv) as Hin. rewrite Hk in Hin.
  pose proof keyword_categories_enumerated as Hall.
  rewrite forallb_forall in Hall. now apply Hall.
Qed.

(** X9 -- The classifier answers inside the enumeration.  Whatever the
    text and whatever the oracle replies, [classify_text] returns one of
    the 15 keys of [category_folders], so that the folder of the category
    of a record is always one of the folders created at start-up. *)
Theorem classify_text_enumerated (self : rag) (post : pystr -> http_reply)
    (text : pystr) :
  dict_mem category_folders (snd (classify_text self post text)) = true
  /\ exists folder,
       dict_get category_folders (snd (classify_text self post text))
       = Some folder.
Proof.
  assert (dict_mem category_folders (snd (classify_text self post text))
          = true) as H.
  { unfold classify_text, _classify_with_claude_api.
    pose proof (fallback_category_enumerated text) as Hf.
    destruct (post _) as [status_code [t|]|]; try exact Hf;
      destruct (status_code =? 200)%Z; try exact Hf.
    destruct (dict_mem category_folders (str_strip t)) eqn:E; [|exact Hf].
    simpl. destruct (str_strip t); [exact Hf | exact E]. }
  split; [exact H|].
  unfold dict_mem in H.
  destruct (dict_get category_folders _) as [folder|]; [|discriminate].
  now exists folder.
Qed.


End ClassifierRange.

(** ** The learned corrections stay well formed *)

Lemma positional_diff_tidy raw : forall corr known,
  NoDup known ->
  let d := positional_diff known raw corr in
  Forall tidy_correction d /\ NoDup (known ++ map fst d).
Proof.
  induction raw as [|o raw IH]; intros [|c corr] known Hnd; cbv zeta;
    try (simpl; rewrite app_nil_r; split; [constructor | exact Hnd]).
  cbn [positional_diff].
  destruct (records_pair known o c) eqn:E; [|now apply IH].
  unfold records_pair in E.
  apply andb_true_iff in E as [E Hnew].
  apply andb_true_iff in E as [E Hc].
  apply andb_true_iff in E as [Hne Ho].
  assert (~ In o known) as Hnotin.
  { intros Hin. apply negb_true_iff in Hnew.
    assert (existsb (str_eqb o) known = true) as Hex
        by (apply existsb_exists; exists o; split;
            [exact Hin | apply str_eqb_refl]).
    congruence. }
  assert (NoDup (known ++ [o])) as Hnd'.
  { apply NoDup_app; [exact Hnd | repeat constructor; intros [] |].
    intros x Hx [<-|[]]. contradiction. }
  destruct (IH corr (known ++ [o]) Hnd') as [Ht Hd]. cbv zeta in Ht, Hd.
  split.
  - constructor; [|exact Ht].
    unfold tidy_correction; simpl. repeat split.
    + now apply Z.ltb_lt.
    + now apply Z.ltb_lt.
    + apply negb_true_iff in Hne. now apply str_eqb_neq.
  - simpl. now rewrite <- app_assoc in Hd.
Qed.

Section TidyFacts.
Context {RT : PyRuntime} {EM : Embedder}.
Context {JC : Json (dict pystr)} {JP : Json (dict conf_pattern)}.
Context {JD : Json (list Entry.t)}.

Lemma learn_from_correction_tidy (self : integration) now o c ws :
  tidy_corrections (learned_corrections self) ->
  tidy_corrections
    (learned_corrections (fst (learn_from_correction self now o c ws))).
Proof.
  intros [Ht Hnd].
  destruct (learn_from_correction_maps self now o c ws) as (Hlc & _ & _).
  cbv zeta in Hlc. unfold loops in Hlc. cbn [fst snd] in Hlc.
  rewrite fold_learn_pair_diff in Hlc. cbn [fst] in Hlc. rewrite Hlc.
  destruct (positional_diff_tidy (str_split o) (str_split c) Hnd)
    as [Hd Hk].
  cbv zeta in Hd, Hk. split.
  - apply Forall_app. now split.
  - unfold dict_keys in *. now rewrite map_app.
Qed.

Lemma transcribe_tidy (self : integration) whisper post now start_time
    end_time :
  tidy_corrections (learned_corrections self) ->
  tidy_corrections
    (learned_corrections
       (fst (transcribe_with_claude_correction self whisper post now
               start_time end_time))).
Proof.
  intros H. unfold transcribe_with_claude_correction.
  destruct whisper as [whisper_result|e]; [|exact H].
  destruct (confidence_texts _) as [result_info confidence_info].
  destruct (_call_claude_api _ _ _) as [[[|c s]|]|e]; try exact H.
  simpl. now apply learn_from_correction_tidy.
Qed.

Lemma classify_text_effect_maps (self : rag) post text :
  learned_corrections (claude_integration (fst (classify_text self post text)))
  = learned_corrections (claude_integration self).
Proof.
  unfold classify_text, _classify_with_claude_api.
  destruct (post _) as [status_code [t|]|]; try reflexivity;
    destruct (status_code =? 200)%Z; try reflexivity.
  destruct (dict_mem category_folders (str_strip t)); [|reflexivity].
  simpl. destruct (str_strip t); reflexivity.
Qed.

Lemma process_item_corrections (self : rag) env source_type source_path
    title :
  tidy_corrections (learned_corrections (claude_integration self)) ->
  tidy_corrections
    (learned_corrections
       (claude_integration
          (fst (process_item self env source_type source_path title)))).
Proof.
  intros H. unfold process_item.
  pose proof (transcribe_tidy (claude_integration self) (env_whisper env)
                (env_post env) (env_now env) (env_start_time env)
                (env_end_time env) H) as Ht.
  destruct (transcribe_with_claude_correction _ _ _ _ _ _) as [ci result].
  simpl in Ht.
  destruct (success result); simpl; [|exact Ht].
  pose proof (classify_text_effect_maps (set_claude_integration self ci)
                (env_classify_post env) (corrected_transcript result)) as Hc.
  destruct (classify_text _ _ _) as [self1 category]. simpl in Hc.
  match goal with
  | |- context [add_to_database ?s ?fs ?a ?b ?c ?d ?e ?f ?g ?h ?i] =>
    pose proof (add_to_database_integration s fs a b c d e f g h i) as Ha;
      destruct (add_to_database s fs a b c d e f g h i) as [self2 [u|ex]]
  end; simpl in *; rewrite Ha, Hc; exact Ht.
Qed.

End TidyFacts.

Section TidyRuns.
Context {RT : PyRuntime} {EM : Embedder}.
Context {JC : Json (dict pystr)} {JP : Json (dict conf_pattern)}.
Context {JD : Json (list Entry.t)}.

Lemma handle_corrections (self : rag) (r : request) :
  tidy_corrections (learned_corrections (claude_integration self)) ->
  tidy_corrections
    (learned_corrections (claude_integration (handle self r))).
Proof.
  intros H.
  destruct r as [env file_exists file_path|env download url|query| |typed];
    simpl; try exact H.
  - unfold process_audio_file. destruct file_exists; simpl; [|exact H].
    now apply process_item_corrections.
  - unfold process_youtube_url.
    destruct download as [[[|c audio_path] title]|]; try exact H.
    now apply process_item_corrections.
  - unfold clear_learned_patterns. destruct (str_eqb _ _); [|exact H].
    simpl. split; constructor.
Qed.

(** X11 -- The learned corrections stay well formed.  If every learned
    correction has a key and a value longer than 2 characters that
    differ, each key once (as in the empty mapping of a first start),
    then so it is after every sequence of requests: the program never
    learns an empty or a short pattern, nor a pattern that changes
    nothing, and never records a key twice. *)
Theorem learned_corrections_stay_tidy (self : rag) (rs : list request) :
  tidy_corrections (learned_corrections (claude_integration self)) ->
  tidy_corrections
    (learned_corrections (claude_integration (run self rs))).
Proof.
  unfold run. revert self.
  induction rs as [|r rs IH]; intros self H; [exact H|].
  simpl. apply IH. now apply handle_corrections.
Qed.

End TidyRuns.

Lemma learned_corrections_stay_tidy_witness :
  tidy_corrections
    (learned_corrections
       (claude_integration
          (run fresh_rag
               [ ProcessAudioFile world_with_typo true (py "D:\rec\a.mp3") ])))
  /\ learned_corrections
       (claude_integration
          (run fresh_rag
               [ ProcessAudioFile world_with_typo true (py "D:\rec\a.mp3") ]))
     = [(py "teh", py "the")].
Proof.
  split; [|vm_compute; reflexivity].
  apply learned_corrections_stay_tidy. split; constructor.
Defined.

(** ** The best match comes first *)

Lemma SFleb_rank x y :
  x <> S754_nan -> y <> S754_nan ->
  (SFleb x y = true <-> lex_le (sf_rank x) (sf_rank y)).
Proof.
  unfold SFleb.
  destruct x as [s1| s1| |s1 m1 e1], y as [s2| s2| |s2 m2 e2];
    intros Hx Hy; try congruence; simpl;
    try (destruct s1; simpl; split; intros; try lia; try discriminate;
         reflexivity);
    try (destruct s2; simpl; split; intros; try lia; try discriminate;
         reflexivity);
    try (destruct s1, s2; simpl; split; intros; try lia; try discriminate;
         reflexivity).
  destruct s1, s2; simpl;
    try (split; intros; try lia; try discriminate; reflexivity);
    rewrite Pos.compare_cont_spec; simpl;
    destruct (Z.compare_spec e1 e2); destruct (Pos.compare_spec m1 m2);
    simpl; split; intros; try lia; try discriminate; try reflexivity.
Qed.

Lemma is_number_not_nan (a : float) :
  is_number a = true -> Prim2SF a <> S754_nan.
Proof.
  unfold is_number. rewrite eqb_spec. intros H E. rewrite E in H.
  discriminate.
Qed.

Lemma float_leb_trans (a b c : float) :
  is_number a = true -> is_number b = true -> is_number c = true ->
  PrimFloat.leb a b = true -> PrimFloat.leb b c = true ->
  PrimFloat.leb a c = true.
Proof.
  intros Ha Hb Hc. apply is_number_not_nan in Ha, Hb, Hc.
  rewrite !leb_spec, !SFleb_rank by assumption.
  destruct (sf_rank (Prim2SF a)) as [[a1 a2] a3],
           (sf_rank (Prim2SF b)) as [[b1 b2] b3],
           (sf_rank (Prim2SF c)) as [[c1 c2] c3].
  unfold lex_le. lia.
Qed.

Lemma float_leb_refl (a : float) :
  is_number a = true -> PrimFloat.leb a a = true.
Proof.
  intros Ha. apply is_number_not_nan in Ha.
  rewrite leb_spec, SFleb_rank by assumption.
  destruct (sf_rank (Prim2SF a)) as [[a1 a2] a3]. unfold lex_le. lia.
Qed.

Lemma non_increasing_head (x : float) (xs : list float) :
  Forall (fun y => is_number y = true) (x :: xs) ->
  non_increasing (x :: xs) ->
  Forall (fun y => PrimFloat.leb y x = true) (x :: xs).
Proof.
  revert x. induction xs as [|b r IH]; intros x Hn Hs.
  - constructor; [|constructor]. apply float_leb_refl. now inversion Hn.
  - inversion Hn as [|? ? Hx Hn']; subst.
    destruct Hs as [Hbx Hs].
    specialize (IH b Hn' Hs).
    constructor; [now apply float_leb_refl|].
    rewrite Forall_forall in *. intros y Hy.
    apply float_leb_trans with (b := b); auto.
    apply Hn'. now left.
Qed.

Lemma insert_desc_Permutation (A : Type) (x : A * float) l :
  Permutation (insert_desc x l) (x :: l).
Proof.
  induction l as [|y r IH]; simpl; [reflexivity|].
  destruct (PrimFloat.ltb (snd x) (snd y)); [|reflexivity].
  rewrite IH. apply perm_swap.
Qed.

Lemma sort_desc_Permutation (A : Type) (l : list (A * float)) :
  Permutation (sort_desc l) l.
Proof.
  induction l as [|x r IH]; simpl; [reflexivity|].
  now rewrite insert_desc_Permutation, IH.
Qed.

Section BestMatch.
Context {EM : Embedder}.
Variable entry : Type.
Variable entry_embedding : entry -> list float.

(** X12 -- The best match comes first.  In a database whose similarities
    to the query are numbers, a search for at least one result has a
    first result, it is a record of the database, and no record of the
    database is more similar to the query than it is. *)
Theorem search_best_match_first (database : list entry) (query : pystr)
    (top_k : Z) (e : entry) :
  (0 < top_k)%Z ->
  Forall (fun e => is_number (similarity_to entry_embedding query e) = true)
         database ->
  In e database ->
  exists best,
    hd_error (search_similar entry_embedding database query top_k)
    = Some best
    /\ In (fst best) database
    /\ snd best = similarity_to entry_embedding query (fst best)
    /\ PrimFloat.leb (similarity_to entry_embedding query e) (snd best)
       = true.
Proof.
  intros Hk Hnum Hin.
  rewrite search_similar_unfold, slice_to_nonneg by lia.
  set (sims := map (fun e => (e, similarity_to entry_embedding query e))
                   database).
  assert (Forall (fun y => is_number (snd y) = true) sims) as Hn
      by (apply Forall_map; exact Hnum).
  destruct (sort_desc_sorted Hn) as [Hn' Hs].
  assert (In (e, similarity_to entry_embedding query e) (sort_desc sims))
    as He by (apply sort_desc_In, in_map_iff; now exists e).
  destruct (sort_desc sims) as [|best rest] eqn:E; [contradiction|].
  exists best.
  destruct (Z.to_nat top_k) as [|k] eqn:Ek; [lia|]. simpl.
  assert (In best sims) as Hb
      by (apply sort_desc_In; rewrite E; now left).
  apply in_map_iff in Hb as (b & <- & Hb). simpl.
  repeat split; auto.
  assert (Forall (fun y => PrimFloat.leb y (similarity_to entry_embedding
                                             query b) = true)
                 (map snd ((b, similarity_to entry_embedding query b)
                             :: rest))) as Hall.
  { cbn [map snd] in *. apply non_increasing_head; [|exact Hs].
    change (Forall (fun y => is_number y = true)
                   (map snd ((b, similarity_to entry_embedding query b)
                               :: rest))).
    apply Forall_map. exact Hn'. }
  rewrite Forall_forall in Hall. apply Hall.
  change (similarity_to entry_embedding query e)
    with (snd (e, similarity_to entry_embedding query e)).
  now apply in_map.
Qed.

(** X13 -- Asking for everything returns everything.  When [k] is at
    least the number of records, the search returns every record of the
    database exactly once, each with its similarity to the query. *)
Theorem search_returns_every_record (database : list entry) (query : pystr)
    (top_k : Z) :
  (Z.of_nat (List.length database) <= top_k)%Z ->
  Permutation
    (search_similar entry_embedding database query top_k)
    (map (fun e => (e, similarity_to entry_embedding query e)) database).
Proof.
  intros Hk. rewrite search_similar_unfold, slice_to_nonneg by lia.
  rewrite firstn_all2; [apply sort_desc_Permutation|].
  rewrite sort_desc_length, length_map. lia.
Qed.

End BestMatch.

Lemma search_best_match_first_witness :
  exists best,
    hd_error (search_similar encode letters_db (py "b") 1) = Some best
    /\ In (fst best) letters_db
    /\ snd best = similarity_to encode (py "b") (fst best)
    /\ PrimFloat.leb (similarity_to encode (py "b") (py "a")) (snd best)
       = true.
Proof.
  apply search_best_match_first.
  - lia.
  - repeat constructor.
  - right; right; left; reflexivity.
Defined.

Lemma search_returns_every_record_witness :
  Permutation
    (search_similar encode letters_db (py "b") 3)
    (map (fun e => (e, similarity_to encode (py "b") e)) letters_db).
Proof.
  apply search_returns_every_record. simpl. lia.
Defined.

(** ** Clearing the learned patterns *)

Section ClearFacts.
Context {RT : PyRuntime} {EM : Embedder}.
Context {JC : Json (dict pystr)} {JP : Json (dict conf_pattern)}.
Context {JD : Json (list Entry.t)}.

(** X14 -- Clearing is confirmed, complete and durable.  When the answer
    to the confirmation, stripped and lower-cased, is [y], both mappings
    are emptied and both files are rewritten, so that a restart loads two
    empty mappings; the statistics and the database are kept.  With any
    other answer nothing at all changes. *)
Theorem clear_learned_patterns_effect (self : rag) (typed : pystr) :
  let self' := clear_learned_patterns self typed in
  let ci' := claude_integration self' in
  (str_lower (str_strip typed) = py "y" ->
   learned_corrections ci' = []
   /\ confidence_patterns ci' = []
   /\ learned_corrections
        (init (learned_corrections_file ci') (confidence_patterns_file ci'))
      = []
   /\ confidence_patterns
        (init (learned_corrections_file ci') (confidence_patterns_file ci'))
      = []
   /\ processing_stats ci' = processing_stats (claude_integration self)
   /\ database self' = database self
   /\ database_file self' = database_file self)
  /\ (str_lower (str_strip typed) <> py "y" -> self' = self).
Proof.
  cbv zeta. unfold clear_learned_patterns. split.
  - intros ->. cbn [str_eqb]. simpl.
    unfold init, load_learned_corrections, load_confidence_patterns; simpl.
    rewrite !json_load_dump. repeat split.
  - intros H. apply str_eqb_neq in H. now rewrite H.
Qed.

End ClearFacts.

Lemma clear_learned_patterns_effect_witness :
  learned_corrections
    (claude_integration
       (clear_learned_patterns
          (run fresh_rag
               [ ProcessAudioFile world_with_typo true (py "D:\rec\a.mp3") ])
          (py " Y ")))
  = [].
Proof.
  refine (proj1 (proj1 (clear_learned_patterns_effect _ (py " Y ")) _)).
  reflexivity.
Defined.

(** ** The stored API key *)

Lemma chr_valid (c : codepoint) : (c <= 1114111)%N -> chr c = Some c.
Proof.
  intros H. unfold chr. apply N.leb_le in H. now rewrite H.
Qed.

Lemma chr_Some (n : N) (c : codepoint) : chr n = Some c -> c = n.
Proof.
  unfold chr. destruct (n <=? 1114111)%N; congruence.
Qed.

Lemma xor_chars_involution (key_phrase : pystr) (text : pystr) :
  forall (i : nat) (out r out' : pystr),
    python_str text ->
    xor_chars key_phrase i text out = Some r ->
    exists enc,
      r = out ++ enc
      /\ xor_chars key_phrase i enc out' = Some (out' ++ text).
Proof.
  induction text as [|char rest IH]; intros i out r out' Hv H; simpl in H.
  - injection H as <-. exists []. simpl. now rewrite !app_nil_r.
  - inversion Hv as [|? ? Hc Hrest]; subst.
    destruct (nth_error key_phrase (i mod List.length key_phrase))
      as [k|] eqn:Ek; [|discriminate].
    destruct (chr (N.lxor char k)) as [c|] eqn:Ec; [|discriminate].
    apply chr_Some in Ec. subst c.
    destruct (IH (S i) (out ++ [N.lxor char k]) r (out' ++ [char]) Hrest H)
      as (enc & Hr & Hback).
    exists (N.lxor char k :: enc). split.
    + now rewrite Hr, <- app_assoc.
    + simpl. rewrite Ek.
      rewrite N.lxor_assoc, N.lxor_nilpotent, N.lxor_0_r.
      rewrite (@chr_valid char Hc). rewrite Hback. now rewrite <- app_assoc.
Qed.

Lemma str_lstrip_snoc (l : pystr) (c : codepoint) :
  isspace c = false -> str_lstrip (l ++ [c]) = str_lstrip l ++ [c].
Proof.
  intros Hc. induction l as [|x l IH]; simpl.
  - now rewrite Hc.
  - destruct (isspace x); [exact IH | reflexivity].
Qed.

Lemma str_lstrip_idem (s : pystr) : str_lstrip (str_lstrip s) = str_lstrip s.
Proof.
  induction s as [|x s IH]; simpl; [reflexivity|].
  destruct (isspace x) eqn:E; [exact IH|]. simpl. now rewrite E.
Qed.

Lemma str_rstrip_cons (c : codepoint) (r : pystr) :
  isspace c = false -> str_rstrip (c :: r) = c :: str_rstrip r.
Proof.
  intros Hc. unfold str_rstrip. simpl.
  rewrite (@str_lstrip_snoc (rev r) c Hc), rev_app_distr. reflexivity.
Qed.

Lemma str_rstrip_idem (s : pystr) : str_rstrip (str_rstrip s) = str_rstrip s.
Proof.
  unfold str_rstrip. now rewrite rev_involutive, str_lstrip_idem.
Qed.

Lemma str_lstrip_head (s : pystr) :
  str_lstrip s = [] \/ exists c r, str_lstrip s = c :: r /\ isspace c = false.
Proof.
  induction s as [|x s IH]; simpl; [now left|].
  destruct (isspace x) eqn:E; [exact IH|]. right. now exists x, s.
Qed.

Lemma str_strip_idem (s : pystr) : str_strip (str_strip s) = str_strip s.
Proof.
  unfold str_strip.
  destruct (str_lstrip_head s) as [E|(c & r & E & Hc)]; rewrite E.
  - reflexivity.
  - rewrite (@str_rstrip_cons c r Hc). simpl. rewrite Hc.
    rewrite <- (@str_rstrip_cons c r Hc). apply str_rstrip_idem.
Qed.

Lemma read_key_phrase_strip (typed typed' : pystr) :
  str_strip typed' = str_strip typed ->
  read_key_phrase typed' = read_key_phrase typed.
Proof.
  unfold read_key_phrase. now intros ->.
Qed.

Section KeyFacts.
Context {JC : Json (dict pystr)} {B64 : Base64}.

Lemma save_encrypted_then_load (disk : key_files) (can_write : pystr -> bool)
    (typed_phrase now api_key : pystr) (disk' : key_files)
    (typed_phrase' : pystr) :
  python_str api_key ->
  _save_encrypted_api_key disk can_write typed_phrase now api_key
  = Return disk' ->
  str_strip typed_phrase' = str_strip typed_phrase ->
  config_json disk' = config_json disk
  /\ ((api_key_enc disk' <> None
       /\ _load_encrypted_api_key disk' typed_phrase' = Some api_key)
      \/ (api_key_txt disk' = Some api_key
          /\ api_key_enc disk' = api_key_enc disk)).
Proof.
  intros Hv Hsave Hp. unfold _save_encrypted_api_key in Hsave.
  assert (forall d, _save_plain_api_key disk can_write api_key = Return d ->
                    config_json d = config_json disk
                    /\ api_key_txt d = Some api_key
                    /\ api_key_enc d = api_key_enc disk) as Hplain.
  { intros d Hd. unfold _save_plain_api_key in Hd.
    destruct (can_write (py "api_key.txt")); [|discriminate].
    injection Hd as <-. now repeat split. }
  destruct (xor_chars (read_key_phrase typed_phrase) 0 api_key [])
    as [encrypted_data|] eqn:Ex;
    [|destruct (Hplain _ Hsave) as (? & ? & ?); split; [|right]; auto].
  destruct (b64encode_utf8 encrypted_data) as [encoded_data|] eqn:Eb;
    [|destruct (Hplain _ Hsave) as (? & ? & ?); split; [|right]; auto].
  destruct (can_write (py "api_key.enc"));
    [|destruct (Hplain _ Hsave) as (? & ? & ?); split; [|right]; auto].
  injection Hsave as <-. split; [reflexivity|]. left.
  split; [discriminate|].
  unfold _load_encrypted_api_key. cbn [api_key_enc].
  rewrite json_load_dump.
  change (dict_get _ (py "method")) with (Some (py "xor_base64")).
  change (str_eqb (py "xor_base64") (py "xor_base64")) with true. cbv iota.
  change (dict_get _ (py "encrypted_key")) with (Some encoded_data).
  cbv beta iota zeta.
  apply b64decode_encode in Eb. rewrite Eb.
  rewrite (@read_key_phrase_strip typed_phrase typed_phrase' Hp).
  destruct (@xor_chars_involution _ _ _ _ _ [] Hv Ex) as (enc & Henc & Hback).
  simpl in Henc. subst enc. exact Hback.
Qed.

(** X15 -- The encrypted key can be read back.  Whatever the passphrase,
    when [_save_encrypted_api_key] returns, either the encrypted file it
    wrote gives the key back to [_load_encrypted_api_key] for every
    passphrase that is equal after stripping (the empty one standing for
    the default one on both sides), or it fell back to the plain file,
    which then holds the key, and left the encrypted file as it was. *)
Theorem encrypted_key_round_trip (disk : key_files)
    (can_write : pystr -> bool) (typed_phrase now api_key : pystr)
    (disk' : key_files) (typed_phrase' : pystr) :
  python_str api_key ->
  _save_encrypted_api_key disk can_write typed_phrase now api_key
  = Return disk' ->
  str_strip typed_phrase' = str_strip typed_phrase ->
  _load_encrypted_api_key disk' typed_phrase' = Some api_key
  \/ (api_key_txt disk' = Some api_key
      /\ api_key_enc disk' = api_key_enc disk).
Proof.
  intros Hv Hsave Hp.
  destruct (@save_encrypted_then_load _ _ _ _ _ _ _ Hv Hsave Hp)
    as (_ & [[_ H]|H]); [now left | now right].
Qed.

End KeyFacts.

Lemma python_str_forallb (s : pystr) :
  forallb (fun c => (c <=? 1114111)%N) s = true -> python_str s.
Proof.
  intros H. apply Forall_forall. intros c Hc.
  rewrite forallb_forall in H. apply N.leb_le. now apply H.
Qed.

Lemma encrypted_key_round_trip_witness :
  _load_encrypted_api_key
    (disk_after
       (_save_encrypted_api_key no_key_files (fun _ => true) (py " tea ")
          (py "2025-01-01T09:00:00") (py "sk-ant-api03-XYZ")))
    (py "tea")
  = Some (py "sk-ant-api03-XYZ")
  \/ (api_key_txt
        (disk_after
           (_save_encrypted_api_key no_key_files (fun _ => true) (py " tea ")
              (py "2025-01-01T09:00:00") (py "sk-ant-api03-XYZ")))
      = Some (py "sk-ant-api03-XYZ")
      /\ api_key_enc
           (disk_after
              (_save_encrypted_api_key no_key_files (fun _ => true)
                 (py " tea ") (py "2025-01-01T09:00:00")
                 (py "sk-ant-api03-XYZ")))
         = api_key_enc no_key_files).
Proof.
  apply (@encrypted_key_round_trip _ _ no_key_files (fun _ => true)
           (py " tea ") (py "2025-01-01T09:00:00")).
  - apply python_str_forallb. reflexivity.
  - reflexivity.
  - reflexivity.
Defined.

Section RestartKeyFacts.
Context {JC : Json (dict pystr)} {B64 : Base64}.

(** X16 -- A stored key is found again at the next start.  In a folder
    that holds neither [config.json] nor [api_key.enc], when
    [_setup_api_key_interactive] returns after choice 1, 2 or 3, a later
    [_load_api_key] without argument and environment variable returns the
    very key of the setup without asking for it again, provided the same
    passphrase (up to stripping) is typed when the key was encrypted. *)
Theorem stored_key_found_at_restart (disk : key_files) (s : setup_session)
    (api_key : pystr) (disk' : key_files) (typed_phrase' : pystr)
    (s' : setup_session) :
  config_json disk = None ->
  api_key_enc disk = None ->
  python_str api_key ->
  In (str_strip (typed_choice s)) [py "1"; py "2"; py "3"] ->
  _setup_api_key_interactive disk s = Some (api_key, disk') ->
  str_strip typed_phrase' = str_strip (typed_save_phrase s) ->
  _load_api_key disk' None None typed_phrase' s' = Some (api_key, disk').
Proof.
  intros Hconfig Henc Hv Hchoice Hsetup Hp.
  unfold _setup_api_key_interactive in Hsetup.
  destruct (str_strip (typed_api_key s)) as [|c k] eqn:Ekey; [discriminate|].
  assert (str_strip (c :: k) = c :: k) as Hstrip
      by (rewrite <- Ekey; apply str_strip_idem).
  destruct Hchoice as [E|[E|[E|[]]]]; rewrite <- E in Hsetup; clear E.
  - change (str_eqb (py "1") (py "1")) with true in Hsetup. cbv iota in Hsetup.
    destruct (_save_encrypted_api_key _ _ _ _ _) as [d|e] eqn:Es;
      [|discriminate].
    injection Hsetup as <- <-.
    destruct (@save_encrypted_then_load _ _ _ _ _ _ _ _ _ Hv Es Hp)
      as (Hc & [[Hne Hload]|[Htxt He]]);
      unfold _load_api_key; rewrite Hc, Hconfig.
    + destruct (api_key_enc d); [|congruence]. now rewrite Hload.
    + rewrite He, Henc, Htxt, Hstrip. reflexivity.
  - change (str_eqb (py "2") (py "1")) with false in Hsetup.
    change (str_eqb (py "2") (py "2")) with true in Hsetup.
    cbv iota in Hsetup. unfold _save_config_file in Hsetup.
    destruct (setup_can_write s (py "config.json")); [|discriminate].
    injection Hsetup as <- <-.
    unfold _load_api_key. cbn [config_json].
    rewrite json_load_dump, Hconfig. reflexivity.
  - change (str_eqb (py "3") (py "1")) with false in Hsetup.
    change (str_eqb (py "3") (py "2")) with false in Hsetup.
    change (str_eqb (py "3") (py "3")) with true in Hsetup.
    cbv iota in Hsetup. unfold _save_plain_api_key in Hsetup.
    destruct (setup_can_write s (py "api_key.txt")); [|discriminate].
    injection Hsetup as <- <-.
    unfold _load_api_key. cbn [config_json api_key_enc api_key_txt].
    rewrite Hconfig, Henc, Hstrip. reflexivity.
Qed.

(** X17 -- A first start cannot store the key.  On a start without key
    in the argument, the environment and the files, in which no file of
    the dictionary folder can be created (the folder is created only
    after the key was loaded), choosing one of the three ways of storing
    the key ends the program instead of returning the key that was
    typed. *)
Theorem first_start_cannot_store_key (typed_phrase : pystr)
    (s : setup_session) :
  (forall name, setup_can_write s name = false) ->
  In (str_strip (typed_choice s)) [py "1"; py "2"; py "3"] ->
  _load_api_key no_key_files None None typed_phrase s = None.
Proof.
  intros Hw Hchoice.
  unfold _load_api_key. cbn [no_key_files config_json api_key_enc api_key_txt].
  unfold _setup_api_key_interactive.
  destruct (str_strip (typed_api_key s)) as [|c k]; [reflexivity|].
  destruct Hchoice as [<-|[<-|[<-|[]]]].
  - change (str_eqb (py "1") (py "1")) with true. cbv iota.
    unfold _save_encrypted_api_key, _save_plain_api_key. rewrite !Hw.
    destruct (xor_chars _ _ _ _) as [x|]; [|reflexivity].
    destruct (b64encode_utf8 x); reflexivity.
  - change (str_eqb (py "2") (py "1")) with false.
    change (str_eqb (py "2") (py "2")) with true. cbv iota.
    unfold _save_config_file. now rewrite Hw.
  - change (str_eqb (py "3") (py "1")) with false.
    change (str_eqb (py "3") (py "2")) with false.
    change (str_eqb (py "3") (py "3")) with true. cbv iota.
    unfold _save_plain_api_key. now rewrite Hw.
Qed.

End RestartKeyFacts.

Lemma stored_key_found_at_restart_witness :
  _load_api_key
    (disk_of (_setup_api_key_interactive no_key_files
                (session " 1 " " tea " true)))
    None None (py "tea") (session "4" "" true)
  = Some (py "sk-ant-api03-XYZ",
          disk_of (_setup_api_key_interactive no_key_files
                     (session " 1 " " tea " true))).
Proof.
  apply (@stored_key_found_at_restart _ _ no_key_files
           (session " 1 " " tea " true)).
  - reflexivity.
  - reflexivity.
  - apply python_str_forallb. reflexivity.
  - left. reflexivity.
  - reflexivity.
  - reflexivity.
Defined.

Lemma first_start_cannot_store_key_witness :
  _load_api_key no_key_files None None [] (session "2" "" false) = None.
Proof.
  apply first_start_cannot_store_key.
  - intros name. reflexivity.
  - right. left. reflexivity.
Defined.

(** ** The key on the screen *)

Lemma In_skipn_le (A : Type) (m n : nat) (l : list A) (x : A) :
  (m <= n)%nat -> In x (skipn n l) -> In x (skipn m l).
Proof.
  intros Hmn Hx.
  replace n with ((n - m) + m)%nat in Hx by lia.
  rewrite <- skipn_skipn in Hx.
  rewrite <- (firstn_skipn (n - m) (skipn m l)). apply in_or_app. now right.
Qed.

Lemma firstn_length_app (A : Type) (a r : list A) :
  firstn (List.length a) (a ++ r) = a.
Proof.
  induction a as [|x a IH]; simpl; [reflexivity | now rewrite IH].
Qed.

Lemma skipn_length_app (A : Type) (a r : list A) :
  skipn (List.length a) (a ++ r) = r.
Proof.
  induction a as [|x a IH]; simpl; [reflexivity | exact IH].
Qed.

(** X18 -- What [_show_api_key_status] hides of the key.  The mask of a
    key of at least 12 characters has the length of the key, shows its
    first 8 and last 4 characters and replaces every character between
    them by a star.  A key of fewer than 12 characters is not masked at
    all: the mask holds no star of its own and every character of the
    key is printed. *)
Theorem masked_key_hides_long_keys_only (key : pystr) :
  ((12 <= List.length key)%nat ->
   List.length (masked_key key) = List.length key
   /\ firstn 8 (masked_key key) = firstn 8 key
   /\ skipn (List.length key - 4) (masked_key key)
      = skipn (List.length key - 4) key
   /\ firstn (List.length key - 12) (skipn 8 (masked_key key))
      = repeat 42%N (List.length key - 12))
  /\ ((List.length key < 12)%nat ->
      masked_key key = firstn 8 key ++ skipn (List.length key - 4) key
      /\ forall c, In c key -> In c (masked_key key)).
Proof.
  unfold masked_key, str_len. split; intros Hlen.
  - replace (Z.to_nat (Z.of_nat (List.length key) - 12))
      with (List.length key - 12)%nat by lia.
    set (n := List.length key) in *.
    assert (List.length (firstn 8 key) = 8%nat) as Ha
        by (rewrite length_firstn; fold n; lia).
    assert (List.length (repeat 42%N (n - 12)) = (n - 12)%nat) as Hb
        by apply repeat_length.
    assert (List.length (skipn (n - 4) key) = 4%nat) as Hc
        by (rewrite length_skipn; fold n; lia).
    remember (firstn 8 key) as a eqn:Ea.
    remember (repeat 42%N (n - 12)) as b eqn:Eb.
    remember (skipn (n - 4) key) as c eqn:Ec.
    split; [|split; [|split]].
    + rewrite !length_app. unfold codepoint in *. lia.
    + rewrite <- Ha. apply firstn_length_app.
    + replace (n - 4)%nat with (List.length (a ++ b))
        by (rewrite length_app; unfold codepoint in *; lia).
      rewrite app_assoc. apply skipn_length_app.
    + pose proof (@skipn_length_app _ a (b ++ c)) as Hs. rewrite Ha in Hs.
      rewrite Hs, <- Hb. apply firstn_length_app.
  - replace (Z.to_nat (Z.of_nat (List.length key) - 12)) with 0%nat by lia.
    cbn [repeat app]. split; [reflexivity|]. intros c Hc.
    rewrite <- (firstn_skipn 8 key) in Hc. apply in_app_or in Hc.
    apply in_or_app. destruct Hc as [Hc|Hc]; [now left | right].
    apply In_skipn_le with (n := 8%nat); [lia | exact Hc].
Qed.

(** ** What the prompts return *)

Lemma looks_like_api_key_false (limit : Z) (s : pystr) :
  looks_like_api_key limit s = false -> unlike_api_key limit s.
Proof.
  unfold looks_like_api_key, unlike_api_key. intros H.
  apply orb_false_iff in H as [H Hlen].
  apply orb_false_iff in H as [H H3].
  apply orb_false_iff in H as [H1 H2].
  apply Z.ltb_ge in Hlen. now repeat split.
Qed.

Section ValidationFacts.
Context {RT : PyRuntime} {RX : Regex}.

Lemma validate_file_path_true (file_path : pystr) :
  validate_file_path file_path = true ->
  file_path <> []
  /\ unlike_api_key 300 file_path
  /\ (existsb (fun ext => str_endswith ext (str_lower file_path))
              audio_extensions = true
      \/ ((str_contains [92%N] file_path || str_contains [47%N] file_path)
          = true
          /\ (3 < str_len file_path)%Z)).
Proof.
  unfold validate_file_path. destruct file_path as [|c r]; [discriminate|].
  destruct (looks_like_api_key 300 (c :: r)) eqn:Ek; [discriminate|].
  intros H. split; [discriminate|].
  split; [now apply looks_like_api_key_false|].
  destruct (existsb _ audio_extensions); [now left|]. right.
  destruct (str_contains [92%N] (c :: r) || str_contains [47%N] (c :: r));
    [|discriminate].
  destruct (3 <? str_len (c :: r))%Z eqn:E; [|discriminate].
  apply Z.ltb_lt in E. now split.
Qed.

Lemma validate_youtube_url_true (url : pystr) :
  validate_youtube_url url = true -> url <> [] /\ unlike_api_key 100 url.
Proof.
  unfold validate_youtube_url. destruct url as [|c r]; [discriminate|].
  destruct (looks_like_api_key 100 (c :: r)) eqn:Ek; [discriminate|].
  intros _. split; [discriminate | now apply looks_like_api_key_false].
Qed.

Lemma file_path_attempts_sound (typed : nat -> pystr)
    (os_path_exists : pystr -> bool) :
  forall (remaining attempt : nat) (p : pystr),
    file_path_attempts typed os_path_exists attempt remaining = Some p ->
    exists a,
      (attempt <= a < attempt + remaining)%nat
      /\ p = path_candidate typed a
      /\ validate_file_path p = true
      /\ os_path_exists p = true
      /\ forall earlier, (attempt <= earlier < a)%nat ->
                         file_path_rejected typed os_path_exists earlier.
Proof.
  induction remaining as [|remaining IH]; intros attempt p H; simpl in H;
    [discriminate|].
  assert (file_path_rejected typed os_path_exists attempt ->
          file_path_attempts typed os_path_exists (S attempt) remaining
          = Some p ->
          exists a,
            (attempt <= a < attempt + S remaining)%nat
            /\ p = path_candidate typed a
            /\ validate_file_path p = true
            /\ os_path_exists p = true
            /\ forall earlier, (attempt <= earlier < a)%nat ->
                 file_path_rejected typed os_path_exists earlier) as Hnext.
  { intros Hrej Hrec.
    destruct (IH _ _ Hrec) as (a & Ha & Hp & Hv & He & Hearlier).
    exists a. repeat split; try assumption; try lia.
    intros earlier Hr.
    destruct (Nat.eq_dec earlier attempt) as [->|Hne]; [exact Hrej|].
    apply Hearlier. lia. }
  destruct (str_strip (typed attempt)) as [|c r] eqn:Es.
  - apply Hnext; [|exact H]. left. exact Es.
  - fold (path_candidate typed attempt) in *.
    assert (str_strip_chars quotes (c :: r) = path_candidate typed attempt)
      as Ec by (unfold path_candidate; now rewrite Es).
    rewrite Ec in H.
    destruct (validate_file_path (path_candidate typed attempt)) eqn:Ev;
      [|apply Hnext; [right; left; exact Ev | exact H]].
    destruct (os_path_exists (path_candidate typed attempt)) eqn:Ee;
      [|apply Hnext; [right; right; exact Ee | exact H]].
    injection H as <-. exists attempt.
    repeat split; try assumption; lia.
Qed.

(** X19 -- What the prompt of an audio file returns.  A path returned by
    [get_file_path_with_validation] is what one of the three lines typed
    becomes once spaces and quotes are stripped, it is the first of them
    that passes the validation and exists, it exists, and it does not
    look like an API key: it is not empty, has at most 300 characters and
    starts with none of [sk-], [api-] and [key-]; it ends with an audio
    extension or holds a path separator and more than 3 characters. *)
Theorem returned_file_path_is_checked (typed : nat -> pystr)
    (os_path_exists : pystr -> bool) (p : pystr) :
  get_file_path_with_validation typed os_path_exists = Some p ->
  (exists attempt,
      (attempt < 3)%nat
      /\ p = path_candidate typed attempt
      /\ forall earlier, (earlier < attempt)%nat ->
                         file_path_rejected typed os_path_exists earlier)
  /\ os_path_exists p = true
  /\ p <> []
  /\ unlike_api_key 300 p
  /\ (existsb (fun ext => str_endswith ext (str_lower p)) audio_extensions
      = true
      \/ ((str_contains [92%N] p || str_contains [47%N] p) = true
          /\ (3 < str_len p)%Z)).
Proof.
  intros H. unfold get_file_path_with_validation in H.
  destruct (file_path_attempts_sound _ _ _ _ H)
    as (a & Ha & Hp & Hv & He & Hearlier).
  destruct (validate_file_path_true _ Hv) as (Hne & Hk & Hshape).
  split; [|split; [exact He | split; [exact Hne | split; assumption]]].
  exists a. split; [lia|]. split; [exact Hp|].
  intros earlier Hr. apply Hearlier. lia.
Qed.

Lemma youtube_url_attempts_sound (typed : nat -> pystr) :
  forall (remaining attempt : nat) (url : pystr),
    youtube_url_attempts typed attempt remaining = Some url ->
    exists a,
      (attempt <= a < attempt + remaining)%nat
      /\ url = str_strip (typed a)
      /\ validate_youtube_url url = true
      /\ forall earlier, (attempt <= earlier < a)%nat ->
                         youtube_url_rejected typed earlier.
Proof.
  induction remaining as [|remaining IH]; intros attempt url H; simpl in H;
    [discriminate|].
  assert (youtube_url_rejected typed attempt ->
          youtube_url_attempts typed (S attempt) remaining = Some url ->
          exists a,
            (attempt <= a < attempt + S remaining)%nat
            /\ url = str_strip (typed a)
            /\ validate_youtube_url url = true
            /\ forall earlier, (attempt <= earlier < a)%nat ->
                 youtube_url_rejected typed earlier) as Hnext.
  { intros Hrej Hrec.
    destruct (IH _ _ Hrec) as (a & Ha & Hp & Hv & Hearlier).
    exists a. repeat split; try assumption; try lia.
    intros earlier Hr.
    destruct (Nat.eq_dec earlier attempt) as [->|Hne]; [exact Hrej|].
    apply Hearlier. lia. }
  unfold youtube_url_rejected in Hnext.
  destruct (str_strip (typed attempt)) as [|c r] eqn:Es.
  - apply Hnext; [reflexivity | exact H].
  - destruct (validate_youtube_url (c :: r)) eqn:Ev;
      [|apply Hnext; [reflexivity | exact H]].
    injection H as <-. exists attempt.
    repeat split; try assumption; try lia. now symmetry.
Qed.

(** X20 -- What the prompt of a URL returns.  A URL returned by
    [get_youtube_url_with_validation] is one of the three lines typed,
    stripped, and the first of them that [validate_youtube_url] accepts;
    it is not empty, has at most 100 characters and starts with none of
    [sk-], [api-] and [key-], whatever the patterns match. *)
Theorem returned_youtube_url_is_checked (typed : nat -> pystr)
    (url : pystr) :
  get_youtube_url_with_validation typed = Some url ->
  (exists attempt,
      (attempt < 3)%nat
      /\ url = str_strip (typed attempt)
      /\ forall earlier, (earlier < attempt)%nat ->
                         youtube_url_rejected typed earlier)
  /\ validate_youtube_url url = true
  /\ url <> []
  /\ unlike_api_key 100 url.
Proof.
  intros H. unfold get_youtube_url_with_validation in H.
  destruct (youtube_url_attempts_sound _ _ _ H)
    as (a & Ha & Hp & Hv & Hearlier).
  destruct (validate_youtube_url_true _ Hv) as (Hne & Hk).
  split; [|split; [exact Hv | split; assumption]].
  exists a. split; [lia|]. split; [exact Hp|].
  intros earlier Hr. apply Hearlier. lia.
Qed.

Lemma folder_path_attempts_sound (typed : nat -> pystr)
    (is_folder : pystr -> bool) :
  forall (remaining attempt : nat) (p : pystr),
    folder_path_attempts typed is_folder attempt remaining = Some p ->
    exists a,
      (attempt <= a < attempt + remaining)%nat
      /\ p = path_candidate typed a
      /\ str_strip (typed a) <> []
      /\ looks_like_api_key 300 p = false
      /\ is_folder p = true
      /\ forall earlier, (attempt <= earlier < a)%nat ->
                         folder_path_rejected typed is_folder earlier.
Proof.
  induction remaining as [|remaining IH]; intros attempt p H; simpl in H;
    [discriminate|].
  assert (folder_path_rejected typed is_folder attempt ->
          folder_path_attempts typed is_folder (S attempt) remaining
          = Some p ->
          exists a,
            (attempt <= a < attempt + S remaining)%nat
            /\ p = path_candidate typed a
            /\ str_strip (typed a) <> []
            /\ looks_like_api_key 300 p = false
            /\ is_folder p = true
            /\ forall earlier, (attempt <= earlier < a)%nat ->
                 folder_path_rejected typed is_folder earlier) as Hnext.
  { intros Hrej Hrec.
    destruct (IH _ _ Hrec) as (a & Ha & Hp & Hs & Hv & He & Hearlier).
    exists a. repeat split; try assumption; try lia.
    intros earlier Hr.
    destruct (Nat.eq_dec earlier attempt) as [->|Hne]; [exact Hrej|].
    apply Hearlier. lia. }
  destruct (str_strip (typed attempt)) as [|c r] eqn:Es.
  - apply Hnext; [|exact H]. left. exact Es.
  - assert (str_strip_chars quotes (c :: r) = path_candidate typed attempt)
      as Ec by (unfold path_candidate; now rewrite Es).
    rewrite Ec in H.
    destruct (looks_like_api_key 300 (path_candidate typed attempt)) eqn:Ev;
      [apply Hnext; [right; left; exact Ev | exact H]|].
    destruct (is_folder (path_candidate typed attempt)) eqn:Ee;
      [|apply Hnext; [right; right; exact Ee | exact H]].
    injection H as <-. exists attempt.
    repeat split; try assumption; try lia. now rewrite Es.
Qed.

(** X21 -- What the prompt of a folder returns.  A path returned by
    [get_folder_path_with_validation] comes from one of the three lines
    typed, with spaces and quotes stripped, and is the first of them that
    does not look like an API key and is an existing folder; the line was
    not blank, and the path has at most 300 characters and starts with
    none of [sk-], [api-] and [key-]. *)
Theorem returned_folder_path_is_checked (typed : nat -> pystr)
    (is_folder : pystr -> bool) (p : pystr) :
  get_folder_path_with_validation typed is_folder = Some p ->
  exists attempt,
    (attempt < 3)%nat
    /\ p = path_candidate typed attempt
    /\ str_strip (typed attempt) <> []
    /\ is_folder p = true
    /\ unlike_api_key 300 p
    /\ forall earlier, (earlier < attempt)%nat ->
                       folder_path_rejected typed is_folder earlier.
Proof.
  intros H. unfold get_folder_path_with_validation in H.
  destruct (folder_path_attempts_sound _ _ _ _ H)
    as (a & Ha & Hp & Hs & Hv & He & Hearlier).
  exists a. split; [lia|]. split; [exact Hp|]. split; [exact Hs|].
  split; [exact He|]. split; [now apply looks_like_api_key_false|].
  intros earlier Hr. apply Hearlier. lia.
Qed.

End ValidationFacts.

Lemma returned_file_path_is_checked_witness :
  get_file_path_with_validation typed_paths (fun _ => true)
  = Some (py "D:\rec\a.MP3")
  /\ unlike_api_key 300 (py "D:\rec\a.MP3").
Proof.
  split; [reflexivity|].
  apply (@returned_file_path_is_checked plain_runtime typed_paths
           (fun _ => true)).
  reflexivity.
Defined.

Lemma returned_youtube_url_is_checked_witness :
  get_youtube_url_with_validation (RX := no_match) typed_urls
  = Some (py "https://youtu.be/abc")
  /\ unlike_api_key 100 (py "https://youtu.be/abc").
Proof.
  split; [reflexivity|].
  apply (@returned_youtube_url_is_checked plain_runtime no_match typed_urls).
  reflexivity.
Defined.

Lemma returned_folder_path_is_checked_witness :
  get_folder_path_with_validation typed_paths (fun _ => true)
  = Some (py "D:\rec\a.MP3")
  /\ unlike_api_key 300 (py "D:\rec\a.MP3").
Proof.
  split; [reflexivity|].
  destruct (@returned_folder_path_is_checked typed_paths (fun _ => true)
              (py "D:\rec\a.MP3") eq_refl)
    as (attempt & _ & _ & _ & _ & Hk & _).
  exact Hk.
Defined.

(** ** The batch *)

Lemma fold_left_extend (A B : Type) (g h : B -> list A) (l : list B) :
  forall acc,
    fold_left (fun acc x => (acc ++ g x) ++ h x) l acc
    = acc ++ flat_map (fun x => g x ++ h x) l.
Proof.
  induction l as [|x l IH]; intros acc; simpl.
  - now rewrite app_nil_r.
  - now rewrite IH, <- !app_assoc.
Qed.

Lemma found_audio_files_flat_map (glob : pystr -> list pystr) :
  found_audio_files glob
  = flat_map (fun ext => glob (py "*" ++ ext)
                         ++ glob (py "*" ++ ascii_upper ext))
             batch_extensions.
Proof.
  unfold found_audio_files. now rewrite fold_left_extend.
Qed.

(** X22 -- A file system that ignores case doubles the batch.  When the
    pattern of an upper-case extension finds the same files as the pattern
    of the extension itself, as on a file system whose names ignore case,
    every file [batch_process_folder] finds is in its list at least twice,
    and is therefore processed at least twice. *)
Theorem batch_lists_files_twice (glob : pystr -> list pystr) (f : pystr) :
  (forall ext, In ext batch_extensions ->
               glob (py "*" ++ ascii_upper ext) = glob (py "*" ++ ext)) ->
  In f (found_audio_files glob) ->
  exists l1 l2 l3, found_audio_files glob = l1 ++ f :: l2 ++ f :: l3.
Proof.
  intros Hcase Hin. rewrite found_audio_files_flat_map in *.
  apply in_flat_map in Hin as (ext & Hext & Hf).
  rewrite (Hcase ext Hext) in Hf.
  assert (In f (glob (py "*" ++ ext))) as Hg
      by (apply in_app_or in Hf; tauto).
  apply in_split in Hg as (a & b & Hg).
  apply in_split in Hext as (e1 & e2 & He).
  rewrite He, flat_map_app. cbn [flat_map].
  rewrite (Hcase ext) by (rewrite He; apply in_elt).
  rewrite Hg.
  exists (flat_map (fun ext => glob (py "*" ++ ext)
                               ++ glob (py "*" ++ ascii_upper ext)) e1 ++ a),
         (b ++ a),
         (b ++ flat_map (fun ext => glob (py "*" ++ ext)
                                    ++ glob (py "*" ++ ascii_upper ext)) e2).
  repeat (rewrite <- ?app_assoc; cbn [app]). reflexivity.
Qed.

Lemma batch_lists_files_twice_witness :
  exists l1 l2 l3,
    found_audio_files glob_ignoring_case
    = l1 ++ py "D:\rec\a.mp3" :: l2 ++ py "D:\rec\a.mp3" :: l3.
Proof.
  apply batch_lists_files_twice.
  - intros ext Hext. cbn [batch_extensions In] in Hext.
    repeat (destruct Hext as [<-|Hext]; [reflexivity|]). contradiction.
  - left. reflexivity.
Defined.

Section BatchFacts.
Context {RT : PyRuntime} {EM : Embedder}.
Context {JC : Json (dict pystr)} {JP : Json (dict conf_pattern)}.
Context {JD : Json (list Entry.t)}.

Lemma process_item_result (self : rag) env source_type source_path title
    (self' : rag) (done : bool) :
  process_item self env source_type source_path title = (self', Return done) ->
  if done then exists e, database self' = database self ++ [e]
  else database self' = database self.
Proof.
  unfold process_item.
  destruct (transcribe_with_claude_correction _ _ _ _ _ _) as [ci result].
  destruct (success result); simpl.
  - pose proof (classify_text_database (set_claude_integration self ci)
                  (env_classify_post env) (corrected_transcript result))
      as Hc.
    destruct (classify_text _ _ _) as [self1 category]. simpl in Hc.
    match goal with
    | |- context [add_to_database ?s ?fs ?a ?b ?c ?d ?e ?f ?g ?h ?i] =>
      destruct (add_to_database_grows s fs a b c d e f g h i)
        as (x & Hdb & _);
      destruct (add_to_database s fs a b c d e f g h i) as [self2 [u|err]]
    end; [|discriminate].
    intros H. injection H as <- <-. exists x.
    simpl in Hdb. now rewrite Hdb, Hc.
  - intros H. injection H as <- <-. reflexivity.
Qed.

Lemma process_audio_file_result (self : rag) env file_exists file_path
    (self' : rag) (done : bool) :
  process_audio_file self env file_exists file_path = (self', Return done) ->
  if done then exists e, database self' = database self ++ [e]
  else database self' = database self.
Proof.
  unfold process_audio_file. destruct file_exists; simpl.
  - apply process_item_result.
  - intros H. injection H as <- <-. reflexivity.
Qed.

Lemma batch_loop_summary (calls : nat -> world * bool) :
  forall (audio_files : list pystr) (self : rag) (i : nat)
         (success_count : Z) (total_cost : float) (self' : rag)
         (n : Z) (total : float),
    batch_loop self calls i audio_files success_count total_cost
    = (self', Return (n, total)) ->
    exists added,
      database self' = database self ++ added
      /\ n = (success_count + Z.of_nat (List.length added))%Z
      /\ (List.length added <= List.length audio_files)%nat
      /\ total = added_cost added total_cost.
Proof.
  induction audio_files as [|audio_file rest IH];
    intros self i success_count total_cost self' n total H; simpl in H.
  - injection H as <- <- <-. exists []. simpl.
    rewrite app_nil_r. repeat split; lia.
  - destruct (calls i) as [env file_exists].
    destruct (process_audio_file self env file_exists audio_file)
      as [self1 [[|]|err]] eqn:Ep; [| |discriminate].
    + apply process_audio_file_result in Ep as (e & Hdb).
      rewrite Hdb, rev_app_distr in H. cbn [rev app] in H.
      destruct (IH _ _ _ _ _ _ _ H) as (added & Hdb' & Hn & Hlen & Htotal).
      exists (e :: added). rewrite Hdb', Hdb, <- app_assoc.
      repeat split; simpl; try lia. exact Htotal.
    + apply process_audio_file_result in Ep.
      destruct (IH _ _ _ _ _ _ _ H) as (added & Hdb' & Hn & Hlen & Htotal).
      exists added. rewrite Hdb', Ep. repeat split; simpl; try lia.
      exact Htotal.
Qed.

(** X23 -- The summary of a batch counts the new records.  When
    [batch_process_folder] reaches its summary, the index is the one
    before the batch followed by new records, as many as the number of
    successes the summary prints and at most as many as the files found,
    and the total cost it prints is the sum, in order, of the costs of
    exactly these records. *)
Theorem batch_summary_counts_new_records (self : rag) (folder_exists : bool)
    (glob : pystr -> list pystr) (typed : pystr)
    (calls : nat -> world * bool) (self' : rag) (n : Z) (total : float) :
  batch_process_folder self folder_exists glob typed calls
  = (self', Return (Some (n, total))) ->
  exists added,
    database self' = database self ++ added
    /\ n = Z.of_nat (List.length added)
    /\ (List.length added <= List.length (found_audio_files glob))%nat
    /\ total = added_cost added 0%float.
Proof.
  unfold batch_process_folder.
  destruct folder_exists; cbn [negb]; [|discriminate].
  destruct (found_audio_files glob) as [|f files] eqn:Ef; [discriminate|].
  destruct (str_eqb _ _); cbn [negb]; [|discriminate].
  destruct (batch_loop self calls 1 (f :: files) 0 0)
    as [self1 [[n1 total1]|err]] eqn:Eb; [|discriminate].
  intros H. injection H as <- <- <-.
  destruct (batch_loop_summary _ _ _ _ _ _ Eb)
    as (added & Hdb & Hn & Hlen & Htotal).
  exists added. repeat split; try assumption; lia.
Qed.

End BatchFacts.

Lemma batch_summary_counts_new_records_witness :
  exists added,
    database
      (fst (batch_process_folder fresh_rag true glob_ignoring_case (py " Y ")
              (fun _ => (world_at_its_best, true))))
    = database fresh_rag ++ added
    /\ fst (batch_summary
              (batch_process_folder fresh_rag true glob_ignoring_case
                 (py " Y ") (fun _ => (world_at_its_best, true))))
       = Z.of_nat (List.length added)
    /\ (List.length added
        <= List.length (found_audio_files glob_ignoring_case))%nat
    /\ snd (batch_summary
              (batch_process_folder fresh_rag true glob_ignoring_case
                 (py " Y ") (fun _ => (world_at_its_best, true))))
       = added_cost added 0%float.
Proof.
  apply (@batch_summary_counts_new_records _ _ _ _ _ fresh_rag true
           glob_ignoring_case (py " Y ")
           (fun _ => (world_at_its_best, true))).
  vm_compute. reflexivity.
Defined.

(** ** The proof of concept *)

Section PocFacts.
Context {RT : PyRuntime} {EM : Embedder} {JD : Json (list Poc.entry)}.

Lemma poc_add_to_database_appends (self : Poc.system)
    (now source_type source_path title transcript category : pystr) :
  let self' :=
    Poc.add_to_database self now source_type source_path title transcript
                        category in
  exists e,
    Poc.database self' = Poc.database self ++ [e]
    /\ Poc.id e = (Z.of_nat (List.length (Poc.database self)) + 1)%Z
    /\ Poc.source_type e = source_type
    /\ Poc.source_path e = source_path
    /\ Poc.title e = title
    /\ Poc.transcript e = transcript
    /\ Poc.category e = category
    /\ Poc.load_database (Poc.db_file self') = Poc.database self'.
Proof.
  cbv zeta. unfold Poc.add_to_database, Poc.save_database, Poc.load_database.
  cbn [Poc.database Poc.db_file]. rewrite json_load_dump.
  eexists. repeat split.
Qed.

(** X24 -- A record only for a transcript.  [process_audio_file] of the
    proof of concept reports success exactly when the file exists and the
    recognition returned a text that is not empty; an empty text counts
    as a failed conversion.  On success exactly one record is appended,
    numbered after the records present, with the text, its keyword
    category and the base name of the file as title, and the file of the
    database holds the new index; otherwise nothing changes. *)
Theorem poc_record_only_for_a_transcript (self : Poc.system)
    (file_exists : bool) (heard : outcome pystr) (now file_path : pystr) :
  let r := Poc.process_audio_file self file_exists heard now file_path in
  (snd r = true
   <-> file_exists = true /\ exists c t, heard = Return (c :: t))
  /\ (snd r = false -> fst r = self)
  /\ (forall transcript,
         snd r = true -> heard = Return transcript ->
         exists e,
           Poc.database (fst r) = Poc.database self ++ [e]
           /\ Poc.id e = (Z.of_nat (List.length (Poc.database self)) + 1)%Z
           /\ Poc.source_path e = file_path
           /\ Poc.title e = os_path_basename file_path
           /\ Poc.transcript e = transcript
           /\ Poc.category e = Poc.classify_text transcript
           /\ Poc.load_database (Poc.db_file (fst r)) = Poc.database (fst r)).
Proof.
  cbv zeta. unfold Poc.process_audio_file, Poc.transcribe_audio.
  destruct file_exists; cbn [negb].
  - destruct heard as [[|c t]|e]; cbn [fst snd].
    + split; [|split]; [split|reflexivity|discriminate].
      * discriminate.
      * intros (_ & c & t & H). discriminate.
    + split; [|split].
      * split; [intros _; split; [reflexivity | now exists c, t]
               | reflexivity].
      * discriminate.
      * intros transcript _ H. injection H as <-.
        destruct (poc_add_to_database_appends self now (py "file") file_path
                    (os_path_basename file_path) (c :: t)
                    (Poc.classify_text (c :: t)))
          as (e & Hdb & Hid & _ & Hp & Ht & Htr & Hc & Hl).
        exists e. repeat split; assumption.
    + split; [|split]; [split|reflexivity|discriminate].
      * discriminate.
      * intros (_ & c & t & H). discriminate.
  - cbn [fst snd]. split; [|split]; [split|reflexivity|discriminate].
    + discriminate.
    + intros (H & _). discriminate.
Qed.

(** X25 -- The outcomes of a URL in the proof of concept.
    [process_youtube_url] raises a [TypeError] when the download left no
    [.mp3] file, because [download_youtube_audio] then returns nothing to
    unpack.  It returns [True] exactly when a path that is not empty was
    downloaded and the recognition returned a text that is not empty, and
    then exactly one record is appended, whose source is the URL and
    whose title is the one of the download; in every other case the
    state is unchanged. *)
Theorem poc_youtube_outcomes (self : Poc.system) (downloaded : Poc.download)
    (heard : outcome pystr) (now url : pystr) :
  let r := Poc.process_youtube_url self downloaded heard now url in
  (downloaded = Poc.NoMp3Found
   <-> snd r = Raise (PyError "TypeError"))
  /\ (snd r = Return true
      <-> exists c p title c' t,
            downloaded = Poc.Downloaded (c :: p) title
            /\ heard = Return (c' :: t))
  /\ (snd r <> Return true -> fst r = self)
  /\ (forall audio_path title transcript,
         downloaded = Poc.Downloaded audio_path title ->
         heard = Return transcript ->
         snd r = Return true ->
         exists e,
           Poc.database (fst r) = Poc.database self ++ [e]
           /\ Poc.id e = (Z.of_nat (List.length (Poc.database self)) + 1)%Z
           /\ Poc.source_path e = url
           /\ Poc.title e = title
           /\ Poc.transcript e = transcript
           /\ Poc.category e = Poc.classify_text transcript
           /\ Poc.load_database (Poc.db_file (fst r)) = Poc.database (fst r)).
Proof.
  cbv zeta. unfold Poc.process_youtube_url, Poc.transcribe_audio.
  destruct downloaded as [[|a p] title| |]; cbn [fst snd].
  - split; [split; discriminate|]. split; [|split].
    + split; [discriminate|]. intros (c & q & ti & c' & t & H & _).
      discriminate.
    + reflexivity.
    + discriminate.
  - destruct heard as [[|c t]|e]; cbn [fst snd].
    + split; [split; discriminate|]. split; [|split].
      * split; [discriminate|]. intros (c & q & ti & c' & t & _ & H).
        discriminate.
      * reflexivity.
      * discriminate.
    + split; [split; discriminate|]. split; [|split].
      * split; [|reflexivity]. intros _. now exists a, p, title, c, t.
      * congruence.
      * intros audio_path title' transcript H1 H2 _.
        injection H1 as <- <-. injection H2 as <-.
        destruct (poc_add_to_database_appends self now (py "youtube") url
                    title (c :: t) (Poc.classify_text (c :: t)))
          as (e & Hdb & Hid & _ & Hp & Ht & Htr & Hc & Hl).
        exists e. repeat split; assumption.
    + split; [split; discriminate|]. split; [|split].
      * split; [discriminate|]. intros (c & q & ti & c' & t & _ & H).
        discriminate.
      * reflexivity.
      * discriminate.
  - split; [split; discriminate|]. split; [|split].
    + split; [discriminate|]. intros (c & q & ti & c' & t & H & _).
      discriminate.
    + reflexivity.
    + discriminate.
  - split; [split; reflexivity|]. split; [|split].
    + split; [discriminate|]. intros (c & q & ti & c' & t & H & _).
      discriminate.
    + reflexivity.
    + discriminate.
Qed.

Lemma poc_category_scores_keys (text : pystr) :
  dict_keys (Poc.category_scores text) = dict_keys Poc.category_keywords.
Proof.
  unfold Poc.category_scores, dict_keys. rewrite map_map.
  apply map_ext. now intros [category keywords].
Qed.

(** X26 -- The keyword classifier of the proof of concept.  The category
    [classify_text] returns is one of the six of [category_keywords] or
    "その他"; when a keyword occurs in the lower-cased text it is the
    category with the highest number of occurrences, the first declared
    one among equals; and it is "その他" when no keyword occurs. *)
Theorem poc_classify_text_by_keywords (text : pystr) :
  In (Poc.classify_text text)
     (dict_keys Poc.category_keywords ++ [py "その他"])
  /\ ((exists c s, In (c, s) (Poc.category_scores text) /\ (0 < s)%Z) ->
      first_maximum (Poc.category_scores text) (Poc.classify_text text))
  /\ (Forall (fun p => snd p = 0%Z) (Poc.category_scores text) ->
      Poc.classify_text text = py "その他")
  /\ Poc.category_scores text
     = map (fun '(category, keywords) =>
              (category,
               fold_right Z.add 0%Z
                 (map (fun keyword =>
                         str_count (str_lower text) (str_lower keyword))
                      keywords)))
           Poc.category_keywords.
Proof.
  split; [|split; [|split]].
  - unfold Poc.classify_text.
    pose proof (poc_category_scores_keys text) as Hk.
    destruct (Poc.category_scores text) as [|kv r];
      [apply in_or_app; right; now left|].
    cbn [dict_max_value dict_max_key].
    destruct (0 <? _)%Z; [|apply in_or_app; right; now left].
    apply in_or_app. left. rewrite <- Hk. apply max_key_from_In.
  - apply first_maximum_or_other.
    unfold Poc.category_scores, Poc.category_keywords. discriminate.
  - apply first_maximum_or_other.
    unfold Poc.category_scores, Poc.category_keywords. discriminate.
  - unfold Poc.category_scores. apply map_ext. intros [category keywords].
    now rewrite fold_left_add_sum.
Qed.

End PocFacts.
